(** * The cache layer of the review-sentiment backend

    A shallow embedding of [backend/redis_config.py] (class [RedisConfig])
    and [backend/cache_utils.py] (class [CacheManager]), together with the
    cached wrappers of [backend/routes/dashboard.py] that the cache warmer
    calls, and the properties of the cache layer proved about them. *)

From Stdlib Require Import ZArith String Ascii List Lia Bool.
From Stdlib Require Import DecimalString.
From Stdlib Require Import Floats.SpecFloat.
From Stdlib Require Import Sorting.Sorted.
From stdpp Require Import gmap strings list sorting.

Set Warnings "-register-all".

Local Open Scope string_scope.
Local Open Scope Z_scope.

(** ** hashlib.md5

    [generate_cache_key] hashes the parameter string with MD5 (RFC 1321).
    32-bit words are [Z] with the wrap-around written out. *)

Module MD5.

Definition mask32 : Z := 0xFFFFFFFF.

Definition add32 (x y : Z) : Z := Z.land (x + y) mask32.

Definition not32 (x : Z) : Z := Z.lxor x mask32.

Definition rotl32 (x n : Z) : Z :=
  Z.land (Z.lor (Z.shiftl x n) (Z.shiftr x (32 - n))) mask32.

Definition K : list Z :=
  [ 0xd76aa478; 0xe8c7b756; 0x242070db; 0xc1bdceee;
    0xf57c0faf; 0x4787c62a; 0xa8304613; 0xfd469501;
    0x698098d8; 0x8b44f7af; 0xffff5bb1; 0x895cd7be;
    0x6b901122; 0xfd987193; 0xa679438e; 0x49b40821;
    0xf61e2562; 0xc040b340; 0x265e5a51; 0xe9b6c7aa;
    0xd62f105d; 0x02441453; 0xd8a1e681; 0xe7d3fbc8;
    0x21e1cde6; 0xc33707d6; 0xf4d50d87; 0x455a14ed;
    0xa9e3e905; 0xfcefa3f8; 0x676f02d9; 0x8d2a4c8a;
    0xfffa3942; 0x8771f681; 0x6d9d6122; 0xfde5380c;
    0xa4beea44; 0x4bdecfa9; 0xf6bb4b60; 0xbebfbc70;
    0x289b7ec6; 0xeaa127fa; 0xd4ef3085; 0x04881d05;
    0xd9d4d039; 0xe6db99e5; 0x1fa27cf8; 0xc4ac5665;
    0xf4292244; 0x432aff97; 0xab9423a7; 0xfc93a039;
    0x655b59c3; 0x8f0ccc92; 0xffeff47d; 0x85845dd1;
    0x6fa87e4f; 0xfe2ce6e0; 0xa3014314; 0x4e0811a1;
    0xf7537e82; 0xbd3af235; 0x2ad7d2bb; 0xeb86d391 ].

Definition S : list Z :=
  [ 7; 12; 17; 22; 7; 12; 17; 22; 7; 12; 17; 22; 7; 12; 17; 22;
    5;  9; 14; 20; 5;  9; 14; 20; 5;  9; 14; 20; 5;  9; 14; 20;
    4; 11; 16; 23; 4; 11; 16; 23; 4; 11; 16; 23; 4; 11; 16; 23;
    6; 10; 15; 21; 6; 10; 15; 21; 6; 10; 15; 21; 6; 10; 15; 21 ].

(** [str.encode()]: a [string] is its UTF-8 byte sequence. *)
Definition bytes_of_string (s : string) : list Z :=
  map (fun c => Z.of_N (N_of_ascii c)) (list_ascii_of_string s).

(** [n] bytes of [x], least significant first. *)
Definition le_bytes (n : nat) (x : Z) : list Z :=
  map (fun i => Z.land (Z.shiftr x (8 * Z.of_nat i)) 0xFF) (seq 0 n).

Definition pad (msg : list Z) : list Z :=
  let len := Z.of_nat (length msg) in
  msg ++ [0x80] ++ repeat 0 (Z.to_nat ((55 - len) mod 64))
      ++ le_bytes 8 (Z.land (8 * len) 0xFFFFFFFFFFFFFFFF).

Fixpoint word_of_le (bs : list Z) : Z :=
  match bs with
  | [] => 0
  | b :: bs' => Z.lor b (Z.shiftl (word_of_le bs') 8)
  end.

Fixpoint chunks (fuel n : nat) (l : list Z) : list (list Z) :=
  match fuel, l with
  | O, _ | _, [] => []
  | Datatypes.S fuel', _ => firstn n l :: chunks fuel' n (skipn n l)
  end.

Definition state : Type := Z * Z * Z * Z.

Definition init : state := (0x67452301, 0xefcdab89, 0x98badcfe, 0x10325476).

Definition step (M : list Z) (st : state) (i : nat) : state :=
  let '(a, b, c, d) := st in
  let iz := Z.of_nat i in
  let '(f, g) :=
    if iz <? 16 then (Z.lor (Z.land b c) (Z.land (not32 b) d), iz)
    else if iz <? 32 then
      (Z.lor (Z.land d b) (Z.land (not32 d) c), (5 * iz + 1) mod 16)
    else if iz <? 48 then (Z.lxor b (Z.lxor c d), (3 * iz + 5) mod 16)
    else (Z.lxor c (Z.lor b (not32 d)), (7 * iz) mod 16) in
  let f' := add32 (add32 (add32 f a) (nth i K 0)) (nth (Z.to_nat g) M 0) in
  (d, add32 b (rotl32 f' (nth i S 0)), b, c).

Definition process_block (st : state) (block : list Z) : state :=
  let M := map word_of_le (chunks 16 4 block) in
  let '(a, b, c, d) := st in
  let '(a', b', c', d') := fold_left (step M) (seq 0 64) st in
  (add32 a a', add32 b b', add32 c c', add32 d d').

Definition digest (msg : list Z) : list Z :=
  let padded := pad msg in
  let '(a, b, c, d) :=
    fold_left process_block (chunks (length padded) 64 padded) init in
  le_bytes 4 a ++ le_bytes 4 b ++ le_bytes 4 c ++ le_bytes 4 d.

Definition hex_digit (n : Z) : ascii :=
  nth (Z.to_nat n) (list_ascii_of_string "0123456789abcdef") "0"%char.

Definition hex2 (b : Z) : list ascii := [hex_digit (b / 16); hex_digit (b mod 16)].

(** [hashlib.md5(data).hexdigest()] *)
Definition hexdigest (s : string) : string :=
  string_of_list_ascii (flat_map hex2 (digest (bytes_of_string s))).

End MD5.

(** ** Outcomes of calls *)

(** An exception object; [str(e)] is [exn_msg e]. *)
Record exn := Exception { exn_type : string; exn_msg : string }.

(** The outcome of a call: a returned value or a raised exception. *)
Inductive result (A : Type) : Type :=
| Return (a : A)
| Raise (e : exn).
Arguments Return {A} a.
Arguments Raise {A} e.

(** ** Binary64 arithmetic

    Python floats are IEEE 754 binary64 numbers; [spec_float] with
    [prec = 53] and [emax = 1024] is their specification. *)

Module Float64.

Definition prec : Z := 53.
Definition emax : Z := 1024.

Definition mul : spec_float -> spec_float -> spec_float := SFmul prec emax.

(** [float(z)] *)
Definition of_int (z : Z) : spec_float := binary_normalize prec emax z 0 false.

(** The binary64 number nearest to the exact quotient [a / b] (ties to
    even), for [b <> 0]. *)
Definition of_ratio (a b : Z) : spec_float :=
  match a, b with
  | _, Z0 => S754_nan
  | Z0, _ => S754_zero (b <? 0)
  | _, _ =>
      SFdiv prec emax (S754_finite (a <? 0) (Z.to_pos (Z.abs a)) 0)
                      (S754_finite (b <? 0) (Z.to_pos (Z.abs b)) 0)
  end.

(** [a / b] on Python ints (true division): the correctly rounded
    quotient.  A zero divisor raises a [ZeroDivisionError], and a
    quotient that rounds beyond the range of binary64 raises an
    [OverflowError] where float arithmetic would give an infinity. *)
Definition int_true_div (a b : Z) : result spec_float :=
  if b =? 0 then Raise (Exception "ZeroDivisionError" "division by zero")
  else
    match of_ratio a b with
    | S754_infinity _ =>
        Raise (Exception "OverflowError"
                 "integer division result too large for a float")
    | q => Return q
    end.

(** The integer nearest to [num / den] for [0 <= num] and [0 < den],
    ties to even. *)
Definition round_half_even (num den : Z) : Z :=
  let q := num / den in
  let r := num mod den in
  match 2 * r ?= den with
  | Lt => q
  | Gt => q + 1
  | Eq => if Z.even q then q else q + 1
  end.

(** [round(x, ndigits)] for [0 <= ndigits]: the exact value of [x] is
    rounded (ties to even) to [ndigits] decimals, and the decimal result
    is converted back to the nearest binary64 number. *)
Definition py_round (x : spec_float) (ndigits : nat) : spec_float :=
  match x with
  | S754_finite s m e =>
      let scale := 10 ^ Z.of_nat ndigits in
      let n := round_half_even (Zpos m * scale * 2 ^ Z.max e 0) (2 ^ Z.max (- e) 0) in
      if n =? 0 then S754_zero s else of_ratio (if s then - n else n) scale
  | _ => x
  end.

End Float64.

(** ** Python values *)

(** Values passed as keyword arguments to the cached queries: [None],
    strings, ints and bools. *)
Inductive pyarg :=
| ANone
| AStr (s : string)
| AInt (z : Z)
| ABool (b : bool).

Definition arg_is_none (v : pyarg) : bool :=
  match v with ANone => true | _ => false end.

(** [str(z)] for an int. *)
Definition str_of_int (z : Z) : string := NilZero.string_of_int (Z.to_int z).

(** [f"{v}"] *)
Definition py_str (v : pyarg) : string :=
  match v with
  | ANone => "None"
  | AStr s => s
  | AInt z => str_of_int z
  | ABool b => if b then "True" else "False"
  end.

(** [**kwargs]: a dict in insertion order; its keys are distinct. *)
Definition kwargs : Type := list (string * pyarg).

(** [d[k] = v] on a dict in insertion order: an existing key keeps its
    place. *)
Fixpoint dict_set {K V : Type} (eqb : K -> K -> bool) (k : K) (v : V)
    (d : list (K * V)) : list (K * V) :=
  match d with
  | [] => [(k, v)]
  | (k', v') :: d' =>
      if eqb k k' then (k, v) :: d' else (k', v') :: dict_set eqb k v d'
  end.

(** [d.update(other)] *)
Definition dict_update {K V : Type} (eqb : K -> K -> bool)
    (d other : list (K * V)) : list (K * V) :=
  fold_left (fun acc kv => dict_set eqb kv.1 kv.2 acc) other d.

Fixpoint dict_get {V : Type} (k : string) (d : list (string * V)) : option V :=
  match d with
  | [] => None
  | (k', v) :: d' => if String.eqb k k' then Some v else dict_get k d'
  end.

(** Keys of the dicts a fetch function may return. *)
Inductive pykey :=
| KStr (s : string)
| KInt (z : Z)
| KBool (b : bool)
| KNone
| KTuple (repr : string).

(** Values returned by fetch functions and kept in the cache.  [PObject]
    is any object that is not JSON-native (a [datetime], an [ObjectId]),
    given by its [str()]. *)
Inductive pyval :=
| PNone
| PBool (b : bool)
| PInt (z : Z)
| PFloat (f : spec_float)
| PStr (s : string)
| PList (l : list pyval)
| PTuple (l : list pyval)
| PDict (items : list (pykey * pyval))
| PObject (str : string).

Definition is_none (v : pyval) : bool :=
  match v with PNone => true | _ => false end.

(** A JSON text, represented by the document it denotes. *)
Inductive json :=
| JNull
| JBool (b : bool)
| JInt (z : Z)
| JFloat (f : spec_float)
| JStr (s : string)
| JArray (l : list json)
| JObject (members : list (string * json)).

(** The key of a JSON object member, as [json.dumps] writes a dict key. *)
Definition json_key (k : pykey) : result string :=
  match k with
  | KStr s => Return s
  | KInt z => Return (str_of_int z)
  | KBool b => Return (if b then "true" else "false")
  | KNone => Return "null"
  | KTuple _ =>
      Raise (Exception "TypeError"
               "keys must be str, int, float, bool or None, not tuple")
  end.

(** The outcome of a row of computations: the first exception, or the
    values of all of them. *)
Fixpoint all_results {A : Type} (outcomes : list (result A)) : result (list A) :=
  match outcomes with
  | [] => Return []
  | Raise e :: _ => Raise e
  | Return a :: outcomes' =>
      match all_results outcomes' with
      | Raise e => Raise e
      | Return l => Return (a :: l)
      end
  end.

(** [json.dumps(value, default=str)] *)
Fixpoint json_dumps (v : pyval) : result json :=
  match v with
  | PNone => Return JNull
  | PBool b => Return (JBool b)
  | PInt z => Return (JInt z)
  | PFloat f => Return (JFloat f)
  | PStr s => Return (JStr s)
  | PList l | PTuple l =>
      match all_results (map json_dumps l) with
      | Raise e => Raise e
      | Return js => Return (JArray js)
      end
  | PDict items =>
      let member (item : pykey * pyval) : result (string * json) :=
        match json_key (fst item) with
        | Raise e => Raise e
        | Return name =>
            match json_dumps (snd item) with
            | Raise e => Raise e
            | Return j => Return (name, j)
            end
        end in
      match all_results (map member items) with
      | Raise e => Raise e
      | Return ms => Return (JObject ms)
      end
  | PObject str => Return (JStr str)
  end.

Definition pykey_eqb (a b : pykey) : bool :=
  match a, b with
  | KStr s, KStr t => String.eqb s t
  | KInt x, KInt y => x =? y
  | KBool x, KBool y => Bool.eqb x y
  | KNone, KNone => true
  | KTuple s, KTuple t => String.eqb s t
  | _, _ => false
  end.

(** [json.loads(text)]: an object becomes a dict with string keys, a
    repeated member name keeping its last value. *)
Fixpoint json_loads (j : json) : pyval :=
  match j with
  | JNull => PNone
  | JBool b => PBool b
  | JInt z => PInt z
  | JFloat f => PFloat f
  | JStr s => PStr s
  | JArray l => PList (map json_loads l)
  | JObject ms =>
      PDict (fold_left (fun acc m => dict_set pykey_eqb (KStr m.1) (json_loads m.2) acc)
                       ms [])
  end.

(** ** The Redis server, seen through [redis.asyncio]

    The client library and the server are outside the repository.  A
    connection is the keyspace it reaches together with the outcomes of
    the commands still to be sent: [Some e] is a command that raises [e]
    (a timeout, a lost connection, a reply that cannot be decoded).  No
    time passes during a call, so no entry expires while it runs. *)

Module Redis.

Record entry := Entry { payload : json; ttl : Z }.

Record client := Client {
  keyspace : gmap string entry;
  faults : list (option exn)
}.

Definition command {A : Type}
    (run : gmap string entry -> result A * gmap string entry)
    (c : client) : result A * client :=
  match faults c with
  | Some e :: rest => (Raise e, Client (keyspace c) rest)
  | None :: rest => let (r, ks) := run (keyspace c) in (r, Client ks rest)
  | [] => let (r, ks) := run (keyspace c) in (r, Client ks [])
  end.

(** [GET key] *)
Definition get (key : string) : client -> result (option json) * client :=
  command (fun ks => (Return (payload <$> ks !! key), ks)).

(** [SETEX key seconds value]: the server rejects an expire time that is
    not positive. *)
Definition setex (key : string) (seconds : Z) (value : json)
    : client -> result bool * client :=
  command (fun ks =>
    if seconds <=? 0
    then (Raise (Exception "ResponseError" "invalid expire time in 'setex' command"), ks)
    else (Return true, <[key := Entry value seconds]> ks)).

Fixpoint del_keys (keys : list string) (ks : gmap string entry)
    : Z * gmap string entry :=
  match keys with
  | [] => (0, ks)
  | k :: keys' =>
      let removed := if ks !! k is Some _ then 1 else 0 in
      let (n, ks') := del_keys keys' (base.delete k ks) in
      (removed + n, ks')
  end.

(** [DEL key ...]: the number of keys that were removed. *)
Definition delete (keys : list string) : client -> result Z * client :=
  command (fun ks => let (n, ks') := del_keys keys ks in (Return n, ks')).

Section Keys.
(** The server's glob-style pattern matcher: [glob_match pattern key]. *)
Variable glob_match : string -> string -> bool.

Definition matching (pattern : string) (ks : gmap string entry) : list string :=
  List.filter (glob_match pattern) (map fst (map_to_list ks)).

(** [KEYS pattern] *)
Definition keys (pattern : string) : client -> result (list string) * client :=
  command (fun ks => (Return (matching pattern ks), ks)).
End Keys.

End Redis.

(** ** The process: shared objects and effects *)

(** The fields of a [RedisConfig] object. *)
Record RedisConfig_obj := {
  redis_url : string;
  redis_client : option Redis.client;
  default_ttl : Z;
  component_ttl : Z
}.

(** What a coroutine of the cache layer can touch: the module-level
    singleton [redis_config], the database behind the fetch functions
    (with the number of fetch calls made so far), the event loop (which
    may refuse to schedule a group of tasks) and the clock. *)
Record World (DB : Type) := {
  redis_config : RedisConfig_obj;
  database : DB;
  fetch_calls : nat;
  loop_fault : option exn;
  utcnow : string
}.
Arguments redis_config {DB} w.
Arguments database {DB} w.
Arguments fetch_calls {DB} w.
Arguments loop_fault {DB} w.
Arguments utcnow {DB} w.

(** A coroutine returning an [A]: run to completion from a world, it
    returns or raises, and leaves a world. *)
Definition M (DB A : Type) : Type := World DB -> result A * World DB.

(** A fetch function of the data layer, called with keyword arguments. *)
Definition Fetch (DB : Type) : Type := kwargs -> DB -> result pyval * DB.

Section Effects.
Context {DB : Type}.

Definition ret {A : Type} (a : A) : M DB A := fun w => (Return a, w).

Definition raise {A : Type} (e : exn) : M DB A := fun w => (Raise e, w).

Definition bind {A B : Type} (m : M DB A) (k : A -> M DB B) : M DB B :=
  fun w =>
    match m w with
    | (Return a, w') => k a w'
    | (Raise e, w') => (Raise e, w')
    end.

(** [try: body / except Exception as e: handler] *)
Definition try_except {A : Type} (body : M DB A) (handler : exn -> M DB A)
    : M DB A :=
  fun w =>
    match body w with
    | (Return a, w') => (Return a, w')
    | (Raise e, w') => handler e w'
    end.

(** A pure computation that may raise. *)
Definition lift {A : Type} (r : result A) : M DB A := fun w => (r, w).

(** [self.redis_client] *)
Definition self_redis_client : M DB (option Redis.client) :=
  fun w => (Return (redis_client (redis_config w)), w).

Definition self_default_ttl : M DB Z :=
  fun w => (Return (default_ttl (redis_config w)), w).

Definition self_component_ttl : M DB Z :=
  fun w => (Return (component_ttl (redis_config w)), w).

Definition with_client (c : option Redis.client) (w : World DB) : World DB :=
  {| redis_config :=
       {| redis_url := redis_url (redis_config w);
          redis_client := c;
          default_ttl := default_ttl (redis_config w);
          component_ttl := component_ttl (redis_config w) |};
     database := database w;
     fetch_calls := fetch_calls w;
     loop_fault := loop_fault w;
     utcnow := utcnow w |}.

(** [await self.redis_client.<command>(...)]: a command of the client;
    on [None] the attribute access raises. *)
Definition await_client {A : Type}
    (cmd : Redis.client -> result A * Redis.client) : M DB A :=
  fun w =>
    match redis_client (redis_config w) with
    | None =>
        (Raise (Exception "AttributeError" "'NoneType' object has no attribute"), w)
    | Some c => let (r, c') := cmd c in (r, with_client (Some c') w)
    end.

(** [await fetch_function] applied to the keyword arguments [fetch_kwargs] *)
Definition await_fetch (fetch_function : Fetch DB) (fetch_kwargs : kwargs)
    : M DB pyval :=
  fun w =>
    let (r, d) := fetch_function fetch_kwargs (database w) in
    (r, {| redis_config := redis_config w;
           database := d;
           fetch_calls := S (fetch_calls w);
           loop_fault := loop_fault w;
           utcnow := utcnow w |}).

(** [datetime.utcnow().isoformat()] *)
Definition utcnow_isoformat : M DB string := fun w => (Return (utcnow w), w).

(** The tasks of a gather, run to completion one after the other in the
    order in which the event loop starts them; an exception of a task is
    kept as its outcome. *)
Fixpoint run_tasks {A : Type} (tasks : list (M DB A)) (w : World DB)
    : list (result A) * World DB :=
  match tasks with
  | [] => ([], w)
  | t :: tasks' =>
      let (r, w1) := t w in
      let (rs, w2) := run_tasks tasks' w1 in
      (r :: rs, w2)
  end.

(** [await asyncio.gather] of the tasks with [return_exceptions=True] *)
Definition asyncio_gather {A : Type} (tasks : list (M DB A))
    : M DB (list (result A)) :=
  fun w =>
    match loop_fault w with
    | Some e => (Raise e, w)
    | None => let (rs, w') := run_tasks tasks w in (Return rs, w')
    end.
End Effects.

Notation "x <- m ;; k" := (bind m (fun x => k))
  (at level 100, m at next level, k at level 200, right associativity).

(** The keyspace a world's store holds; empty when there is no client. *)
Definition store {DB : Type} (w : World DB) : gmap string Redis.entry :=
  match redis_client (redis_config w) with
  | Some c => Redis.keyspace c
  | None => ∅
  end.

(** ** redis_config.py: class RedisConfig *)

Module RedisConfig.

(** [__init__]; [url] is the value of [REDIS_URL]. *)
Definition init (url : string) : RedisConfig_obj :=
  {| redis_url := url;
     redis_client := None;
     default_ttl := 600;
     component_ttl := 1800 |}.

(** The order of [sorted(kwargs.items())]: the items are compared as
    tuples, and since the keys of a dict are distinct the comparison is
    decided by the keys, compared as strings. *)
Definition item_le (x y : string * pyarg) : Prop := String.leb x.1 y.1 = true.

#[global] Instance item_le_dec : RelDecision item_le.
Proof. intros x y. unfold item_le. apply bool_eq_dec. Defined.

Definition sorted (items : kwargs) : kwargs := merge_sort item_le items.

(** [sep.join(parts)] *)
Fixpoint join (sep : string) (parts : list string) : string :=
  match parts with
  | [] => ""
  | [x] => x
  | x :: parts' => x +:+ sep +:+ join sep parts'
  end.

(** [v is not None], for an item [(k, v)]. *)
Definition present (kv : string * pyarg) : bool := negb (arg_is_none kv.2).

Definition param_string (kw : kwargs) : string :=
  let sorted_params := sorted kw in
  join "&" (map (fun kv => kv.1 +:+ "=" +:+ py_str kv.2)
                (List.filter present sorted_params)).

Definition generate_cache_key (prefix : string) (kw : kwargs) : string :=
  let hash_hex := MD5.hexdigest (param_string kw) in
  prefix +:+ ":" +:+ hash_hex.

(** [round((hits / total) * 100, 2)]; the division is the one step that
    can raise. *)
Definition _calculate_hit_rate (hits misses : Z) : result spec_float :=
  let total := hits + misses in
  if total =? 0 then Return (S754_zero false)
  else
    match Float64.int_true_div hits total with
    | Return q => Return (Float64.py_round (Float64.mul q (Float64.of_int 100)) 2)
    | Raise e => Raise e
    end.

(** [ttl or self.default_ttl] *)
Definition ttl_or (ttl : option Z) (default : Z) : Z :=
  match ttl with
  | None => default
  | Some t => if t =? 0 then default else t
  end.

Section Methods.
Context {DB : Type}.

(** [get]: the text read from the store is never empty, so the test
    [if cached_data] is the test for a reply other than [None]. *)
Definition get (key : string) : M DB pyval :=
  client <- self_redis_client ;;
  match client with
  | None => ret PNone
  | Some _ =>
      try_except
        (cached_data <- await_client (Redis.get key) ;;
         match cached_data with
         | Some text => ret (json_loads text)
         | None => ret PNone
         end)
        (fun e => ret PNone)
  end.

Definition set (key : string) (value : pyval) (ttl : option Z) : M DB bool :=
  client <- self_redis_client ;;
  match client with
  | None => ret false
  | Some _ =>
      try_except
        (default <- self_default_ttl ;;
         let ttl := ttl_or ttl default in
         serialized_value <- lift (json_dumps value) ;;
         _ <- await_client (Redis.setex key ttl serialized_value) ;;
         ret true)
        (fun e => ret false)
  end.

Definition delete (key : string) : M DB bool :=
  client <- self_redis_client ;;
  match client with
  | None => ret false
  | Some _ =>
      try_except
        (result <- await_client (Redis.delete [key]) ;;
         ret (negb (result =? 0)))
        (fun e => ret false)
  end.

Variable glob_match : string -> string -> bool.

Definition delete_pattern (pattern : string) : M DB Z :=
  client <- self_redis_client ;;
  match client with
  | None => ret 0
  | Some _ =>
      try_except
        (keys <- await_client (Redis.keys glob_match pattern) ;;
         match keys with
         | _ :: _ =>
             deleted_count <- await_client (Redis.delete keys) ;;
             ret deleted_count
         | [] => ret 0
         end)
        (fun e => ret 0)
  end.

Definition patterns (parent_asin : string) : list string :=
  [ "dashboard:*" +:+ parent_asin +:+ "*";
    "summary:*" +:+ parent_asin +:+ "*";
    "wordcloud:*" +:+ parent_asin +:+ "*";
    "timeline:*" +:+ parent_asin +:+ "*";
    "distribution:*" +:+ parent_asin +:+ "*";
    "sentiment_map:*" +:+ parent_asin +:+ "*" ].

(** [for pattern in patterns: total_deleted += await delete_pattern] *)
Fixpoint delete_patterns (patterns : list string) (total_deleted : Z) : M DB Z :=
  match patterns with
  | [] => ret total_deleted
  | pattern :: rest =>
      deleted <- delete_pattern pattern ;;
      delete_patterns rest (total_deleted + deleted)
  end.

Definition invalidate_product_cache (parent_asin : string) : M DB Z :=
  delete_patterns (patterns parent_asin) 0.
End Methods.

End RedisConfig.

(** ** Calling a coroutine function with keyword arguments *)

(** [f(explicit..., **star)]: a name given twice is a [TypeError]. *)
Definition keyword_call (fname : string) (explicit star : kwargs) : result kwargs :=
  match List.find (fun kv => if dict_get (fst kv) explicit is Some _ then true else false) star with
  | Some kv =>
      Raise (Exception "TypeError"
               (fname +:+ "() got multiple values for keyword argument '" +:+ kv.1 +:+ "'"))
  | None => Return (explicit ++ star)%list
  end.

(** Binding the keyword arguments of a call to the parameters of the
    function: [signature] lists each parameter with its default, [None]
    for a required one.  The bound arguments come in signature order. *)
Fixpoint bind_parameters (fname : string) (signature : list (string * option pyarg))
    (call : kwargs) : result kwargs :=
  match signature with
  | [] => Return []
  | (name, default) :: signature' =>
      match (if dict_get name call is Some v then Some v else default) with
      | None =>
          Raise (Exception "TypeError"
                   (fname +:+ "() missing 1 required positional argument: '" +:+ name +:+ "'"))
      | Some v =>
          match bind_parameters fname signature' call with
          | Raise e => Raise e
          | Return args => Return ((name, v) :: args)
          end
      end
  end.

Definition bind_arguments (fname : string) (signature : list (string * option pyarg))
    (call : kwargs) : result kwargs :=
  match List.find (fun kv => if dict_get (fst kv) signature is Some _ then false else true) call with
  | Some kv =>
      Raise (Exception "TypeError"
               (fname +:+ "() got an unexpected keyword argument '" +:+ kv.1 +:+ "'"))
  | None => bind_parameters fname signature call
  end.

(** The names that [warm_cache_for_product] imports from
    [routes.dashboard] when it is called: coroutine functions, which
    return a coroutine once their arguments are bound. *)
Record dashboard_imports (DB : Type) := Imports {
  get_summary_statistics_cached : kwargs -> result (M DB pyval);
  get_word_cloud_data_cached : kwargs -> result (M DB pyval);
  get_sentiment_timeline_cached : kwargs -> result (M DB pyval);
  get_sentiment_distribution_cached : kwargs -> result (M DB pyval);
  get_sentiment_map_cached : kwargs -> result (M DB pyval)
}.
Arguments Imports {DB}.
Arguments get_summary_statistics_cached {DB} d.
Arguments get_word_cloud_data_cached {DB} d.
Arguments get_sentiment_timeline_cached {DB} d.
Arguments get_sentiment_distribution_cached {DB} d.
Arguments get_sentiment_map_cached {DB} d.

Definition is_exception {A : Type} (r : result A) : bool :=
  match r with Raise _ => true | Return _ => false end.

(** ** cache_utils.py: class CacheManager *)

Module CacheManager.

Section Methods.
Context {DB : Type}.

Definition cache_with_fallback (cache_key : string) (fetch_function : Fetch DB)
    (ttl : option Z) (fetch_kwargs : kwargs) : M DB pyval :=
  cached_data <- RedisConfig.get cache_key ;;
  if negb (is_none cached_data) then ret cached_data
  else
    try_except
      (fresh_data <- await_fetch fetch_function fetch_kwargs ;;
       _ <- (if negb (is_none fresh_data)
             then (_ <- RedisConfig.set cache_key fresh_data ttl ;; ret tt)
             else ret tt) ;;
       ret fresh_data)
      (fun e => raise e).

Definition warm_cache_for_product (routes_dashboard : dashboard_imports DB)
    (parent_asin : string) (date_range : option kwargs)
    : M DB (list (string * pyval)) :=
  let base_params := [("parent_asin", AStr parent_asin)] in
  let base_params :=
    match date_range with
    | Some (kv :: d) => dict_update String.eqb base_params (kv :: d)
    | _ => base_params
    end in
  warming_tasks <- lift (all_results
    [ get_summary_statistics_cached routes_dashboard base_params;
      get_word_cloud_data_cached routes_dashboard base_params;
      get_sentiment_timeline_cached routes_dashboard base_params;
      match keyword_call "get_sentiment_distribution_cached"
              [("period", AStr "year")] base_params with
      | Raise e => Raise e
      | Return call => get_sentiment_distribution_cached routes_dashboard call
      end;
      match keyword_call "get_sentiment_distribution_cached"
              [("period", AStr "month")] base_params with
      | Raise e => Raise e
      | Return call => get_sentiment_distribution_cached routes_dashboard call
      end;
      get_sentiment_map_cached routes_dashboard base_params ]) ;;
  try_except
    (results <- asyncio_gather warming_tasks ;;
     let successful :=
       Z.of_nat (length (List.filter (fun r => negb (is_exception r)) results)) in
     let failed := Z.of_nat (length results) - successful in
     ret [ ("product", PStr parent_asin);
           ("successful", PInt successful);
           ("failed", PInt failed);
           ("total", PInt (Z.of_nat (length results))) ])
    (fun e =>
       ret [ ("product", PStr parent_asin);
             ("successful", PInt 0);
             ("failed", PInt (Z.of_nat (length warming_tasks)));
             ("error", PStr (exn_msg e)) ]).

Variable glob_match : string -> string -> bool.

Definition invalidate_product_cache (parent_asin : string)
    : M DB (list (string * pyval)) :=
  try_except
    (deleted_count <- RedisConfig.invalidate_product_cache glob_match parent_asin ;;
     timestamp <- utcnow_isoformat ;;
     ret [ ("product", PStr parent_asin);
           ("deleted_keys", PInt deleted_count);
           ("status", PStr "success");
           ("timestamp", PStr timestamp) ])
    (fun e =>
       timestamp <- utcnow_isoformat ;;
       ret [ ("product", PStr parent_asin);
             ("deleted_keys", PInt 0);
             ("status", PStr "error");
             ("error", PStr (exn_msg e));
             ("timestamp", PStr timestamp) ]).
End Methods.

End CacheManager.

(** ** routes/dashboard.py: the cached queries *)

(** The fetch functions of [routes.dashboard], which aggregate over the
    database. *)
Record data_layer (DB : Type) := {
  _fetch_summary_statistics : Fetch DB;
  _fetch_word_cloud_data : Fetch DB;
  _fetch_sentiment_timeline : Fetch DB;
  _fetch_sentiment_distribution : Fetch DB;
  _fetch_sentiment_map : Fetch DB
}.
Arguments _fetch_summary_statistics {DB} d.
Arguments _fetch_word_cloud_data {DB} d.
Arguments _fetch_sentiment_timeline {DB} d.
Arguments _fetch_sentiment_distribution {DB} d.
Arguments _fetch_sentiment_map {DB} d.

Module Dashboard.

Section Queries.
Context {DB : Type}.
Variable data : data_layer DB.

(** The body shared by the cached queries: the key of the bound
    arguments under [prefix], then [cache_with_fallback] with the
    component TTL. *)
Definition cached_query (prefix : string) (fetch_function : Fetch DB)
    (args : kwargs) : M DB pyval :=
  let cache_key := RedisConfig.generate_cache_key prefix args in
  component_ttl <- self_component_ttl ;;
  CacheManager.cache_with_fallback cache_key fetch_function
    (Some component_ttl) args.

Definition date_signature : list (string * option pyarg) :=
  [ ("parent_asin", None); ("start_date", Some ANone);
    ("end_date", Some ANone); ("cities", Some ANone) ].

Definition coroutine (fname prefix : string)
    (signature : list (string * option pyarg)) (fetch_function : Fetch DB)
    (call : kwargs) : result (M DB pyval) :=
  match bind_arguments fname signature call with
  | Raise e => Raise e
  | Return args => Return (cached_query prefix fetch_function args)
  end.

Definition get_summary_statistics_cached : kwargs -> result (M DB pyval) :=
  coroutine "get_summary_statistics_cached" "summary" date_signature
    (_fetch_summary_statistics data).

Definition get_word_cloud_data_cached : kwargs -> result (M DB pyval) :=
  coroutine "get_word_cloud_data_cached" "wordcloud" date_signature
    (_fetch_word_cloud_data data).

Definition get_sentiment_timeline_cached : kwargs -> result (M DB pyval) :=
  coroutine "get_sentiment_timeline_cached" "timeline" date_signature
    (_fetch_sentiment_timeline data).

Definition get_sentiment_distribution_cached : kwargs -> result (M DB pyval) :=
  coroutine "get_sentiment_distribution_cached" "distribution"
    [ ("parent_asin", None); ("period", Some (AStr "year"));
      ("start_date", Some ANone); ("end_date", Some ANone);
      ("cities", Some ANone) ]
    (_fetch_sentiment_distribution data).

Definition get_sentiment_map_cached : kwargs -> result (M DB pyval) :=
  coroutine "get_sentiment_map_cached" "sentiment_map" date_signature
    (_fetch_sentiment_map data).

Definition imports : dashboard_imports DB :=
  Imports get_summary_statistics_cached
          get_word_cloud_data_cached
          get_sentiment_timeline_cached
          get_sentiment_distribution_cached
          get_sentiment_map_cached.
End Queries.

End Dashboard.

(** [cache_manager.warm_cache_for_product], with the import of
    [routes.dashboard] resolved. *)
Definition warm_cache_for_product {DB : Type} (data : data_layer DB)
    (parent_asin : string) (date_range : option kwargs)
    : M DB (list (string * pyval)) :=
  CacheManager.warm_cache_for_product (Dashboard.imports data) parent_asin date_range.

(** * Notions used to state the properties *)

(** ** Keys *)

(** The items of a parameter mapping as the key generator sees them: the
    name and the [str()] of the value of every item that is not [None]. *)
Definition rendered (kw : kwargs) : list (string * string) :=
  map (fun kv => (kv.1, py_str kv.2)) (List.filter RedisConfig.present kw).

(** The same items in the order in which the parameter string has them. *)
Definition sorted_rendered (kw : kwargs) : list (string * string) :=
  map (fun kv => (kv.1, py_str kv.2))
      (List.filter RedisConfig.present (RedisConfig.sorted kw)).

(** A rendered item as it stands in the parameter string. *)
Definition item_string (ks : string * string) : string := ks.1 +:+ "=" +:+ ks.2.

Fixpoint has_char (c : ascii) (s : string) : bool :=
  match s with
  | EmptyString => false
  | String c' s' => Ascii.eqb c c' || has_char c s'
  end.

(** A string without the two delimiters of the parameter string. *)
Definition plain (s : string) : bool :=
  negb (has_char "&" s) && negb (has_char "=" s).

(** The names and the rendered values of a mapping are plain. *)
Definition plain_items (kw : kwargs) : bool :=
  forallb (fun ks => plain ks.1 && plain ks.2) (rendered kw).

(** ** The store *)

(** The value that the store holds under [key], as [get] decodes it;
    [None] when there is no entry (or no client). *)
Definition cached {DB : Type} (w : World DB) (key : string) : pyval :=
  match store w !! key with
  | Some e => json_loads (Redis.payload e)
  | None => PNone
  end.

(** The exception, if any, that the next command of a connection raises. *)
Definition next_fault (c : Redis.client) : option exn :=
  match Redis.faults c with
  | Some e :: _ => Some e
  | _ => None
  end.

(** The outcomes left once the next command has been sent. *)
Definition later_faults (c : Redis.client) : list (option exn) :=
  tail (Redis.faults c).

(** The world once the client has sent a command that left the keyspace
    [ks]. *)
Definition commanded {DB : Type} (c : Redis.client) (ks : gmap string Redis.entry)
    (w : World DB) : World DB :=
  with_client (Some (Redis.Client ks (later_faults c))) w.

(** The first [n] commands of a connection go through. *)
Definition goes_through (n : nat) (c : Redis.client) : Prop :=
  Forall (fun outcome => outcome = None) (take n (Redis.faults c)).

(** ** JSON-native values *)

(** The items of a dict have string keys, none of them in [seen] and
    none repeated. *)
Fixpoint str_keys (seen : list string) (items : list (pykey * pyval)) : bool :=
  match items with
  | [] => true
  | (KStr s, _) :: items' =>
      negb (existsb (String.eqb s) seen) && str_keys (s :: seen) items'
  | _ => false
  end.

(** A value made of what JSON has: [None], bools, numbers, strings, lists
    and dicts with distinct string keys. *)
Fixpoint json_native (v : pyval) : bool :=
  match v with
  | PNone | PBool _ | PInt _ | PFloat _ | PStr _ => true
  | PList l => forallb json_native l
  | PDict items => str_keys [] items && forallb (fun kv => json_native (snd kv)) items
  | PTuple _ | PObject _ => false
  end.

(** ** The hit rate *)

(** The binary64 number for the decimal [k / 100], [0 <= k]: what
    [round(x, 2)] returns when [k / 100] is the two-decimal value
    nearest to [x]. *)
Definition two_decimals (k : Z) : spec_float :=
  if k =? 0 then S754_zero false else Float64.of_ratio k 100.

(** [k / 100] is [100 * hits / (hits + misses)] rounded to two decimals:
    [k] is an integer nearest to [10000 * hits / (hits + misses)],
    either neighbour at a tie. *)
Definition nearest_hundredth (hits misses k : Z) : Prop :=
  2 * Z.abs (k * (hits + misses) - 10000 * hits) <= hits + misses.

(** [k / 100] is within [0.005 * (1 + 2 ^ -35)] of
    [100 * hits / (hits + misses)]: what is left of "nearest" after the
    two binary64 roundings that come before [round]. *)
Definition close_hundredth (hits misses k : Z) : Prop :=
  2 ^ 35 * (2 * Z.abs (k * (hits + misses) - 10000 * hits) - (hits + misses))
  <= hits + misses.

(** [located N D m l]: the quotient [N / D] lies in [[m, m + 1)] at the
    place that the location [l] names: on [m], below the middle, on it
    or above it. *)
Definition located (N D m : Z) (l : location) : Prop :=
  match l with
  | loc_Exact => N = m * D
  | loc_Inexact Lt => m * D < N /\ 2 * N < (2 * m + 1) * D
  | loc_Inexact Eq => 2 * N = (2 * m + 1) * D
  | loc_Inexact Gt => (2 * m + 1) * D < 2 * N /\ N < (m + 1) * D
  end.

(** The binary64 number [m * 2 ^ e] of a mantissa [0 <= m]. *)
Definition float_of (m e : Z) : spec_float :=
  match m with
  | Z0 => S754_zero false
  | Zpos p => S754_finite false p e
  | Zneg _ => S754_nan
  end.

(** ** Invalidation *)

(** [sweeps glob_match patterns w counts w']: from [w], [delete_pattern]
    is called on each of [patterns] in turn, each call returning its
    count, and the last one leaves [w']. *)
Inductive sweeps {DB : Type} (glob_match : string -> string -> bool)
    : list string -> World DB -> list Z -> World DB -> Prop :=
| sweeps_nil w : sweeps glob_match [] w [] w
| sweeps_cons pattern patterns w n w1 counts w' :
    RedisConfig.delete_pattern glob_match pattern w = (Return n, w1) ->
    sweeps glob_match patterns w1 counts w' ->
    sweeps glob_match (pattern :: patterns) w (n :: counts) w'.

Definition sum_counts (counts : list Z) : Z := foldr Z.add 0 counts.

(** ** Cache warming *)

(** The parameters that the five cached queries have in common. *)
Definition shared_parameters : list string :=
  ["parent_asin"; "start_date"; "end_date"; "cities"].

(** A date range that every cached query accepts: its keys are shared
    parameters. *)
Definition valid_date_range (date_range : option kwargs) : bool :=
  match date_range with
  | None => true
  | Some d => forallb (fun kv => existsb (String.eqb kv.1) shared_parameters) d
  end.

(** A call whose keywords are shared parameters. *)
Definition shared_keys (call : kwargs) : Prop :=
  Forall (fun kv => kv.1 ∈ shared_parameters) call.

(** [base_params] of [warm_cache_for_product]. *)
Definition warming_params (parent_asin : string) (date_range : option kwargs) : kwargs :=
  match date_range with
  | Some (kv :: d) => dict_update String.eqb [("parent_asin", AStr parent_asin)] (kv :: d)
  | _ => [("parent_asin", AStr parent_asin)]
  end.

(** The argument that a call with the keywords [call] gives to a
    parameter whose default is [None]. *)
Definition passed (call : kwargs) (name : string) : pyarg :=
  default ANone (dict_get name call).

Definition date_args (call : kwargs) : kwargs :=
  [ ("parent_asin", passed call "parent_asin");
    ("start_date", passed call "start_date");
    ("end_date", passed call "end_date");
    ("cities", passed call "cities") ].

Definition distribution_args (period : string) (call : kwargs) : kwargs :=
  [ ("parent_asin", passed call "parent_asin");
    ("period", AStr period);
    ("start_date", passed call "start_date");
    ("end_date", passed call "end_date");
    ("cities", passed call "cities") ].

(** The six sub-operations of cache warming. *)
Definition warming_queries {DB : Type} (data : data_layer DB) (call : kwargs)
    : list (M DB pyval) :=
  [ Dashboard.cached_query "summary" (_fetch_summary_statistics data) (date_args call);
    Dashboard.cached_query "wordcloud" (_fetch_word_cloud_data data) (date_args call);
    Dashboard.cached_query "timeline" (_fetch_sentiment_timeline data) (date_args call);
    Dashboard.cached_query "distribution" (_fetch_sentiment_distribution data)
      (distribution_args "year" call);
    Dashboard.cached_query "distribution" (_fetch_sentiment_distribution data)
      (distribution_args "month" call);
    Dashboard.cached_query "sentiment_map" (_fetch_sentiment_map data) (date_args call) ].

(** The number of outcomes that are values, and that are exceptions. *)
Definition succeeded {A : Type} (results : list (result A)) : Z :=
  Z.of_nat (length (List.filter (fun r => negb (is_exception r)) results)).

Definition raised {A : Type} (results : list (result A)) : Z :=
  Z.of_nat (length (List.filter is_exception results)).

(** ** Worlds, fetch functions and a matcher for the examples *)

Definition example_world (client : option Redis.client) : World unit :=
  {| redis_config :=
       {| redis_url := "redis://localhost:6379";
          redis_client := client;
          default_ttl := 600;
          component_ttl := 1800 |};
     database := tt;
     fetch_calls := 0;
     loop_fault := None;
     utcnow := "2024-01-01T00:00:00" |}.

(** A client of a store that holds [entries], whose next commands have
    the outcomes [faults]. *)
Definition example_client (entries : list (string * Redis.entry))
    (faults : list (option exn)) : Redis.client :=
  Redis.Client (list_to_map entries) faults.

Definition fetch_value (v : pyval) : Fetch unit := fun _ d => (Return v, d).

Definition fetch_error (e : exn) : Fetch unit := fun _ d => (Raise e, d).

Definition timeout_error : exn := Exception "TimeoutError" "Timeout reading from socket".

Definition query_error : exn := Exception "OperationFailure" "aggregation failed".

(** A data layer in which the timeline and the map queries fail and the
    others return a value. *)
Definition example_data : data_layer unit :=
  {| _fetch_summary_statistics := fetch_value (PDict [(KStr "total_reviews", PInt 12)]);
     _fetch_word_cloud_data := fetch_value (PList []);
     _fetch_sentiment_timeline := fetch_error query_error;
     _fetch_sentiment_distribution := fetch_value (PList [PInt 1]);
     _fetch_sentiment_map := fetch_error query_error |}.

(** A matcher for patterns made of literal characters and [*], which
    stands for any run of characters. *)
Fixpoint glob_star (pattern s : string) : bool :=
  match pattern with
  | EmptyString => if s is EmptyString then true else false
  | String c pattern' =>
      if Ascii.eqb c "*" then
        (fix skip (s : string) : bool :=
           glob_star pattern' s
           || match s with
              | EmptyString => false
              | String _ s' => skip s'
              end) s
      else
        match s with
        | EmptyString => false
        | String c' s' => Ascii.eqb c c' && glob_star pattern' s'
        end
  end.

(** * More of the cache layer *)

(** ** More commands of the Redis client *)

Module RedisAdmin.

(** [PING] *)
Definition ping : Redis.client -> result bool * Redis.client :=
  Redis.command (fun ks => (Return true, ks)).

(** The fields of the reply to [INFO] that the cache layer reads, as the
    client library parses them: a human-readable size and four counters.
    A field that the reply lacks is [None]. *)
Record info_reply := InfoReply {
  used_memory_human : option string;
  connected_clients : option Z;
  total_commands_processed : option Z;
  keyspace_hits : option Z;
  keyspace_misses : option Z
}.

(** [INFO]; [reply] is what the server answers when the command goes
    through. *)
Definition info (reply : info_reply) : Redis.client -> result info_reply * Redis.client :=
  Redis.command (fun ks => (Return reply, ks)).

End RedisAdmin.

(** ** Statistics dicts *)

(** A value of a statistics dict: a string, an int or a float. *)
Inductive stat :=
| StatStr (s : string)
| StatInt (z : Z)
| StatFloat (f : spec_float).

Definition stats_dict : Type := list (string * stat).

(** The order between the exact value of a float and an int; [None] for
    a NaN, which is not ordered. *)
Definition compare_float_int (f : spec_float) (n : Z) : option comparison :=
  match f with
  | S754_nan => None
  | S754_infinity s => Some (if s then Lt else Gt)
  | S754_zero _ => Some (0 ?= n)
  | S754_finite s m e =>
      let mant := if s then Zneg m else Zpos m in
      Some (mant * 2 ^ Z.max e 0 ?= n * 2 ^ Z.max (- e) 0)
  end.

(** [x >= n] for an int [n]: numbers are compared by value, and a string
    is not ordered against an int. *)
Definition ge_int (x : stat) (n : Z) : result bool :=
  match x with
  | StatInt z => Return (n <=? z)
  | StatFloat f =>
      Return (match compare_float_int f n with
              | Some Gt | Some Eq => true
              | _ => false
              end)
  | StatStr _ =>
      Raise (Exception "TypeError"
               "'>=' not supported between instances of 'str' and 'int'")
  end.

(** [x > n] *)
Definition gt_int (x : stat) (n : Z) : result bool :=
  match x with
  | StatInt z => Return (n <? z)
  | StatFloat f =>
      Return (match compare_float_int f n with
              | Some Gt => true
              | _ => false
              end)
  | StatStr _ =>
      Raise (Exception "TypeError"
               "'>' not supported between instances of 'str' and 'int'")
  end.

(** A branch on a test that may raise. *)
Definition when {A : Type} (test : result bool) (yes no : result A) : result A :=
  match test with
  | Raise e => Raise e
  | Return true => yes
  | Return false => no
  end.

(** [s.replace(c, "")] for a one-character [c] *)
Fixpoint remove_char (c : ascii) (s : string) : string :=
  match s with
  | EmptyString => EmptyString
  | String c' s' => if Ascii.eqb c c' then remove_char c s' else String c' (remove_char c s')
  end.

(** ** redis_config.py: connection and statistics of [RedisConfig] *)

Module RedisStatus.

Section Methods.
Context {DB : Type}.

(** [self.redis_client = client] *)
Definition set_redis_client (client : option Redis.client) : M DB unit :=
  fun w => (Return tt, with_client client w).

(** [connect]; [from_url] is the outcome of [redis.from_url] for
    [self.redis_url], which makes a client without sending a command. *)
Definition connect (from_url : result Redis.client) : M DB unit :=
  try_except
    (client <- lift from_url ;;
     _ <- set_redis_client (Some client) ;;
     _ <- await_client RedisAdmin.ping ;;
     ret tt)
    (fun e =>
       _ <- set_redis_client None ;;
       raise e).

Definition health_check : M DB bool :=
  client <- self_redis_client ;;
  match client with
  | None => ret false
  | Some _ =>
      try_except
        (_ <- await_client RedisAdmin.ping ;;
         ret true)
        (fun e => ret false)
  end.

(** [get_cache_stats]; [reply] is what the server answers to [INFO].
    The hit rate is computed inside the [try], while the dict is built:
    a division that raises ends in the error report. *)
Definition get_cache_stats (reply : RedisAdmin.info_reply) : M DB stats_dict :=
  client <- self_redis_client ;;
  match client with
  | None => ret [("status", StatStr "disconnected")]
  | Some _ =>
      try_except
        (info <- await_client (RedisAdmin.info reply) ;;
         hit_rate <- lift (RedisConfig._calculate_hit_rate
                             (default 0 (RedisAdmin.keyspace_hits info))
                             (default 0 (RedisAdmin.keyspace_misses info))) ;;
         ret [ ("status", StatStr "connected");
               ("used_memory",
                StatStr (default "N/A" (RedisAdmin.used_memory_human info)));
               ("connected_clients",
                StatInt (default 0 (RedisAdmin.connected_clients info)));
               ("total_commands_processed",
                StatInt (default 0 (RedisAdmin.total_commands_processed info)));
               ("keyspace_hits", StatInt (default 0 (RedisAdmin.keyspace_hits info)));
               ("keyspace_misses", StatInt (default 0 (RedisAdmin.keyspace_misses info)));
               ("hit_rate", StatFloat hit_rate) ])
        (fun e => ret [("status", StatStr "error"); ("error", StatStr (exn_msg e))])
  end.
End Methods.

End RedisStatus.

(** ** cache_utils.py: bulk invalidation, metrics and cleanup of [CacheManager] *)

(** A report as it stands in a list of reports. *)
Definition as_dict (report : list (string * pyval)) : pyval :=
  PDict (map (fun kv => (KStr kv.1, kv.2)) report).

(** [result.get("deleted_keys", 0)] for a report of
    [invalidate_product_cache], in which the count is an int. *)
Definition deleted_keys (result : list (string * pyval)) : Z :=
  match dict_get "deleted_keys" result with
  | Some (PInt n) => n
  | _ => 0
  end.

Module CacheAdmin.

Definition _calculate_cache_efficiency (stats : stats_dict) : result string :=
  let hit_rate := default (StatInt 0) (dict_get "hit_rate" stats) in
  when (ge_int hit_rate 80) (Return "excellent")
    (when (ge_int hit_rate 60) (Return "good")
       (when (ge_int hit_rate 40) (Return "fair")
          (Return "poor"))).

Definition _assess_performance_status (stats : stats_dict) : result string :=
  let connected :=
    match dict_get "status" stats with
    | Some (StatStr s) => String.eqb s "connected"
    | _ => false
    end in
  if negb connected then Return "offline"
  else
    let hit_rate := default (StatInt 0) (dict_get "hit_rate" stats) in
    let connected_clients := default (StatInt 0) (dict_get "connected_clients" stats) in
    when (when (ge_int hit_rate 70) (gt_int connected_clients 0) (Return false))
      (Return "optimal")
      (when (ge_int hit_rate 50) (Return "good")
         (when (ge_int hit_rate 30) (Return "degraded")
            (Return "poor"))).

Section Memory.
(** Python's [float()] on a string; [None] stands for a [ValueError]. *)
Variable float_of_string : string -> option spec_float.

(** [_categorize_memory_usage]: any exception, such as the [TypeError]
    of [in] on a number or the [ValueError] of [float()], is answered
    with ["unknown"]. *)
Definition _categorize_memory_usage (memory_str : stat) : string :=
  match memory_str with
  | StatStr s =>
      if has_char "M" s then
        match float_of_string (remove_char "M" s) with
        | None => "unknown"
        | Some value =>
            if (if compare_float_int value 100 is Some Gt then true else false)
            then "high"
            else if (if compare_float_int value 50 is Some Gt then true else false)
            then "medium"
            else "low"
        end
      else if has_char "K" s then "low"
      else if has_char "G" s then "high"
      else "unknown"
  | _ => "unknown"
  end.

Context {DB : Type}.

Definition get_cache_performance_metrics (reply : RedisAdmin.info_reply)
    : M DB stats_dict :=
  try_except
    (stats <- RedisStatus.get_cache_stats reply ;;
     cache_efficiency <- lift (_calculate_cache_efficiency stats) ;;
     let memory_usage_category :=
       _categorize_memory_usage
         (default (StatStr "0B") (dict_get "used_memory" stats)) in
     performance_status <- lift (_assess_performance_status stats) ;;
     timestamp <- utcnow_isoformat ;;
     ret (dict_update String.eqb stats
            [ ("cache_efficiency", StatStr cache_efficiency);
              ("memory_usage_category", StatStr memory_usage_category);
              ("performance_status", StatStr performance_status);
              ("timestamp", StatStr timestamp) ]))
    (fun e =>
       timestamp <- utcnow_isoformat ;;
       ret [ ("status", StatStr "error");
             ("error", StatStr (exn_msg e));
             ("timestamp", StatStr timestamp) ]).
End Memory.

Section Methods.
Context {DB : Type}.
Variable glob_match : string -> string -> bool.

(** [for parent_asin in parent_asins]: a report is appended and its
    count added for each product. *)
Fixpoint invalidate_each (parent_asins : list string)
    (results : list (list (string * pyval))) (total_deleted : Z)
    : M DB (list (list (string * pyval)) * Z) :=
  match parent_asins with
  | [] => ret (results, total_deleted)
  | parent_asin :: rest =>
      result <- CacheManager.invalidate_product_cache glob_match parent_asin ;;
      invalidate_each rest (results ++ [result])%list
        (total_deleted + deleted_keys result)
  end.

Definition bulk_invalidate_cache (parent_asins : list string)
    : M DB (list (string * pyval)) :=
  looped <- invalidate_each parent_asins [] 0 ;;
  let (results, total_deleted) := looped : list (list (string * pyval)) * Z in
  timestamp <- utcnow_isoformat ;;
  ret [ ("total_products", PInt (Z.of_nat (length parent_asins)));
        ("total_deleted_keys", PInt total_deleted);
        ("results", PList (map as_dict results));
        ("timestamp", PStr timestamp) ].

Definition patterns_to_clean : list string :=
  [ "dashboard:*"; "summary:*"; "wordcloud:*"; "timeline:*"; "distribution:*";
    "sentiment_map:*" ].

(** [for pattern in patterns_to_clean]: the keys are looked up, and
    counted in a log message only. *)
Fixpoint find_keys (patterns : list string) : M DB unit :=
  match patterns with
  | [] => ret tt
  | pattern :: rest =>
      client <- self_redis_client ;;
      keys <- match client with
              | Some _ => await_client (Redis.keys glob_match pattern)
              | None => ret []
              end ;;
      find_keys rest
  end.

Definition schedule_cache_cleanup (max_age_hours : Z) : M DB (list (string * pyval)) :=
  try_except
    (let total_cleaned := 0 in
     _ <- find_keys patterns_to_clean ;;
     timestamp <- utcnow_isoformat ;;
     ret [ ("status", PStr "completed");
           ("cleaned_entries", PInt total_cleaned);
           ("max_age_hours", PInt max_age_hours);
           ("timestamp", PStr timestamp) ])
    (fun e =>
       timestamp <- utcnow_isoformat ;;
       ret [ ("status", PStr "error");
             ("error", PStr (exn_msg e));
             ("timestamp", PStr timestamp) ]).
End Methods.

End CacheAdmin.

(** ** routes/dashboard.py: the dashboard and the cache routes *)

(** [bool(v)]: [None], [False], zero, and the empty string, list, tuple
    and dict are false.  Other objects are true unless their class says
    otherwise; none of them is ever read from the store. *)
Definition truthy (v : pyval) : bool :=
  match v with
  | PNone => false
  | PBool b => b
  | PInt z => negb (z =? 0)
  | PFloat (S754_zero _) => false
  | PFloat _ => true
  | PStr s => negb (String.eqb s "")
  | PList l | PTuple l => if l is [] then false else true
  | PDict items => if items is [] then false else true
  | PObject _ => true
  end.

(** [s.split(sep)] for a one-character [sep] *)
Fixpoint split (sep : ascii) (s : string) : list string :=
  match s with
  | EmptyString => [EmptyString]
  | String c s' =>
      if Ascii.eqb c sep then EmptyString :: split sep s'
      else match split sep s' with
           | x :: xs => String c x :: xs
           | [] => [String c EmptyString]
           end
  end.

(** [l[i]] *)
Definition list_item {A : Type} (l : list A) (i : nat) : result A :=
  match nth_error l i with
  | Some x => Return x
  | None => Raise (Exception "IndexError" "list index out of range")
  end.

(** A query parameter of a route that is optional: [None] when the
    request leaves it out. *)
Definition optional (s : option string) : pyarg :=
  match s with Some s => AStr s | None => ANone end.

Definition optional_value (s : option string) : pyval :=
  match s with Some s => PStr s | None => PNone end.

(** [bool(s)] for an optional string. *)
Definition given (s : option string) : bool :=
  match s with Some s => negb (String.eqb s "") | None => false end.

(** [r if not isinstance(r, Exception) else None] for an outcome of a
    gather. *)
Definition value_or_none (r : result pyval) : pyval :=
  match r with Return v => v | Raise _ => PNone end.

(** [HTTPException(status_code=500, detail=detail)], given by its
    detail. *)
Definition http_500 (detail : string) : exn := Exception "HTTPException" detail.

Module DashboardRoutes.

Section Routes.
Context {DB : Type}.
Variable data : data_layer DB.

Definition product_info (parent_asin : string) (start_date end_date cities : option string)
    : pyval :=
  PDict [ (KStr "parent_asin", PStr parent_asin);
          (KStr "filters",
           PDict [ (KStr "start_date", optional_value start_date);
                   (KStr "end_date", optional_value end_date);
                   (KStr "cities",
                    match cities with
                    | Some s => if given cities then PList (map PStr (split "," s)) else PNone
                    | None => PNone
                    end) ]) ].

(** [get_comprehensive_dashboard], for an authenticated request.  The
    cached queries are called with positional arguments, which are bound
    to their parameters in order. *)
Definition get_comprehensive_dashboard (parent_asin : string)
    (start_date end_date cities : option string) : M DB pyval :=
  try_except
    (let args := [ ("parent_asin", AStr parent_asin);
                   ("start_date", optional start_date);
                   ("end_date", optional end_date);
                   ("cities", optional cities) ] in
     let period_args (period : string) :=
       [ ("parent_asin", AStr parent_asin);
         ("period", AStr period);
         ("start_date", optional start_date);
         ("end_date", optional end_date);
         ("cities", optional cities) ] in
     let cache_key := RedisConfig.generate_cache_key "dashboard" args in
     cached_data <- RedisConfig.get cache_key ;;
     if truthy cached_data then ret cached_data
     else
       let tasks :=
         [ Dashboard.cached_query "summary" (_fetch_summary_statistics data) args;
           Dashboard.cached_query "wordcloud" (_fetch_word_cloud_data data) args;
           Dashboard.cached_query "timeline" (_fetch_sentiment_timeline data) args;
           Dashboard.cached_query "distribution" (_fetch_sentiment_distribution data)
             (period_args "year");
           Dashboard.cached_query "distribution" (_fetch_sentiment_distribution data)
             (period_args "month");
           Dashboard.cached_query "sentiment_map" (_fetch_sentiment_map data) args ] in
       try_except
         (results <- asyncio_gather tasks ;;
          r0 <- lift (list_item results 0) ;;
          let summary_stats := value_or_none r0 in
          r1 <- lift (list_item results 1) ;;
          let word_cloud_data := value_or_none r1 in
          r2 <- lift (list_item results 2) ;;
          let timeline_data := value_or_none r2 in
          r3 <- lift (list_item results 3) ;;
          let yearly_distribution := value_or_none r3 in
          r4 <- lift (list_item results 4) ;;
          let monthly_distribution := value_or_none r4 in
          r5 <- lift (list_item results 5) ;;
          let sentiment_map := value_or_none r5 in
          generated_at <- utcnow_isoformat ;;
          let dashboard_data :=
            PDict [ (KStr "product_info",
                     product_info parent_asin start_date end_date cities);
                    (KStr "summary_statistics", summary_stats);
                    (KStr "word_cloud", word_cloud_data);
                    (KStr "sentiment_timeline", timeline_data);
                    (KStr "yearly_distribution", yearly_distribution);
                    (KStr "monthly_distribution", monthly_distribution);
                    (KStr "sentiment_map", sentiment_map);
                    (KStr "metadata",
                     PDict [ (KStr "generated_at", PStr generated_at);
                             (KStr "cache_key", PStr cache_key);
                             (KStr "partial_failures",
                              PInt (Z.of_nat (length (List.filter is_exception results))));
                             (KStr "total_components",
                              PInt (Z.of_nat (length results))) ]) ] in
          default_ttl <- self_default_ttl ;;
          _ <- RedisConfig.set cache_key dashboard_data (Some default_ttl) ;;
          ret dashboard_data)
         (fun e =>
            generated_at <- utcnow_isoformat ;;
            ret (PDict [ (KStr "product_info",
                          product_info parent_asin start_date end_date cities);
                         (KStr "error",
                          PStr ("Partial failure in data fetching: " +:+ exn_msg e));
                         (KStr "metadata",
                          PDict [ (KStr "generated_at", PStr generated_at);
                                  (KStr "cache_key", PStr cache_key);
                                  (KStr "status", PStr "partial_failure") ]) ])))
    (fun e =>
       raise (http_500 ("Error fetching comprehensive dashboard data: " +:+ exn_msg e))).

(** [warm_product_cache], the route [POST /cache/warm/{parent_asin}]. *)
Definition warm_product_cache (parent_asin : string) (start_date end_date : option string)
    : M DB (list (string * pyval)) :=
  try_except
    (let date_range :=
       match start_date, end_date with
       | Some s, Some e =>
           if given start_date && given end_date
           then Some [("start_date", AStr s); ("end_date", AStr e)]
           else None
       | _, _ => None
       end in
     result <- warm_cache_for_product data parent_asin date_range ;;
     ret result)
    (fun e => raise (http_500 ("Error warming cache: " +:+ exn_msg e))).
End Routes.

End DashboardRoutes.

(** * Notions used to state the further properties *)

(** ** Keys and patterns *)

(** A lowercase hexadecimal digit, and a string made of such digits. *)
Definition is_lower_hex (c : ascii) : bool := has_char c "0123456789abcdef".

Fixpoint lower_hex_only (s : string) : bool :=
  match s with
  | EmptyString => true
  | String c s' => is_lower_hex c && lower_hex_only s'
  end.

(** The prefixes of the six patterns of [invalidate_product_cache]. *)
Definition invalidated_prefixes : list string :=
  ["dashboard"; "summary"; "wordcloud"; "timeline"; "distribution"; "sentiment_map"].

(** The matcher reads the patterns of the product id by containment: a
    key that matches the pattern of a prefix and the id starts with the
    prefix and a colon, and holds the id somewhere after it.  This is
    how a glob matcher reads an id in which every character stands for
    itself; it is not how it reads an id with a metacharacter: the
    patterns of the id [*] match every key under the six prefixes. *)
Definition matches_by_containment (glob_match : string -> string -> bool)
    (parent_asin : string) : Prop :=
  forall prefix key,
    prefix ∈ invalidated_prefixes ->
    glob_match (prefix +:+ ":*" +:+ parent_asin +:+ "*") key = true ->
    exists a b, key = prefix +:+ ":" +:+ a +:+ parent_asin +:+ b.

(** A key that the key generator makes for a prefix without a colon. *)
Definition generated (key : string) : Prop :=
  exists prefix kw,
    has_char ":" prefix = false /\ key = RedisConfig.generate_cache_key prefix kw.

(** ** A store and a data layer that work *)

(** The world has a connection without pending failures. *)
Definition quiet {DB : Type} (w : World DB) : Prop :=
  exists c, redis_client (redis_config w) = Some c /\ Redis.faults c = [].

(** A fetch function that returns, for any arguments and any state of the
    database, a value other than [None] that can be serialized. *)
Definition answers {DB : Type} (fetch_function : Fetch DB) : Prop :=
  forall kw d, exists (v : pyval) d' doc,
    fetch_function kw d = (Return v, d') /\ v <> PNone /\ json_dumps v = Return doc.

Definition data_answers {DB : Type} (data : data_layer DB) : Prop :=
  answers (_fetch_summary_statistics data) /\
  answers (_fetch_word_cloud_data data) /\
  answers (_fetch_sentiment_timeline data) /\
  answers (_fetch_sentiment_distribution data) /\
  answers (_fetch_sentiment_map data).

(** A data layer in which every query returns a value. *)
Definition answering_data : data_layer unit :=
  {| _fetch_summary_statistics := fetch_value (PDict [(KStr "total_reviews", PInt 12)]);
     _fetch_word_cloud_data := fetch_value (PList [PStr "good"]);
     _fetch_sentiment_timeline := fetch_value (PList []);
     _fetch_sentiment_distribution := fetch_value (PList [PInt 1]);
     _fetch_sentiment_map := fetch_value (PDict []) |}.

(** [fills task key]: on a quiet world with a positive component ttl the
    task returns a value and leaves a quiet world in which [key] holds a
    value, and no key that held one has lost it; when [key] holds a value
    already the task returns that value and changes nothing. *)
Definition fills {DB : Type} (task : M DB pyval) (key : string) : Prop :=
  forall w, quiet w -> 0 < component_ttl (redis_config w) ->
    (exists (v : pyval) w',
       task w = (Return v, w') /\ quiet w' /\
       component_ttl (redis_config w') = component_ttl (redis_config w) /\
       default_ttl (redis_config w') = default_ttl (redis_config w) /\
       loop_fault w' = loop_fault w /\ utcnow w' = utcnow w /\
       cached w' key <> PNone /\
       (forall k, cached w k <> PNone -> cached w' k <> PNone)) /\
    (cached w key <> PNone -> task w = (Return (cached w key), w)).

(** The keys of the six warming queries. *)
Definition warming_keys (call : kwargs) : list string :=
  [ RedisConfig.generate_cache_key "summary" (date_args call);
    RedisConfig.generate_cache_key "wordcloud" (date_args call);
    RedisConfig.generate_cache_key "timeline" (date_args call);
    RedisConfig.generate_cache_key "distribution" (distribution_args "year" call);
    RedisConfig.generate_cache_key "distribution" (distribution_args "month" call);
    RedisConfig.generate_cache_key "sentiment_map" (date_args call) ].

(** ** Notions for the reports and the dashboard *)

(** The report of a successful invalidation of [parent_asin] at the time
    [now] that deleted [n] keys. *)
Definition success_report (now parent_asin : string) (n : Z) : list (string * pyval) :=
  [ ("product", PStr parent_asin);
    ("deleted_keys", PInt n);
    ("status", PStr "success");
    ("timestamp", PStr now) ].

Definition sum_deleted (reports : list (list (string * pyval))) : Z :=
  foldr (fun report acc => deleted_keys report + acc) 0 reports.

(** The arguments of the cached queries of a dashboard request. *)
Definition dashboard_args (parent_asin : string) (start_date end_date cities : option string)
    : kwargs :=
  [ ("parent_asin", AStr parent_asin);
    ("start_date", optional start_date);
    ("end_date", optional end_date);
    ("cities", optional cities) ].

Definition dashboard_key (parent_asin : string) (start_date end_date cities : option string)
    : string :=
  RedisConfig.generate_cache_key "dashboard"
    (dashboard_args parent_asin start_date end_date cities).

(** The dashboard made at the time [now] of the outcomes [results] of
    the six queries. *)
Definition dashboard_data (parent_asin : string) (start_date end_date cities : option string)
    (now : string) (results : list (result pyval)) : pyval :=
  let component (i : nat) :=
    value_or_none (nth i results (Return PNone)) in
  PDict [ (KStr "product_info",
           DashboardRoutes.product_info parent_asin start_date end_date cities);
          (KStr "summary_statistics", component 0%nat);
          (KStr "word_cloud", component 1%nat);
          (KStr "sentiment_timeline", component 2%nat);
          (KStr "yearly_distribution", component 3%nat);
          (KStr "monthly_distribution", component 4%nat);
          (KStr "sentiment_map", component 5%nat);
          (KStr "metadata",
           PDict [ (KStr "generated_at", PStr now);
                   (KStr "cache_key",
                    PStr (dashboard_key parent_asin start_date end_date cities));
                   (KStr "partial_failures", PInt (raised results));
                   (KStr "total_components", PInt (Z.of_nat (length results))) ]) ].

(** The answer of the dashboard when the gather itself fails with [e]. *)
Definition gather_failure_data (parent_asin : string)
    (start_date end_date cities : option string) (now : string) (e : exn) : pyval :=
  PDict [ (KStr "product_info",
           DashboardRoutes.product_info parent_asin start_date end_date cities);
          (KStr "error", PStr ("Partial failure in data fetching: " +:+ exn_msg e));
          (KStr "metadata",
           PDict [ (KStr "generated_at", PStr now);
                   (KStr "cache_key",
                    PStr (dashboard_key parent_asin start_date end_date cities));
                   (KStr "status", PStr "partial_failure") ]) ].

(** A parser for the examples: [float()] on a decimal numeral with at
    most one point is the nearest binary64 number. *)
Fixpoint decimal_digits (s : string) (acc : Z) (scale : Z) (point : bool)
    : option (Z * Z) :=
  match s with
  | EmptyString => Some (acc, scale)
  | String c s' =>
      if Ascii.eqb c "." then
        if point then None else decimal_digits s' acc scale true
      else
        let d := Z.of_N (N_of_ascii c) - 48 in
        if (0 <=? d) && (d <=? 9)
        then decimal_digits s' (10 * acc + d) (if point then 10 * scale else scale) point
        else None
  end.

Definition float_of_decimal (s : string) : option spec_float :=
  match s with
  | EmptyString | "." => None
  | _ =>
      match decimal_digits s 0 1 false with
      | Some (n, scale) => Some (Float64.of_ratio n scale)
      | None => None
      end
  end.

(** A reply to [INFO] of a server that has seen 3 hits and 1 miss. *)
Definition example_reply : RedisAdmin.info_reply :=
  RedisAdmin.InfoReply (Some "1.05M") (Some 2) (Some 40) (Some 3) (Some 1).

(** A statistic that is a number. *)
Definition numeric (x : stat) : bool :=
  match x with StatStr _ => false | _ => true end.

(** [stats.get(name, 0)] *)
Definition stat_or_zero (name : string) (stats : stats_dict) : stat :=
  default (StatInt 0) (dict_get name stats).

(** [steady w w']: the world [w'] has a connection without pending
    failures, and the configuration, the clock and the event loop of
    [w]. *)
Definition steady {DB : Type} (w w' : World DB) : Prop :=
  quiet w' /\
  default_ttl (redis_config w') = default_ttl (redis_config w) /\
  component_ttl (redis_config w') = component_ttl (redis_config w) /\
  utcnow w' = utcnow w /\
  loop_fault w' = loop_fault w.

(** * Properties *)

(** ** Strings and their order *)

Lemma string_leb_trans (s1 s2 s3 : string) :
  String.leb s1 s2 = true -> String.leb s2 s3 = true -> String.leb s1 s3 = true.
Proof.
  unfold String.leb. revert s2 s3.
  induction s1 as [|a s1 IH]; intros [|b s2] [|c s3]; simpl; try done.
  unfold Ascii.compare.
  destruct (N.compare_spec (N_of_ascii a) (N_of_ascii b)) as [Hab|Hab|Hab];
    destruct (N.compare_spec (N_of_ascii b) (N_of_ascii c)) as [Hbc|Hbc|Hbc];
    try done.
  - rewrite Hab, Hbc, N.compare_refl. apply IH.
  - intros _ _. rewrite Hab. by apply N.compare_lt_iff in Hbc as ->.
  - intros _ _. rewrite <- Hbc. by apply N.compare_lt_iff in Hab as ->.
  - intros _ _.
    assert (N_of_ascii a < N_of_ascii c)%N as ->%N.compare_lt_iff by lia. done.
Qed.

#[local] Instance item_le_trans : Transitive RedisConfig.item_le.
Proof. intros x y z. apply string_leb_trans. Qed.

#[local] Instance item_le_total : Total RedisConfig.item_le.
Proof. intros x y. apply String.leb_total. Qed.

Lemma item_le_antisym_key (x y : string * pyarg) :
  RedisConfig.item_le x y -> RedisConfig.item_le y x -> x.1 = y.1.
Proof. apply String.leb_antisym. Qed.

(** ** The key generator *)

(** The digest on the test suite of RFC 1321 and on a message of two
    blocks. *)
Example md5_empty : MD5.hexdigest "" = "d41d8cd98f00b204e9800998ecf8427e".
Proof. vm_compute. reflexivity. Qed.

Example md5_abc : MD5.hexdigest "abc" = "900150983cd24fb0d6963f7d28e17f72".
Proof. vm_compute. reflexivity. Qed.

Example md5_message_digest :
  MD5.hexdigest "message digest" = "f96b697d7cb7938d525a2f31aaf161d0".
Proof. vm_compute. reflexivity. Qed.

Example md5_digits :
  MD5.hexdigest
    "12345678901234567890123456789012345678901234567890123456789012345678901234567890"
  = "57edf4a22be3c955ac49da2e2107b67a".
Proof. vm_compute. reflexivity. Qed.

Example key_of_summary :
  RedisConfig.generate_cache_key "summary"
    [("parent_asin", AStr "B00X"); ("start_date", ANone); ("end_date", ANone);
     ("cities", ANone)]
  = "summary:d1dd2ad4f891f40ad36e26b000576485".
Proof. vm_compute. reflexivity. Qed.

Lemma NoDup_fst_inj (l : kwargs) (x y : string * pyarg) :
  NoDup l.*1 -> x ∈ l -> y ∈ l -> x.1 = y.1 -> x = y.
Proof.
  induction l as [|z l IH]; simpl; intros Hnd Hx Hy Heq.
  - by apply elem_of_nil in Hx.
  - apply NoDup_cons in Hnd as [Hz Hnd].
    apply elem_of_cons in Hx as [->|Hx]; apply elem_of_cons in Hy as [->|Hy]; auto.
    + exfalso. apply Hz. rewrite Heq. by apply list_elem_of_fmap_2.
    + exfalso. apply Hz. rewrite <- Heq. by apply list_elem_of_fmap_2.
Qed.

Lemma NoDup_of_fst (l : kwargs) : NoDup l.*1 -> NoDup l.
Proof. apply NoDup_fmap_1. Qed.

Lemma StronglySorted_list_filter {A : Type} (R : relation A) (f : A -> bool) l :
  StronglySorted R l -> StronglySorted R (List.filter f l).
Proof.
  induction 1 as [|x l Hl IH Hx]; simpl; [constructor|].
  destruct (f x); [|done]. constructor; [done|].
  apply Forall_forall. intros y Hy%list_elem_of_In%filter_In.
  destruct Hy as [Hy _]. rewrite Forall_forall in Hx. by apply Hx, list_elem_of_In.
Qed.

Lemma elem_of_present_sorted (kw : kwargs) (kv : string * pyarg) :
  kv ∈ List.filter RedisConfig.present (RedisConfig.sorted kw) <-> kv ∈ kw /\ kv.2 <> ANone.
Proof.
  rewrite list_elem_of_In, filter_In, <- list_elem_of_In.
  unfold RedisConfig.sorted. rewrite merge_sort_Permutation.
  unfold RedisConfig.present. destruct kv as [k []]; simpl; intuition congruence.
Qed.

Lemma present_sorted_NoDup (kw : kwargs) :
  NoDup kw.*1 -> NoDup (List.filter RedisConfig.present (RedisConfig.sorted kw)).*1.
Proof.
  intros Hnd.
  assert (NoDup (RedisConfig.sorted kw).*1) as Hs.
  { unfold RedisConfig.sorted. by rewrite merge_sort_Permutation. }
  revert Hs. generalize (RedisConfig.sorted kw). intros l.
  induction l as [|x l IH]; simpl; [done|].
  intros [Hx Hl]%NoDup_cons. destruct (RedisConfig.present x); simpl; [|auto].
  apply NoDup_cons. split; [|auto].
  intros Hin. apply Hx.
  apply list_elem_of_fmap in Hin as (y & -> & Hy).
  apply list_elem_of_fmap_2. apply list_elem_of_In, filter_In in Hy as [Hy _].
  by apply list_elem_of_In.
Qed.

(** The sorted list of present items depends only on the set of present
    items. *)
Lemma present_sorted_unique (p1 p2 : kwargs) :
  NoDup p1.*1 -> NoDup p2.*1 ->
  (forall k v, v <> ANone -> ((k, v) ∈ p1 <-> (k, v) ∈ p2)) ->
  List.filter RedisConfig.present (RedisConfig.sorted p1)
  = List.filter RedisConfig.present (RedisConfig.sorted p2).
Proof.
  intros Hnd1 Hnd2 Hsame.
  assert (List.filter RedisConfig.present (RedisConfig.sorted p1)
          ≡ₚ List.filter RedisConfig.present (RedisConfig.sorted p2)) as Hperm.
  { apply NoDup_Permutation.
    - apply NoDup_of_fst, present_sorted_NoDup, Hnd1.
    - apply NoDup_of_fst, present_sorted_NoDup, Hnd2.
    - intros [k v]. rewrite !elem_of_present_sorted. simpl.
      split; intros [Hin Hv]; (split; [by apply Hsame|done]). }
  apply (StronglySorted_unique_strong RedisConfig.item_le); [| | |done].
  - intros x1 x2 H1 H2 Hle Hge.
    apply (NoDup_fst_inj (List.filter RedisConfig.present (RedisConfig.sorted p1))).
    + apply present_sorted_NoDup, Hnd1.
    + done.
    + by rewrite Hperm.
    + by apply item_le_antisym_key.
  - apply StronglySorted_list_filter, StronglySorted_merge_sort; apply _.
  - apply StronglySorted_list_filter, StronglySorted_merge_sort; apply _.
Qed.

Lemma le_bytes_length (n : nat) (x : Z) : length (MD5.le_bytes n x) = n.
Proof. unfold MD5.le_bytes. by rewrite length_map, length_seq. Qed.

Lemma hex_length (bs : list Z) : length (flat_map MD5.hex2 bs) = (2 * length bs)%nat.
Proof. induction bs as [|b bs IH]; simpl; [done|]. rewrite IH. lia. Qed.

Lemma string_of_list_length (l : list ascii) :
  String.length (string_of_list_ascii l) = length l.
Proof. induction l as [|c l IH]; simpl; [done|]. by rewrite IH. Qed.

(** The digest is 32 hexadecimal characters wide, whatever the input. *)
Lemma hexdigest_length (s : string) : String.length (MD5.hexdigest s) = 32%nat.
Proof.
  unfold MD5.hexdigest, MD5.digest.
  destruct (fold_left _ _ _) as [[[a b] c] d].
  rewrite string_of_list_length, hex_length, !length_app, !le_bytes_length.
  done.
Qed.

(** C4: parameter mappings with the same present (non-null) items get the
    same key under a namespace, whatever the order of the parameters; the
    key is the namespace, a colon, and the 32-character digest of the
    sorted, null-filtered [name=value] string. *)
Theorem c4_key_determinism (n : string) (p1 p2 : kwargs) :
  NoDup p1.*1 -> NoDup p2.*1 ->
  (forall k v, v <> ANone -> ((k, v) ∈ p1 <-> (k, v) ∈ p2)) ->
  RedisConfig.generate_cache_key n p1 = RedisConfig.generate_cache_key n p2 /\
  exists digest,
    String.length digest = 32%nat /\
    digest = MD5.hexdigest
               (RedisConfig.join "&"
                  (map (fun kv => kv.1 +:+ "=" +:+ py_str kv.2)
                       (List.filter RedisConfig.present (RedisConfig.sorted p1)))) /\
    RedisConfig.generate_cache_key n p1 = n +:+ ":" +:+ digest.
Proof.
  intros Hnd1 Hnd2 Hsame. split.
  - unfold RedisConfig.generate_cache_key, RedisConfig.param_string.
    by rewrite (present_sorted_unique p1 p2).
  - eexists. split; [apply hexdigest_length|]. split; reflexivity.
Qed.

Lemma c4_key_determinism_witness :
  let p1 := [("parent_asin", AStr "B00X"); ("start_date", ANone); ("period", AStr "year")] in
  let p2 := [("period", AStr "year"); ("cities", ANone); ("parent_asin", AStr "B00X")] in
  NoDup p1.*1 /\ NoDup p2.*1 /\
  (forall k v, v <> ANone -> ((k, v) ∈ p1 <-> (k, v) ∈ p2)) /\
  RedisConfig.generate_cache_key "distribution" p1
  = RedisConfig.generate_cache_key "distribution" p2.
Proof.
  intros p1 p2.
  assert (NoDup p1.*1) as H1 by (apply (bool_decide_unpack _); vm_compute; exact I).
  assert (NoDup p2.*1) as H2 by (apply (bool_decide_unpack _); vm_compute; exact I).
  assert (forall k v, v <> ANone -> ((k, v) ∈ p1 <-> (k, v) ∈ p2)) as H3.
  { intros k v Hv. unfold p1, p2. rewrite !elem_of_cons, !elem_of_nil. intuition congruence. }
  split; [exact H1|]. split; [exact H2|]. split; [exact H3|].
  exact (proj1 (c4_key_determinism "distribution" p1 p2 H1 H2 H3)).
Defined.

(** *** Distinct keys *)

Lemma has_char_app (c : ascii) (a b : string) :
  has_char c (a +:+ b) = has_char c a || has_char c b.
Proof. induction a as [|x a IH]; simpl; [done|]. by rewrite IH, orb_assoc. Qed.

(** A string is cut in one way only at the first occurrence of [c]. *)
Lemma cut_unique (c : ascii) (a a' b b' : string) :
  has_char c a = false -> has_char c a' = false ->
  a +:+ String c b = a' +:+ String c b' -> a = a' /\ b = b'.
Proof.
  revert a'. induction a as [|x a IH]; intros [|x' a']; simpl.
  - intros _ _ [= ->]. done.
  - intros _ [Hx _]%orb_false_elim [= <- _]. by rewrite Ascii.eqb_refl in Hx.
  - intros [Hx _]%orb_false_elim _ [= -> _]. by rewrite Ascii.eqb_refl in Hx.
  - intros [_ Ha]%orb_false_elim [_ Ha']%orb_false_elim [= -> Heq].
    destruct (IH a' Ha Ha' Heq) as [-> ->]. done.
Qed.

Lemma join_cons_cons (sep x y : string) (l : list string) :
  RedisConfig.join sep (x :: y :: l) = x +:+ sep +:+ RedisConfig.join sep (y :: l).
Proof. reflexivity. Qed.

(** Joining with ["&"] loses nothing when no part holds the delimiter and
    no part is empty. *)
Lemma join_amp_inj (l1 l2 : list string) :
  Forall (fun x => has_char "&" x = false /\ x <> "") l1 ->
  Forall (fun x => has_char "&" x = false /\ x <> "") l2 ->
  RedisConfig.join "&" l1 = RedisConfig.join "&" l2 -> l1 = l2.
Proof.
  revert l2. induction l1 as [|x l1 IH]; intros l2 H1 H2.
  - destruct l2 as [|y [|y2 l2]]; [done| |].
    + simpl. intros <-. by apply Forall_cons in H2 as [[_ ?] _].
    + rewrite join_cons_cons. simpl. intros Heq.
      apply Forall_cons in H2 as [[_ Hy] _]. destruct y; [done|discriminate].
  - apply Forall_cons in H1 as [[Hx Hxe] H1].
    destruct l2 as [|y l2].
    { destruct l1 as [|x2 l1]; simpl; [done|].
      intros Heq. destruct x; [done|discriminate]. }
    apply Forall_cons in H2 as [[Hy Hye] H2].
    destruct l1 as [|x2 l1], l2 as [|y2 l2].
    + simpl. by intros ->.
    + rewrite join_cons_cons. simpl RedisConfig.join at 1. intros ->.
      rewrite has_char_app in Hx. simpl in Hx. by rewrite orb_true_r in Hx.
    + rewrite join_cons_cons. simpl RedisConfig.join at 2. intros <-.
      rewrite has_char_app in Hy. simpl in Hy. by rewrite orb_true_r in Hy.
    + rewrite !join_cons_cons. intros Heq.
      apply (cut_unique "&" x y) in Heq as [-> Heq]; [|done..].
      f_equal. by apply IH.
Qed.

Lemma item_string_inj (a b : string * string) :
  plain a.1 = true -> plain b.1 = true -> item_string a = item_string b -> a = b.
Proof.
  destruct a as [k s], b as [k' s']. unfold plain, item_string. simpl.
  intros [Hk%negb_true_iff Hk2%negb_true_iff]%andb_true_iff
         [Hk'%negb_true_iff Hk2'%negb_true_iff]%andb_true_iff Heq.
  apply (cut_unique "=" k k') in Heq as [-> ->]; done.
Qed.

Lemma item_string_amp (a : string * string) :
  plain a.1 = true -> plain a.2 = true ->
  has_char "&" (item_string a) = false /\ item_string a <> "".
Proof.
  destruct a as [k s]. unfold plain, item_string. simpl.
  intros [Hk%negb_true_iff _]%andb_true_iff [Hs%negb_true_iff _]%andb_true_iff.
  split.
  - rewrite has_char_app, Hk. simpl. done.
  - destruct k; discriminate.
Qed.

Lemma param_string_rendered (kw : kwargs) :
  RedisConfig.param_string kw
  = RedisConfig.join "&" (map item_string (sorted_rendered kw)).
Proof.
  unfold RedisConfig.param_string, sorted_rendered. by rewrite map_map.
Qed.

Lemma list_filter_Permutation {A : Type} (f : A -> bool) (l1 l2 : list A) :
  l1 ≡ₚ l2 -> List.filter f l1 ≡ₚ List.filter f l2.
Proof.
  induction 1 as [|x l1 l2 _ IH|x y l|l1 l2 l3 _ IH1 _ IH2]; simpl.
  - done.
  - destruct (f x); by rewrite IH.
  - destruct (f x), (f y); try done. apply perm_swap.
  - by rewrite IH1.
Qed.

Lemma sorted_rendered_Permutation (kw : kwargs) : sorted_rendered kw ≡ₚ rendered kw.
Proof.
  unfold sorted_rendered, rendered.
  apply (Permutation_map (fun kv : string * pyarg => (kv.1, py_str kv.2))),
        list_filter_Permutation.
  unfold RedisConfig.sorted. apply merge_sort_Permutation.
Qed.

Lemma plain_items_sorted (kw : kwargs) :
  plain_items kw = true ->
  Forall (fun ks => plain ks.1 = true /\ plain ks.2 = true) (sorted_rendered kw).
Proof.
  unfold plain_items. rewrite forallb_forall, Forall_forall.
  intros H ks Hin. apply andb_true_iff, H, list_elem_of_In.
  by rewrite <- sorted_rendered_Permutation.
Qed.

(** Without delimiters in names and values, the parameter string tells
    the rendered items apart. *)
Lemma param_string_inj (p1 p2 : kwargs) :
  plain_items p1 = true -> plain_items p2 = true ->
  RedisConfig.param_string p1 = RedisConfig.param_string p2 ->
  sorted_rendered p1 = sorted_rendered p2.
Proof.
  intros H1%plain_items_sorted H2%plain_items_sorted.
  rewrite !param_string_rendered. intros Heq.
  apply join_amp_inj in Heq.
  - revert H1 H2 Heq. generalize (sorted_rendered p1) (sorted_rendered p2).
    intros l1. induction l1 as [|a l1 IH]; intros [|b l2]; simpl; try done.
    intros [[Ha _] H1]%Forall_cons [[Hb _] H2]%Forall_cons [= Hab Heq].
    f_equal; [by apply item_string_inj | by apply IH].
  - apply Forall_fmap. eapply Forall_impl; [exact H1|].
    intros a [? ?]. by apply item_string_amp.
  - apply Forall_fmap. eapply Forall_impl; [exact H2|].
    intros a [? ?]. by apply item_string_amp.
Qed.

Lemma string_app_inv_head (a b c : string) : a +:+ b = a +:+ c -> b = c.
Proof. induction a as [|x a IH]; simpl; [done|]. intros [= ?]. auto. Qed.

(** C5, as the code has it: when no name and no rendered value holds [&]
    or [=], parameter mappings that differ in a rendered item (name and
    [str()] of a value that is not [None]) have different parameter
    strings, so their keys differ unless MD5 collides on these two
    strings. *)
Theorem c5_key_distinctness (n : string) (p1 p2 : kwargs) :
  plain_items p1 = true -> plain_items p2 = true ->
  (exists ks, (ks ∈ rendered p1 /\ ks ∉ rendered p2) \/
              (ks ∈ rendered p2 /\ ks ∉ rendered p1)) ->
  RedisConfig.generate_cache_key n p1 <> RedisConfig.generate_cache_key n p2 \/
  (RedisConfig.param_string p1 <> RedisConfig.param_string p2 /\
   MD5.hexdigest (RedisConfig.param_string p1)
   = MD5.hexdigest (RedisConfig.param_string p2)).
Proof.
  intros H1 H2 (ks & Hdiff).
  assert (RedisConfig.param_string p1 <> RedisConfig.param_string p2) as Hne.
  { intros Heq%param_string_inj; [|done..].
    rewrite <- !sorted_rendered_Permutation, Heq in Hdiff. tauto. }
  destruct (decide (RedisConfig.generate_cache_key n p1
                    = RedisConfig.generate_cache_key n p2)) as [Heq|]; [|by left].
  right. split; [done|].
  unfold RedisConfig.generate_cache_key in Heq.
  by apply string_app_inv_head, string_app_inv_head in Heq.
Qed.

Lemma c5_key_distinctness_witness :
  let p1 := [("parent_asin", AStr "B00X"); ("period", AStr "year")] in
  let p2 := [("parent_asin", AStr "B00X"); ("period", AStr "month")] in
  plain_items p1 = true /\ plain_items p2 = true /\
  (("period", "year") ∈ rendered p1 /\ ("period", "year") ∉ rendered p2) /\
  RedisConfig.generate_cache_key "distribution" p1
  <> RedisConfig.generate_cache_key "distribution" p2.
Proof.
  intros p1 p2.
  assert (("period", "year") ∈ rendered p1 /\ ("period", "year") ∉ rendered p2) as Hd.
  { split; apply (bool_decide_unpack _); vm_compute; exact I. }
  split; [reflexivity|]. split; [reflexivity|]. split; [exact Hd|].
  destruct (c5_key_distinctness "distribution" p1 p2 eq_refl eq_refl
              (ex_intro _ ("period", "year") (or_introl Hd))) as [Hne|[_ Hcoll]].
  - exact Hne.
  - vm_compute in Hcoll. discriminate Hcoll.
Defined.

(** C5 as stated fails: two mappings that differ in a present entry get
    the same key, because they have the same parameter string (no digest
    collision is involved). *)
Lemma c5_counterexample :
  let p1 := [("parent_asin", AStr "B00X"); ("cities", AStr "Leeds&end_date=2020-12-31")] in
  let p2 := [("parent_asin", AStr "B00X"); ("cities", AStr "Leeds");
             ("end_date", AStr "2020-12-31")] in
  NoDup p1.*1 /\ NoDup p2.*1 /\
  (("end_date", AStr "2020-12-31") ∈ p2 /\ ("end_date", AStr "2020-12-31") ∉ p1) /\
  RedisConfig.param_string p1 = RedisConfig.param_string p2 /\
  RedisConfig.generate_cache_key "summary" p1
  = RedisConfig.generate_cache_key "summary" p2.
Proof.
  intros p1 p2.
  split; [apply (bool_decide_unpack _); vm_compute; exact I|].
  split; [apply (bool_decide_unpack _); vm_compute; exact I|].
  split; [|split; vm_compute; reflexivity].
  split.
  - unfold p2. rewrite !elem_of_cons. auto.
  - unfold p1. rewrite !elem_of_cons, elem_of_nil. intros [[=]|[[=]|[]]].
Qed.

(** Values of different types with the same [str()] are not told apart
    either. *)
Example same_key_int_str :
  RedisConfig.generate_cache_key "summary" [("parent_asin", AInt 1)]
  = RedisConfig.generate_cache_key "summary" [("parent_asin", AStr "1")].
Proof. vm_compute. reflexivity. Qed.

(** ** The hit rate *)

(** *** Rounding to binary64

    [binary_round_aux] shifts a mantissa to its place, rounds it to
    nearest-even and shifts once more; the lemmas follow the quotient
    that the mantissa and its location stand for. *)

Lemma digits2_pos_bounds (p : positive) :
  2 ^ (Zpos (digits2_pos p) - 1) <= Zpos p < 2 ^ Zpos (digits2_pos p).
Proof.
  induction p as [p IH|p IH|]; cbn [digits2_pos].
  - rewrite Pos2Z.inj_succ. change (Z.pos p~1) with (2 * Z.pos p + 1).
    replace (Z.succ (Z.pos (digits2_pos p)) - 1)
      with (Z.succ (Z.pos (digits2_pos p) - 1)) by lia.
    rewrite !Z.pow_succ_r by lia.
    generalize dependent (2 ^ (Z.pos (digits2_pos p) - 1)).
    generalize dependent (2 ^ Z.pos (digits2_pos p)). intros; lia.
  - rewrite Pos2Z.inj_succ. change (Z.pos p~0) with (2 * Z.pos p).
    replace (Z.succ (Z.pos (digits2_pos p)) - 1)
      with (Z.succ (Z.pos (digits2_pos p) - 1)) by lia.
    rewrite !Z.pow_succ_r by lia.
    generalize dependent (2 ^ (Z.pos (digits2_pos p) - 1)).
    generalize dependent (2 ^ Z.pos (digits2_pos p)). intros; lia.
  - change (1 <= 1 < 2). lia.
Qed.

Lemma Zdigits2_le (m k : Z) : 0 <= m < 2 ^ k -> 0 <= k -> 0 <= Zdigits2 m <= k.
Proof.
  intros [Hm Hlt] Hk. destruct m as [|p|p]; [simpl; lia| |lia].
  cbn [Zdigits2]. split; [lia|].
  pose proof (digits2_pos_bounds p) as [Hlo _].
  assert (2 ^ (Z.pos (digits2_pos p) - 1) < 2 ^ k) as Hpow by lia.
  apply Z.pow_lt_mono_r_iff in Hpow; lia.
Qed.

Lemma Zdigits2_mono (a b : Z) : 0 <= a <= b -> Zdigits2 a <= Zdigits2 b.
Proof.
  intros [Ha Hab]. destruct b as [|q|q]; [| |lia].
  - assert (a = 0) as -> by lia. done.
  - apply (Zdigits2_le a (Zdigits2 (Z.pos q))); [|simpl; lia].
    pose proof (digits2_pos_bounds q). simpl. lia.
Qed.

Lemma pow2_pos (n : Z) : 0 <= n -> 0 < 2 ^ n.
Proof. intros. apply Z.pow_pos_nonneg; lia. Qed.

Lemma lt_of_mul_lt (a b D : Z) : 0 < D -> a * D < b * D -> a < b.
Proof. intros HD H. nia. Qed.

Lemma cancel_abs_lt (a b c A : Z) :
  0 < A -> Z.abs (a * A - b * A) < c * A -> Z.abs (a - b) < c.
Proof.
  intros HA H. replace (a * A - b * A) with ((a - b) * A) in H by ring.
  rewrite Z.abs_mul, (Z.abs_eq A) in H by lia.
  by apply (lt_of_mul_lt _ _ A).
Qed.

Lemma located_range (N D m : Z) (l : location) :
  0 < D -> located N D m l -> m * D <= N < (m + 1) * D.
Proof. intros HD. destruct l as [|[]]; cbn [located]; intros H; lia. Qed.

Lemma shr_m_of_loc (m : Z) (l : location) : shr_m (shr_record_of_loc m l) = m.
Proof. by destruct l as [|[]]. Qed.

Lemma loc_of_shr_of_loc (m : Z) (l : location) :
  loc_of_shr_record (shr_record_of_loc m l) = l.
Proof. by destruct l as [|[]]. Qed.

(** One shift to the right halves the mantissa and keeps the location,
    for the denominator doubled. *)
Lemma shr_1_located (N D : Z) (mrs : shr_record) :
  0 < D -> 0 <= shr_m mrs ->
  located N D (shr_m mrs) (loc_of_shr_record mrs) ->
  located N (2 * D) (shr_m (shr_1 mrs)) (loc_of_shr_record (shr_1 mrs)) /\
  0 <= shr_m (shr_1 mrs).
Proof.
  destruct mrs as [m r s]. cbn [shr_m]. intros HD Hm.
  destruct m as [|p|p]; [| |lia].
  - destruct r, s; cbn [shr_1 shr_m loc_of_shr_record located orb]; lia.
  - destruct p as [p|p|]; destruct r, s;
      cbn [shr_1 shr_m loc_of_shr_record located orb];
      try change (Z.pos p~1) with (2 * Z.pos p + 1) in *;
      try change (Z.pos p~0) with (2 * Z.pos p) in *; nia.
Qed.

Lemma iter_pos_shr_1_located (p : positive) :
  forall (N D : Z) (mrs : shr_record),
    0 < D -> 0 <= shr_m mrs ->
    located N D (shr_m mrs) (loc_of_shr_record mrs) ->
    located N (2 ^ Zpos p * D) (shr_m (SpecFloat.iter_pos shr_1 p mrs))
      (loc_of_shr_record (SpecFloat.iter_pos shr_1 p mrs)) /\
    0 <= shr_m (SpecFloat.iter_pos shr_1 p mrs).
Proof.
  induction p as [p IH|p IH|]; intros N D mrs HD Hm Hl; cbn [SpecFloat.iter_pos].
  - destruct (shr_1_located N D mrs HD Hm Hl) as [H1 Hm1].
    assert (0 < 2 ^ Zpos p) as Hp by (apply Z.pow_pos_nonneg; lia).
    destruct (IH N (2 * D) _ ltac:(lia) Hm1 H1) as [H2 Hm2].
    destruct (IH N (2 ^ Zpos p * (2 * D)) _ ltac:(nia) Hm2 H2) as [H3 Hm3].
    split; [|exact Hm3].
    replace (2 ^ Z.pos p~1 * D) with (2 ^ Z.pos p * (2 ^ Z.pos p * (2 * D)));
      [exact H3|].
    replace (Z.pos p~1) with (Z.pos p + Z.pos p + 1) by lia.
    rewrite !Z.pow_add_r by lia. change (2 ^ 1) with 2. ring.
  - assert (0 < 2 ^ Zpos p) as Hp by (apply Z.pow_pos_nonneg; lia).
    destruct (IH N D _ HD Hm Hl) as [H2 Hm2].
    destruct (IH N (2 ^ Zpos p * D) _ ltac:(nia) Hm2 H2) as [H3 Hm3].
    split; [|exact Hm3].
    replace (2 ^ Z.pos p~0 * D) with (2 ^ Z.pos p * (2 ^ Z.pos p * D));
      [exact H3|].
    replace (Z.pos p~0) with (Z.pos p + Z.pos p) by lia.
    rewrite !Z.pow_add_r by lia. ring.
  - change (2 ^ 1 * D) with (2 * D). apply shr_1_located; assumption.
Qed.

(** Shifting by [n] keeps the location, for the denominator scaled by
    [2 ^ n]; a shift that is not positive does nothing. *)
Lemma shr_located (N D : Z) (m : Z) (l : location) (e n : Z) :
  0 < D -> 0 <= m -> located N D m l ->
  exists m' l',
    shr (shr_record_of_loc m l) e n
    = (shr_record_of_loc m' l', e + Z.max n 0) /\
    0 <= m' /\ located N (2 ^ Z.max n 0 * D) m' l'.
Proof.
  intros HD Hm Hl.
  assert (forall mrs, shr_record_of_loc (shr_m mrs) (loc_of_shr_record mrs) = mrs)
    as Hrec by (by intros [? [] []]).
  destruct n as [|p|p]; cbn [shr].
  - exists m, l. rewrite Z.max_id, Z.add_0_r, Z.pow_0_r, Z.mul_1_l. done.
  - replace (Z.max (Z.pos p) 0) with (Z.pos p) by lia.
    destruct (iter_pos_shr_1_located p N D (shr_record_of_loc m l) HD) as [H1 H2].
    { by rewrite shr_m_of_loc. }
    { by rewrite shr_m_of_loc, loc_of_shr_of_loc. }
    eexists _, _. split; [by rewrite Hrec|]. done.
  - replace (Z.max (Z.neg p) 0) with 0 by lia.
    exists m, l. rewrite Z.add_0_r, Z.pow_0_r, Z.mul_1_l. done.
Qed.

Lemma fexp_eq (x : Z) : fexp 53 1024 x = Z.max (x - 53) (-1074).
Proof. reflexivity. Qed.

(** Rounding to nearest-even moves a located quotient by half a unit at
    most. *)
Lemma round_nearest_even_located (N D m : Z) (l : location) :
  0 < D -> 0 <= m -> located N D m l ->
  m <= round_nearest_even m l <= m + 1 /\
  2 * Z.abs (round_nearest_even m l * D - N) <= D.
Proof.
  intros HD Hm. destruct l as [|[]]; cbn [located round_nearest_even]; intros H.
  - lia.
  - destruct (Z.even m); lia.
  - lia.
  - lia.
Qed.

(** Rounding [N / D * 2 ^ ez], a quotient below [2 ^ B], to binary64:
    the result [m * 2 ^ e] is zero or finite, [e] is at most [B - 52],
    and the result is less than one unit of [2 ^ e] from the quotient. *)
Lemma binary_round_aux_close (N D mz ez : Z) (lz : location) (B : Z) :
  0 < D -> 0 <= mz -> located N D mz lz ->
  N < 2 ^ (B - ez) * D -> ez <= B - 53 -> -1021 <= B <= 1023 ->
  exists m e,
    binary_round_aux 53 1024 false mz ez lz = float_of m e /\
    0 <= m /\ ez <= e <= B - 52 /\
    Z.abs (m * (2 ^ (e - ez) * D) - N) < 2 ^ (e - ez) * D.
Proof.
  intros HD Hmz Hl HN Hez HB.
  unfold binary_round_aux, shr_fexp.
  destruct (shr_located N D mz lz ez (fexp 53 1024 (Zdigits2 mz + ez) - ez) HD Hmz Hl)
    as (m1 & l1 & -> & Hm1 & Hl1).
  rewrite shr_m_of_loc, loc_of_shr_of_loc.
  rewrite !fexp_eq.
  set (d1 := Z.max (Z.max (Zdigits2 mz + ez - 53) (-1074) - ez) 0) in *.
  pose proof (pow2_pos (B - ez) ltac:(lia)) as HP.
  assert (mz < 2 ^ (B - ez)) as Hmzlt.
  { apply (lt_of_mul_lt _ _ D HD). pose proof (located_range _ _ _ _ HD Hl). lia. }
  pose proof (Zdigits2_le mz (B - ez) ltac:(lia) ltac:(lia)) as Hdz.
  assert (0 <= d1 /\ ez + d1 <= B - 53) as [Hd1 He1] by lia.
  pose proof (pow2_pos d1 Hd1) as HQ1.
  assert (0 < 2 ^ d1 * D) as HD1 by lia.
  pose proof (pow2_pos (B - (ez + d1)) ltac:(lia)) as HP1.
  assert (2 ^ (B - ez) = 2 ^ (B - (ez + d1)) * 2 ^ d1) as HPeq.
  { rewrite <- Z.pow_add_r by lia. f_equal. lia. }
  assert (m1 < 2 ^ (B - (ez + d1))) as Hm1lt.
  { apply (lt_of_mul_lt _ _ (2 ^ d1 * D) HD1).
    pose proof (located_range _ _ _ _ HD1 Hl1). rewrite HPeq in HN. lia. }
  destruct (round_nearest_even_located N (2 ^ d1 * D) m1 l1 HD1 Hm1 Hl1) as [Hm2 Hr].
  set (m2 := round_nearest_even m1 l1) in *.
  assert (m2 < 2 ^ (B - (ez + d1) + 1)) as Hm2lt.
  { rewrite Z.pow_add_r by lia. change (2 ^ 1) with 2. lia. }
  pose proof (Zdigits2_le m2 (B - (ez + d1) + 1) ltac:(lia) ltac:(lia)) as Hdm2.
  destruct (shr_located m2 1 m2 loc_Exact (ez + d1)
              (Z.max (Zdigits2 m2 + (ez + d1) - 53) (-1074) - (ez + d1))
              ltac:(lia) ltac:(lia)) as (m3 & l3 & -> & Hm3 & Hl3).
  { cbn [located]. lia. }
  rewrite shr_m_of_loc.
  set (d2 := Z.max (Z.max (Zdigits2 m2 + (ez + d1) - 53) (-1074) - (ez + d1)) 0) in *.
  assert (0 <= d2 /\ ez + d1 + d2 <= B - 52) as [Hd2 He2] by lia.
  pose proof (pow2_pos d2 Hd2) as HQ2.
  exists m3, (ez + d1 + d2). split; [|split; [done|split; [lia|]]].
  - destruct m3 as [|p|p]; [done| |lia].
    cbn [float_of].
    replace (ez + d1 + d2 <=? 1024 - 53) with true; [done|].
    symmetry. apply Z.leb_le. lia.
  - replace (ez + d1 + d2 - ez) with (d2 + d1) by lia.
    rewrite Z.pow_add_r by lia.
    rewrite Z.mul_1_r in Hl3.
    apply (located_range _ _ _ _ HQ2) in Hl3.
    assert (m3 * 2 ^ d2 * (2 ^ d1 * D) <= m2 * (2 ^ d1 * D)) as H1.
    { apply Z.mul_le_mono_nonneg_r; lia. }
    assert (m2 * (2 ^ d1 * D) <= (m3 * 2 ^ d2 + 2 ^ d2 - 1) * (2 ^ d1 * D)) as H2.
    { apply Z.mul_le_mono_nonneg_r; lia. }
    replace (m3 * (2 ^ d2 * 2 ^ d1 * D)) with (m3 * 2 ^ d2 * (2 ^ d1 * D)) by ring.
    replace (2 ^ d2 * 2 ^ d1 * D) with (2 ^ d2 * (2 ^ d1 * D)) by ring.
    replace ((m3 * 2 ^ d2 + 2 ^ d2 - 1) * (2 ^ d1 * D))
      with (m3 * 2 ^ d2 * (2 ^ d1 * D) + 2 ^ d2 * (2 ^ d1 * D) - 2 ^ d1 * D) in H2
      by ring.
    generalize dependent (m3 * 2 ^ d2 * (2 ^ d1 * D)).
    generalize dependent (2 ^ d2 * (2 ^ d1 * D)).
    generalize dependent (m2 * (2 ^ d1 * D)).
    intros. lia.
Qed.

(** *** The three steps of the hit rate *)

Lemma new_location_located (D q r : Z) :
  0 < D -> 0 <= r < D -> located (q * D + r) D q (new_location D r).
Proof.
  intros HD Hr. unfold new_location.
  destruct (Z.even D) eqn:Heven.
  - unfold new_location_even.
    destruct (Z.eqb_spec r 0) as [->|Hr0]; [cbn [located]; lia|].
    destruct (Z.compare_spec (2 * r) D); cbn [located]; lia.
  - unfold new_location_odd.
    destruct (Z.eqb_spec r 0) as [->|Hr0]; [cbn [located]; lia|].
    assert (Z.odd D = true) as [k Hk]%Z.odd_spec by (by rewrite <- Z.negb_even, Heven).
    destruct (Z.compare_spec (2 * r + 1) D); cbn [located]; lia.
Qed.

Lemma SFdiv_core_binary_located (ph pt : positive) :
  Zpos ph <= Zpos pt ->
  exists q s l,
    SFdiv_core_binary 53 1024 (Zpos ph) 0 (Zpos pt) 0 = (q, - s, l) /\
    53 <= s /\ 0 <= q /\ located (Zpos ph * 2 ^ s) (Zpos pt) q l.
Proof.
  intros Hle. unfold SFdiv_core_binary. rewrite fexp_eq.
  pose proof (Zdigits2_mono (Zpos ph) (Zpos pt) ltac:(lia)) as Hd.
  set (e' := Z.min _ (0 - 0)).
  assert (e' <= -53) as He' by (subst e'; lia).
  destruct (0 - 0 - e') as [|s|s] eqn:Hs; [lia| |lia].
  rewrite Z.shiftl_mul_pow2 by lia.
  pose proof (Z_div_mod (Z.pos ph * 2 ^ Z.pos s) (Z.pos pt) ltac:(lia)) as Hdiv.
  destruct (Z.div_eucl (Z.pos ph * 2 ^ Z.pos s) (Z.pos pt)) as [q r].
  destruct Hdiv as [Heq Hr].
  exists q, (Z.pos s), (new_location (Z.pos pt) r).
  split; [f_equal; f_equal; lia|]. split; [lia|].
  pose proof (pow2_pos (Z.pos s) ltac:(lia)).
  split; [nia|].
  rewrite Heq. replace (Z.pos pt * q + r) with (q * Z.pos pt + r) by ring.
  apply new_location_located; lia.
Qed.

(** [h / t] for counters [0 < h <= t]: a binary64 number [m * 2 ^ e]
    less than one unit of [2 ^ e <= 2 ^ -51] from the quotient. *)
Lemma of_ratio_close (h t : Z) :
  0 < h <= t ->
  exists m e,
    Float64.of_ratio h t = float_of m e /\
    0 <= m /\ e <= -51 /\ Z.abs (m * t - h * 2 ^ (- e)) < t.
Proof.
  intros [Hh Ht]. destruct h as [|ph|ph]; [lia| |lia].
  destruct t as [|pt|pt]; [lia| |lia].
  change (Float64.of_ratio (Z.pos ph) (Z.pos pt))
    with (SFdiv 53 1024 (S754_finite false ph 0) (S754_finite false pt 0)).
  cbn [SFdiv xorb].
  destruct (SFdiv_core_binary_located ph pt Ht) as (q & s & l & -> & Hs & Hq & Hl).
  pose proof (pow2_pos s ltac:(lia)) as HS.
  destruct (binary_round_aux_close (Z.pos ph * 2 ^ s) (Z.pos pt) q (- s) l 1
              ltac:(lia) Hq Hl) as (m & e & -> & Hm & He & Herr); [|lia|lia|].
  { replace (1 - - s) with (s + 1) by lia. rewrite Z.pow_add_r by lia.
    change (2 ^ 1) with 2. nia. }
  exists m, e. split; [done|]. split; [done|]. split; [lia|].
  pose proof (pow2_pos (e - - s) ltac:(lia)) as HA.
  apply (cancel_abs_lt _ _ _ (2 ^ (e - - s)) HA).
  replace (Z.pos ph * 2 ^ (- e) * 2 ^ (e - - s)) with (Z.pos ph * 2 ^ s).
  2:{ rewrite <- Z.mul_assoc, <- Z.pow_add_r by lia. do 2 f_equal. lia. }
  replace (m * Z.pos pt * 2 ^ (e - - s)) with (m * (2 ^ (e - - s) * Z.pos pt)) by ring.
  replace (Z.pos pt * 2 ^ (e - - s)) with (2 ^ (e - - s) * Z.pos pt) by ring.
  done.
Qed.

Lemma float_of_finite (m e : Z) :
  0 <= m -> forall s, float_of m e <> S754_infinity s.
Proof. by destruct m. Qed.

(** The division of the hit rate does not raise. *)
Lemma int_true_div_counters (h t : Z) :
  0 < h <= t ->
  Float64.int_true_div h t = Return (Float64.of_ratio h t).
Proof.
  intros Hht. unfold Float64.int_true_div.
  destruct (Z.eqb_spec t 0) as [|_]; [lia|].
  destruct (of_ratio_close h t Hht) as (m & e & -> & Hm & _).
  by destruct m.
Qed.

Lemma of_int_100 : Float64.of_int 100 = S754_finite false 7036874417766400 (-46).
Proof. vm_compute. reflexivity. Qed.

(** The product with [100.0] of a binary64 number [m1 * 2 ^ e1] below
    1.28: less than one unit of [2 ^ e <= 2 ^ -45] from the exact
    product. *)
Lemma mul_100_close (m1 e1 : Z) :
  0 <= m1 -> e1 <= -51 -> 100 * m1 < 128 * 2 ^ (- e1) ->
  exists m e,
    Float64.mul (float_of m1 e1) (Float64.of_int 100) = float_of m e /\
    0 <= m /\ e <= -45 /\
    Z.abs (m * 2 ^ (- e1) - 100 * m1 * 2 ^ (- e)) < 2 ^ (- e1).
Proof.
  intros Hm1 He1 Hlt. rewrite of_int_100.
  pose proof (pow2_pos (- e1) ltac:(lia)) as HP1.
  destruct m1 as [|p|p]; [| |lia].
  - exists 0, (-45). split; [done|]. split; [done|]. split; [done|].
    rewrite Z.mul_0_l, Z.mul_0_r, Z.mul_0_l. cbn [Z.sub Z.opp Z.add Z.abs]. done.
  - change (Float64.mul (float_of (Z.pos p) e1) (S754_finite false 7036874417766400 (-46)))
      with (binary_round_aux 53 1024 false (Z.pos (p * 7036874417766400)) (e1 + -46)
              loc_Exact).
    rewrite Pos2Z.inj_mul.
    set (c := Z.pos 7036874417766400).
    assert (c = 100 * 70368744177664) as Hc by done.
    assert (2 ^ 46 = 70368744177664) as H46 by done.
    destruct (binary_round_aux_close (Z.pos p * c) 1 (Z.pos p * c) (e1 + -46) loc_Exact 7
                ltac:(lia) ltac:(lia)) as (m & e & -> & Hm & He & Herr); [| |lia|lia|].
    { cbn [located]. lia. }
    { replace (7 - (e1 + -46)) with (7 + 46 + - e1) by lia.
      rewrite !Z.pow_add_r by lia. rewrite H46. change (2 ^ 7) with 128. lia. }
    exists m, e. split; [done|]. split; [done|]. split; [lia|].
    pose proof (pow2_pos (- e) ltac:(lia)) as HP2.
    pose proof (pow2_pos (e - (e1 + -46)) ltac:(lia)) as HQ.
    assert (2 ^ (e - (e1 + -46)) * 2 ^ (- e) = 70368744177664 * 2 ^ (- e1)) as HQP.
    { rewrite <- H46, <- !Z.pow_add_r by lia. f_equal. lia. }
    rewrite !Z.mul_1_r in Herr.
    apply (cancel_abs_lt _ _ _ 70368744177664 ltac:(lia)).
    replace (m * 2 ^ (- e1) * 70368744177664)
      with (m * (70368744177664 * 2 ^ (- e1))) by ring.
    replace (2 ^ (- e1) * 70368744177664)
      with (70368744177664 * 2 ^ (- e1)) by ring.
    rewrite <- HQP.
    replace (m * (2 ^ (e - (e1 + -46)) * 2 ^ (- e))
             - 100 * Z.pos p * 2 ^ (- e) * 70368744177664)
      with ((m * 2 ^ (e - (e1 + -46)) - Z.pos p * c) * 2 ^ (- e))
      by (rewrite Hc; ring).
    rewrite Z.abs_mul, (Z.abs_eq (2 ^ (- e))) by lia.
    apply Z.mul_lt_mono_pos_r; done.
Qed.

(** [round_half_even] is within a half of the quotient. *)
Lemma round_half_even_close (num den : Z) :
  0 < den -> 2 * Z.abs (Float64.round_half_even num den * den - num) <= den.
Proof.
  intros Hden. unfold Float64.round_half_even.
  pose proof (Z.div_mod num den ltac:(lia)) as Hnum.
  pose proof (Z.mod_pos_bound num den Hden) as Hr.
  set (q := num / den) in *. set (r := num mod den) in *.
  assert ((q + 1) * den = den * q + den) as Hq1 by ring.
  assert (q * den = den * q) as Hq by ring.
  destruct (Z.compare_spec (2 * r) den); [destruct (Z.even q)| |];
    rewrite ?Hq1, ?Hq; lia.
Qed.

(** [round(x, 2)] of a binary64 number [m2 * 2 ^ e2] with [e2 <= 0]:
    the binary64 number for [k / 100], where [k] is the integer nearest
    to [100 * x]. *)
Lemma py_round_close (m2 e2 : Z) :
  0 <= m2 -> e2 <= 0 ->
  exists k,
    Float64.py_round (float_of m2 e2) 2 = two_decimals k /\
    2 * Z.abs (k * 2 ^ (- e2) - 100 * m2) <= 2 ^ (- e2).
Proof.
  intros Hm2 He2. pose proof (pow2_pos (- e2) ltac:(lia)) as HP2.
  destruct m2 as [|p|p]; [| |lia].
  - exists 0. split; [done|]. cbn [Z.mul Z.sub Z.opp Z.add Z.abs]. lia.
  - exists (Float64.round_half_even (Z.pos p * 100 * 2 ^ Z.max e2 0) (2 ^ Z.max (- e2) 0)).
    split; [done|].
    rewrite (Z.max_r e2 0), (Z.max_l (- e2) 0) by lia.
    rewrite Z.pow_0_r, Z.mul_1_r.
    replace (100 * Z.pos p) with (Z.pos p * 100) by ring.
    by apply round_half_even_close.
Qed.

(** The three roundings together: [k / 100] stays within
    [0.005 * (1 + 2 ^ -35)] of the exact rate. *)
Lemma roundings_close (h t m1 m2 k P1 P2 : Z) :
  0 < t -> 2 ^ 51 <= P1 -> 2 ^ 45 <= P2 ->
  Z.abs (m1 * t - h * P1) < t ->
  Z.abs (m2 * P1 - 100 * m1 * P2) < P1 ->
  2 * Z.abs (k * P2 - 100 * m2) <= P2 ->
  2 ^ 35 * (2 * Z.abs (k * t - 10000 * h) - t) <= t.
Proof.
  change (2 ^ 51) with 2251799813685248. change (2 ^ 45) with 35184372088832.
  change (2 ^ 35) with 34359738368.
  intros Ht HP1 HP2 H1 H2 H3.
  assert (0 < P1 * P2) as HPP by nia.
  assert ((k * t - 10000 * h) * (P1 * P2)
          = t * P1 * (k * P2 - 100 * m2) + 100 * (t * (m2 * P1 - 100 * m1 * P2))
            + 10000 * (P2 * (m1 * t - h * P1))) as Hsplit by ring.
  assert (2 * Z.abs (t * P1 * (k * P2 - 100 * m2)) <= t * P1 * P2) as HU.
  { rewrite Z.abs_mul, (Z.abs_eq (t * P1)) by nia.
    rewrite Z.mul_assoc, (Z.mul_comm 2), <- !Z.mul_assoc.
    apply Z.mul_le_mono_nonneg_l; [lia|]. apply Z.mul_le_mono_nonneg_l; lia. }
  assert (Z.abs (t * (m2 * P1 - 100 * m1 * P2)) <= t * P1) as HV.
  { rewrite Z.abs_mul, (Z.abs_eq t) by lia. apply Z.mul_le_mono_nonneg_l; lia. }
  assert (Z.abs (P2 * (m1 * t - h * P1)) <= t * P2) as HX.
  { rewrite Z.abs_mul, (Z.abs_eq P2), (Z.mul_comm t) by lia.
    apply Z.mul_le_mono_nonneg_l; lia. }
  assert (35184372088832 * (t * P1) <= t * P1 * P2) as HW1.
  { rewrite (Z.mul_comm _ (t * P1)). apply Z.mul_le_mono_nonneg_l; nia. }
  assert (2251799813685248 * (t * P2) <= t * P1 * P2) as HW2.
  { replace (t * P1 * P2) with (P1 * (t * P2)) by ring.
    apply Z.mul_le_mono_nonneg_r; nia. }
  assert (0 <= t * P1) as HT1 by nia.
  assert (0 <= t * P2) as HT2 by nia.
  assert (Z.abs (k * t - 10000 * h) * (P1 * P2)
          = Z.abs ((k * t - 10000 * h) * (P1 * P2))) as Habs.
  { rewrite Z.abs_mul, (Z.abs_eq (P1 * P2)) by lia. done. }
  apply (Z.mul_le_mono_pos_r _ _ (P1 * P2) HPP).
  replace (34359738368 * (2 * Z.abs (k * t - 10000 * h) - t) * (P1 * P2))
    with (34359738368 * (2 * (Z.abs (k * t - 10000 * h) * (P1 * P2)) - t * P1 * P2))
    by ring.
  replace (t * (P1 * P2)) with (t * P1 * P2) by ring.
  rewrite Habs, Hsplit.
  generalize dependent (t * P1 * (k * P2 - 100 * m2)).
  generalize dependent (t * (m2 * P1 - 100 * m1 * P2)).
  generalize dependent (P2 * (m1 * t - h * P1)).
  generalize dependent (t * P1 * P2).
  generalize dependent (t * P1). generalize dependent (t * P2).
  intros. lia.
Qed.

(** A two-decimal value that close to a rate lies between 0 and 100. *)
Lemma close_hundredth_range (hits misses k : Z) :
  0 <= hits -> 0 <= misses -> 0 < hits + misses ->
  close_hundredth hits misses k -> 0 <= k <= 10000.
Proof.
  unfold close_hundredth. change (2 ^ 35) with 34359738368.
  intros Hh Hm Ht Hk. split.
  - destruct (Z.le_gt_cases 0 k) as [|Hneg]; [done|].
    assert (k * (hits + misses) <= - (hits + misses)) by nia. lia.
  - destruct (Z.le_gt_cases k 10000) as [|Hbig]; [done|].
    assert (10001 * (hits + misses) <= k * (hits + misses)) by nia. lia.
Qed.

(** Below [2 ^ 35] counted lookups, that close is nearest. *)
Lemma close_hundredth_nearest (hits misses k : Z) :
  hits + misses < 2 ^ 35 ->
  close_hundredth hits misses k -> nearest_hundredth hits misses k.
Proof.
  unfold close_hundredth, nearest_hundredth. change (2 ^ 35) with 34359738368.
  lia.
Qed.

(** The hit rate of counters that are not negative: it is returned, and
    is the binary64 number for a two-decimal value [k / 100] next to the
    exact rate. *)
Lemma hit_rate_two_decimals (hits misses : Z) :
  0 <= hits -> 0 <= misses -> 0 < hits + misses ->
  exists k,
    RedisConfig._calculate_hit_rate hits misses = Return (two_decimals k) /\
    close_hundredth hits misses k.
Proof.
  intros Hh Hm Ht. unfold RedisConfig._calculate_hit_rate.
  destruct (Z.eqb_spec (hits + misses) 0) as [|_]; [lia|].
  unfold close_hundredth.
  set (t := hits + misses) in *.
  destruct (Z.eq_dec hits 0) as [->|Hh0].
  - exists 0. split.
    + destruct t as [|pt|pt]; [lia| |lia]. rewrite of_int_100. done.
    + rewrite Z.mul_0_l, Z.mul_0_r. cbn [Z.sub Z.opp Z.add Z.abs].
      pose proof (pow2_pos 35 ltac:(lia)). nia.
  - rewrite (int_true_div_counters hits t) by lia.
    destruct (of_ratio_close hits t ltac:(lia)) as (m1 & e1 & -> & Hm1 & He1 & H1).
    pose proof (pow2_pos (- e1) ltac:(lia)) as HP1.
    assert (2 ^ 51 <= 2 ^ (- e1)) as HP1' by (apply Z.pow_le_mono_r; lia).
    destruct (mul_100_close m1 e1 Hm1 He1) as (m2 & e2 & -> & Hm2 & He2 & H2).
    { assert (m1 * t < (2 ^ (- e1) + 1) * t) as Hlt by nia.
      apply (lt_of_mul_lt _ _ t Ht) in Hlt. lia. }
    assert (2 ^ 45 <= 2 ^ (- e2)) as HP2' by (apply Z.pow_le_mono_r; lia).
    destruct (py_round_close m2 e2 Hm2 ltac:(lia)) as (k & -> & H3).
    exists k. split; [done|].
    by apply (roundings_close hits t m1 m2 k (2 ^ (- e1)) (2 ^ (- e2))).
Qed.

(** C8, as the code has it: for counters that are not negative the hit
    rate is returned; it is [0.0] when [hits + misses] is 0, and
    otherwise a number with two decimals: the binary64 number for
    [k / 100], where the integer [k] between 0 and 10000 is within
    [0.5 * (1 + 2 ^ -35)] of [10000 * hits / (hits + misses)], and so an
    integer nearest to it when [hits + misses < 2 ^ 35]; 80 hits and 20
    misses give exactly [80.0], and no traffic gives [0.0]. *)
Theorem c8_hit_rate (hits misses : Z) :
  0 <= hits -> 0 <= misses ->
  (hits + misses = 0 ->
   RedisConfig._calculate_hit_rate hits misses = Return (S754_zero false)) /\
  (0 < hits + misses ->
   exists k,
     0 <= k <= 10000 /\
     RedisConfig._calculate_hit_rate hits misses = Return (two_decimals k) /\
     close_hundredth hits misses k /\
     (hits + misses < 2 ^ 35 -> nearest_hundredth hits misses k)) /\
  RedisConfig._calculate_hit_rate 80 20 = Return (Float64.of_int 80) /\
  RedisConfig._calculate_hit_rate 0 0 = Return (S754_zero false).
Proof.
  intros Hh Hm. split; [|split; [|split]].
  - unfold RedisConfig._calculate_hit_rate. intros ->. reflexivity.
  - intros Ht.
    destruct (hit_rate_two_decimals hits misses Hh Hm Ht) as (k & Hrate & Hk).
    exists k. split; [by apply (close_hundredth_range hits misses)|].
    split; [done|]. split; [done|].
    intros Hsmall. by apply close_hundredth_nearest.
  - vm_compute. reflexivity.
  - reflexivity.
Qed.

Lemma c8_hit_rate_witness :
  0 <= 1 /\ 0 <= 2 /\
  exists k,
    0 <= k <= 10000 /\
    RedisConfig._calculate_hit_rate 1 2 = Return (two_decimals k) /\
    close_hundredth 1 2 k /\
    (1 + 2 < 2 ^ 35 -> nearest_hundredth 1 2 k).
Proof.
  split; [lia|]. split; [lia|].
  exact (proj1 (proj2 (c8_hit_rate 1 2 ltac:(lia) ltac:(lia))) ltac:(lia)).
Defined.

(** C8 as stated fails: with 1 hit and 2 misses the rate is 33.33, which
    is neither the binary64 number nearest to 100/3 nor equal to 100/3. *)
Lemma c8_counterexample :
  RedisConfig._calculate_hit_rate 1 2 = Return (Float64.of_ratio 3333 100) /\
  RedisConfig._calculate_hit_rate 1 2 <> Return (Float64.of_ratio (100 * 1) (1 + 2)) /\
  RedisConfig._calculate_hit_rate 1 2
  = Return (S754_finite false 4690780486883082 (-47)) /\
  4690780486883082 * (1 + 2) <> 100 * 1 * 2 ^ 47.
Proof.
  split; [vm_compute; reflexivity|].
  split; [vm_compute; discriminate|].
  split; [vm_compute; reflexivity|].
  vm_compute. discriminate.
Qed.

(** The two binary64 roundings before [round] show at ties: 23 hits and
    137 misses are exactly 14.375 percent, reported as 14.37. *)
Example hit_rate_tie :
  RedisConfig._calculate_hit_rate 23 137 = Return (Float64.of_ratio 1437 100).
Proof. vm_compute. reflexivity. Qed.

(** Counters that no server reports: with a negative counter the
    quotient can leave the range of binary64, and the division raises. *)
Example hit_rate_overflow :
  RedisConfig._calculate_hit_rate (2 ^ 1030) (1 - 2 ^ 1030)
  = Raise (Exception "OverflowError" "integer division result too large for a float").
Proof. vm_compute. reflexivity. Qed.

(** ** The store client *)

Section StoreClient.
Context {DB : Type}.
Implicit Types (w : World DB) (c : Redis.client) (key : string).

Lemma command_run {A : Type} (run : gmap string Redis.entry -> result A * gmap string Redis.entry) c :
  Redis.command run c
  = match next_fault c with
    | Some e => (Raise e, Redis.Client (Redis.keyspace c) (later_faults c))
    | None =>
        let (r, ks) := run (Redis.keyspace c) in (r, Redis.Client ks (later_faults c))
    end.
Proof.
  unfold Redis.command, next_fault, later_faults.
  destruct (Redis.faults c) as [|[e|] rest]; simpl; try done.
Qed.

Lemma store_with_client c w : store (with_client (Some c) w) = Redis.keyspace c.
Proof. reflexivity. Qed.

Lemma store_client c w :
  redis_client (redis_config w) = Some c -> store w = Redis.keyspace c.
Proof. unfold store. by intros ->. Qed.

(** [get] never raises: it answers [None] without a client or when the
    command fails, and the decoded entry otherwise; the keyspace is left
    as it was. *)
Lemma get_run key w :
  RedisConfig.get key w
  = match redis_client (redis_config w) with
    | None => (Return PNone, w)
    | Some c =>
        (Return (if next_fault c is Some _ then PNone else cached w key),
         commanded c (Redis.keyspace c) w)
    end.
Proof.
  unfold RedisConfig.get, bind, self_redis_client, try_except, await_client,
    cached, store, commanded.
  destruct (redis_client (redis_config w)) as [c|] eqn:Hc; simpl; [|done].
  rewrite Hc. unfold Redis.get. rewrite command_run.
  destruct (next_fault c); simpl; [done|].
  destruct (Redis.keyspace c !! key); done.
Qed.

(** [set] never raises either; it writes exactly when there is a client,
    the value can be serialized, the command goes through and the expire
    time is positive. *)
Lemma set_run key (value : pyval) (ttl : option Z) w :
  RedisConfig.set key value ttl w
  = match redis_client (redis_config w) with
    | None => (Return false, w)
    | Some c =>
        match json_dumps value with
        | Raise _ => (Return false, w)
        | Return doc =>
            let t := RedisConfig.ttl_or ttl (default_ttl (redis_config w)) in
            match next_fault c with
            | Some _ => (Return false, commanded c (Redis.keyspace c) w)
            | None =>
                if t <=? 0 then (Return false, commanded c (Redis.keyspace c) w)
                else (Return true,
                      commanded c (<[key := Redis.Entry doc t]> (Redis.keyspace c)) w)
            end
        end
    end.
Proof.
  unfold RedisConfig.set, bind, self_redis_client, self_default_ttl, try_except,
    await_client, lift, commanded, ret.
  destruct (redis_client (redis_config w)) as [c|] eqn:Hc; simpl; [|done].
  destruct (json_dumps value) as [doc|e]; simpl; [|done].
  rewrite Hc. unfold Redis.setex. rewrite command_run.
  destruct (next_fault c); simpl; [done|].
  destruct (_ <=? 0); done.
Qed.

Lemma get_returns key w :
  exists v w', RedisConfig.get key w = (Return v, w')
               /\ store w' = store w /\ database w' = database w
               /\ fetch_calls w' = fetch_calls w
               /\ default_ttl (redis_config w') = default_ttl (redis_config w).
Proof.
  rewrite get_run. destruct (redis_client (redis_config w)) as [c|] eqn:Hc.
  - eexists _, _. split; [done|]. by rewrite (store_client c w).
  - by eexists _, _.
Qed.

(** With nothing usable under [key], [get] answers [None] whatever the
    connection does. *)
Lemma get_miss key w :
  cached w key = PNone -> fst (RedisConfig.get key w) = Return PNone.
Proof.
  intros Hmiss. rewrite get_run.
  destruct (redis_client (redis_config w)) as [c|]; simpl; [|done].
  rewrite Hmiss. by destruct (next_fault c).
Qed.

Lemma set_returns key value ttl w :
  exists b w', RedisConfig.set key value ttl w = (Return b, w')
               /\ database w' = database w /\ fetch_calls w' = fetch_calls w.
Proof.
  rewrite set_run.
  destruct (redis_client (redis_config w)) as [c|]; [|by eexists _, _].
  destruct (json_dumps value); [|by eexists _, _].
  simpl. destruct (next_fault c); [by eexists _, _|].
  destruct (_ <=? 0); by eexists _, _.
Qed.

(** The steps of [cache_with_fallback] after a miss at [w1]. *)
Lemma cache_with_fallback_run key (fetch_function : Fetch DB) ttl (kw : kwargs) w :
  CacheManager.cache_with_fallback key fetch_function ttl kw w
  = match RedisConfig.get key w with
    | (Return cached_data, w1) =>
        if is_none cached_data then
          match await_fetch fetch_function kw w1 with
          | (Return fresh_data, w2) =>
              if is_none fresh_data then (Return fresh_data, w2)
              else (Return fresh_data, snd (RedisConfig.set key fresh_data ttl w2))
          | (Raise e, w2) => (Raise e, w2)
          end
        else (Return cached_data, w1)
    | (Raise e, w1) => (Raise e, w1)
    end.
Proof.
  unfold CacheManager.cache_with_fallback, bind at 1.
  destruct (RedisConfig.get key w) as [[v|e] w1]; [|done].
  destruct (is_none v); simpl; [|done].
  unfold try_except, bind at 1.
  destruct (await_fetch fetch_function kw w1) as [[fresh|e] w2]; [|done].
  destruct (is_none fresh); simpl; [done|].
  unfold bind, ret.
  destruct (set_returns key fresh ttl w2) as (b & w3 & -> & _). done.
Qed.

End StoreClient.

(** ** JSON round trip *)

Lemma pyval_nested_ind (P : pyval -> Prop) :
  P PNone -> (forall b, P (PBool b)) -> (forall z, P (PInt z)) ->
  (forall f, P (PFloat f)) -> (forall s, P (PStr s)) ->
  (forall l, Forall P l -> P (PList l)) ->
  (forall l, Forall P l -> P (PTuple l)) ->
  (forall items, Forall (fun kv => P kv.2) items -> P (PDict items)) ->
  (forall s, P (PObject s)) ->
  forall v, P v.
Proof.
  intros HNone HBool HInt HFloat HStr HList HTuple HDict HObject.
  fix IH 1. intros [ |b|z|f|s|l|l|items|s].
  - exact HNone.
  - apply HBool.
  - apply HInt.
  - apply HFloat.
  - apply HStr.
  - apply HList. induction l as [|x l IHl]; constructor; [apply IH|exact IHl].
  - apply HTuple. induction l as [|x l IHl]; constructor; [apply IH|exact IHl].
  - apply HDict.
    induction items as [|[k v] items IHitems]; constructor; [apply IH|exact IHitems].
  - apply HObject.
Qed.

Lemma dict_set_fresh (k : pykey) (v : pyval) (d : list (pykey * pyval)) :
  Forall (fun kv => pykey_eqb k kv.1 = false) d ->
  dict_set pykey_eqb k v d = (d ++ [(k, v)])%list.
Proof.
  induction 1 as [|[k' v'] d Hk _ IH]; simpl; [done|].
  simpl in Hk. by rewrite Hk, IH.
Qed.

(** The members written for the items of a dict with distinct string
    keys are read back as these items, in order. *)
Lemma members_roundtrip (items : list (pykey * pyval)) :
  Forall (fun kv => json_native kv.2 = true ->
                    exists doc, json_dumps kv.2 = Return doc /\ json_loads doc = kv.2)
         items ->
  forall (seen : list string) (acc : list (pykey * pyval)),
    Forall (fun kv => exists s, kv.1 = KStr s /\ s ∈ seen) acc ->
    str_keys seen items = true ->
    forallb (fun kv => json_native (snd kv)) items = true ->
    exists ms,
      all_results
        (map (fun item : pykey * pyval =>
                match json_key (fst item) with
                | Raise e => Raise e
                | Return name =>
                    match json_dumps (snd item) with
                    | Raise e => Raise e
                    | Return j => Return (name, j)
                    end
                end) items) = Return ms /\
      fold_left (fun acc m => dict_set pykey_eqb (KStr m.1) (json_loads m.2) acc) ms acc
      = (acc ++ items)%list.
Proof.
  induction 1 as [|[k v] items Hv _ IH]; intros seen acc Hacc Hkeys Hnat; simpl in *.
  - exists []. split; [done|]. simpl. by rewrite app_nil_r.
  - destruct k as [s| | | |]; try done.
    apply andb_true_iff in Hkeys as [Hfresh%negb_true_iff Hkeys].
    apply andb_true_iff in Hnat as [Hnv Hnat].
    destruct (Hv Hnv) as (doc & Hdoc & Hload).
    destruct (IH (s :: seen) (acc ++ [(KStr s, v)])%list) as (ms & Hms & Hfold);
      [|done|done|].
    { apply Forall_app. split.
      - eapply Forall_impl; [exact Hacc|]. intros kv (t & ? & ?).
        exists t. split; [done|]. by apply elem_of_cons; right.
      - constructor; [|constructor]. exists s. split; [done|]. apply list_elem_of_here. }
    exists ((s, doc) :: ms). rewrite Hdoc, Hms. split; [done|].
    simpl. rewrite Hload, dict_set_fresh.
    + rewrite Hfold. by rewrite <- app_assoc.
    + eapply Forall_impl; [exact Hacc|]. intros kv (t & -> & Ht). simpl.
      apply String.eqb_neq. intros ->.
      assert (existsb (String.eqb t) seen = true) as Hin; [|congruence].
      apply existsb_exists. exists t. split; [by apply list_elem_of_In|].
      apply String.eqb_refl.
Qed.

(** A JSON-native value is serialized, and read back as itself. *)
Lemma json_roundtrip (v : pyval) :
  json_native v = true ->
  exists doc, json_dumps v = Return doc /\ json_loads doc = v.
Proof.
  induction v as [ |b|z|f|s|l IH|l IH|items IH|s] using pyval_nested_ind;
    simpl; intros Hnat; try done; try (by eexists).
  - assert (exists js, all_results (map json_dumps l) = Return js
                       /\ map json_loads js = l) as (js & -> & Hjs).
    { induction IH as [|x l Hx _ IHl]; simpl in *; [by exists []|].
      apply andb_true_iff in Hnat as [Hnx Hnat].
      destruct (Hx Hnx) as (doc & -> & Hload).
      destruct (IHl Hnat) as (js & -> & Hjs).
      exists (doc :: js). simpl. by rewrite Hload, Hjs. }
    eexists. split; [done|]. simpl. by rewrite Hjs.
  - apply andb_true_iff in Hnat as [Hkeys Hnat].
    destruct (members_roundtrip items IH [] [] (Forall_nil_2 _) Hkeys Hnat)
      as (ms & -> & Hfold).
    eexists. split; [done|]. simpl. by rewrite Hfold.
Qed.

(** ** Fetch-or-compute *)

Section GetOrCompute.
Context {DB : Type}.
Implicit Types (w : World DB) (c : Redis.client) (key : string)
  (fetch_function : Fetch DB) (ttl : option Z) (kw : kwargs).

Lemma json_dumps_not_null (v : pyval) (doc : json) :
  json_dumps v = Return doc -> v <> PNone -> json_loads doc <> PNone.
Proof.
  destruct v; simpl; intros H Hne; try done;
    repeat case_match; simplify_eq; done.
Qed.

Lemma is_none_false (v : pyval) : v <> PNone -> is_none v = false.
Proof. by destruct v. Qed.

(** A connection without pending failures, after a command that left the
    keyspace as it was, is the same world. *)
Lemma commanded_same w c :
  redis_client (redis_config w) = Some c -> Redis.faults c = [] ->
  commanded c (Redis.keyspace c) w = w.
Proof.
  destruct w as [[url cl dt ct] db fc lf now], c as [ks fs].
  unfold commanded, with_client, later_faults. simpl. by intros -> ->.
Qed.

Lemma next_fault_nil c : Redis.faults c = [] -> next_fault c = None.
Proof. unfold next_fault. by intros ->. Qed.

(** A hit: the cached value is returned and nothing else happens. *)
Lemma cache_hit key fetch_function ttl kw w c :
  redis_client (redis_config w) = Some c -> Redis.faults c = [] ->
  cached w key <> PNone ->
  CacheManager.cache_with_fallback key fetch_function ttl kw w
  = (Return (cached w key), w).
Proof.
  intros Hc Hf Hhit. rewrite cache_with_fallback_run, get_run, Hc.
  rewrite (next_fault_nil c Hf), (is_none_false _ Hhit).
  by rewrite (commanded_same w c).
Qed.

(** C10: when the lookup misses and the fetch function returns a value,
    [cache_with_fallback] returns that value whatever becomes of the
    write: the boolean that [set] returns is not looked at, and neither a
    missing client, a failing command nor a value that cannot be
    serialized makes the call raise. *)
Theorem c10_value_independent_of_write key fetch_function ttl kw w (v : pyval) (d : DB) :
  fst (RedisConfig.get key w) = Return PNone ->
  fetch_function kw (database w) = (Return v, d) ->
  fst (CacheManager.cache_with_fallback key fetch_function ttl kw w) = Return v /\
  (v <> PNone ->
   exists (b : bool) w2 w3,
     w2 = snd (await_fetch fetch_function kw (snd (RedisConfig.get key w))) /\
     RedisConfig.set key v ttl w2 = (Return b, w3) /\
     CacheManager.cache_with_fallback key fetch_function ttl kw w = (Return v, w3)).
Proof.
  intros Hmiss Hfetch. rewrite cache_with_fallback_run.
  destruct (get_returns key w) as (v0 & w1 & Hget & _ & Hdb & _).
  rewrite Hget in *. simpl in Hmiss. injection Hmiss as ->. simpl.
  unfold await_fetch. rewrite Hdb, Hfetch. simpl.
  split.
  - by destruct (is_none v).
  - intros Hv. rewrite (is_none_false v Hv).
    destruct (set_returns key v ttl
                {| redis_config := redis_config w1; database := d;
                   fetch_calls := S (fetch_calls w1); loop_fault := loop_fault w1;
                   utcnow := utcnow w1 |}) as (b & w3 & Hset & _).
    exists b. eexists. exists w3. split; [reflexivity|].
    split; [done|]. by rewrite Hset.
Qed.

(** C2: when the lookup misses and the fetch function raises, the same
    exception reaches the caller and the keyspace is left as it was; a
    later call for a key without an entry whose fetch function succeeds
    (with a connection whose commands go through) returns the value and
    writes it under the key. *)
Theorem c2_failure_not_cached key fetch_function ttl kw w (e : exn) (d : DB) :
  fst (RedisConfig.get key w) = Return PNone ->
  fetch_function kw (database w) = (Raise e, d) ->
  exists w',
    CacheManager.cache_with_fallback key fetch_function ttl kw w = (Raise e, w') /\
    store w' = store w /\
    database w' = d /\
    forall (retry : Fetch DB) ttl' kw' (v : pyval) (doc : json) (d' : DB) c,
      cached w key = PNone ->
      redis_client (redis_config w') = Some c -> Redis.faults c = [] ->
      retry kw' d = (Return v, d') -> v <> PNone -> json_dumps v = Return doc ->
      0 < RedisConfig.ttl_or ttl' (default_ttl (redis_config w)) ->
      exists w'',
        CacheManager.cache_with_fallback key retry ttl' kw' w' = (Return v, w'') /\
        store w''
        = <[key := Redis.Entry doc (RedisConfig.ttl_or ttl' (default_ttl (redis_config w)))]>
            (store w).
Proof.
  intros Hmiss Hfetch. rewrite cache_with_fallback_run.
  destruct (get_returns key w) as (v0 & w1 & Hget & Hst & Hdb & _ & Httl).
  rewrite Hget in *. simpl in Hmiss. injection Hmiss as ->. simpl.
  unfold await_fetch. rewrite Hdb, Hfetch.
  eexists. split; [done|]. split; [done|]. split; [done|].
  intros retry ttl' kw' v doc d' c Hnone Hc Hf Hretry Hv Hdoc Hpos.
  simpl in Hc. rewrite cache_with_fallback_run, get_run. simpl. rewrite Hc.
  rewrite (next_fault_nil c Hf).
  assert (Redis.keyspace c = store w) as Hks.
  { rewrite <- Hst. unfold store. by rewrite Hc. }
  replace (cached _ key) with PNone.
  2:{ unfold cached, store. simpl. rewrite Hc, Hks. exact (eq_sym Hnone). }
  simpl. unfold await_fetch. simpl. rewrite Hretry, (is_none_false v Hv).
  rewrite set_run. simpl. rewrite Hdoc. simpl.
  unfold later_faults at 1. rewrite Hf. simpl.
  rewrite Httl. apply Z.leb_gt in Hpos as Hleb. rewrite Hleb.
  eexists. split; [done|]. by rewrite <- Hks.
Qed.

(** C3: when nothing usable is under the key and the fetch function
    returns [None], [cache_with_fallback] returns [None] and writes
    nothing, and the next call for the key calls its fetch function
    again. *)
Theorem c3_none_not_cached key fetch_function ttl kw w (d : DB) :
  cached w key = PNone ->
  fetch_function kw (database w) = (Return PNone, d) ->
  exists w',
    CacheManager.cache_with_fallback key fetch_function ttl kw w = (Return PNone, w') /\
    store w' = store w /\
    fetch_calls w' = S (fetch_calls w) /\
    database w' = d /\
    forall (again : Fetch DB) ttl2 kw2,
      fetch_calls (snd (CacheManager.cache_with_fallback key again ttl2 kw2 w'))
      = S (fetch_calls w') /\
      fst (CacheManager.cache_with_fallback key again ttl2 kw2 w')
      = fst (again kw2 d).
Proof.
  intros Hnone Hfetch. rewrite cache_with_fallback_run.
  pose proof (get_miss key w Hnone) as Hmiss.
  destruct (get_returns key w) as (v0 & w1 & Hget & Hst & Hdb & Hfc & _).
  rewrite Hget in *. simpl in Hmiss. injection Hmiss as ->. simpl.
  unfold await_fetch. rewrite Hdb, Hfetch. simpl.
  eexists. split; [done|]. split; [done|]. split; [by rewrite Hfc|]. split; [done|].
  intros again ttl2 kw2. rewrite cache_with_fallback_run.
  match goal with |- context [RedisConfig.get key ?w2] => set (w' := w2) end.
  assert (cached w' key = PNone) as Hnone'.
  { unfold cached. change (store w') with (store w1). rewrite Hst. exact Hnone. }
  pose proof (get_miss key w' Hnone') as Hmiss'.
  destruct (get_returns key w') as (v1 & w1' & Hget' & _ & Hdb' & Hfc' & _).
  rewrite Hget' in *. simpl in Hmiss'. injection Hmiss' as ->. simpl.
  unfold await_fetch. rewrite Hdb'. simpl.
  destruct (again kw2 d) as [[v|e'] d2]; simpl.
  - destruct (is_none v); simpl; [by rewrite Hfc'|].
    destruct (set_returns key v ttl2
                {| redis_config := redis_config w1'; database := d2;
                   fetch_calls := S (fetch_calls w1'); loop_fault := loop_fault w1';
                   utcnow := utcnow w1' |}) as (b & w3 & -> & _ & Hfc3).
    simpl. rewrite Hfc3. simpl. by rewrite Hfc'.
  - by rewrite Hfc'.
Qed.

End GetOrCompute.

Section Idempotence.
Context {DB : Type}.
Implicit Types (w : World DB) (c : Redis.client) (key : string)
  (fetch_function : Fetch DB) (ttl : option Z) (kw : kwargs).

(** C1, as the code has it: with a connected store whose commands go
    through, an entry with a value other than [None] is returned without
    calling the fetch function; on a miss the fetch function is called
    once and its value, when it is not [None] and can be serialized, is
    written under the key with the given ttl ([None] and 0 standing for
    the default ttl) and returned; the next call then returns the value
    decoded from the JSON text in the store, without calling its fetch
    function and without changing anything; for a JSON-native value that
    is the value the first call returned. *)
Theorem c1_fetch_or_compute key fetch_function ttl kw w c :
  redis_client (redis_config w) = Some c -> Redis.faults c = [] ->
  (cached w key <> PNone ->
   CacheManager.cache_with_fallback key fetch_function ttl kw w
   = (Return (cached w key), w)) /\
  (forall (v : pyval) (d : DB) (doc : json),
     cached w key = PNone ->
     fetch_function kw (database w) = (Return v, d) ->
     v <> PNone -> json_dumps v = Return doc ->
     0 < RedisConfig.ttl_or ttl (default_ttl (redis_config w)) ->
     exists w1,
       CacheManager.cache_with_fallback key fetch_function ttl kw w = (Return v, w1) /\
       store w1
       = <[key := Redis.Entry doc (RedisConfig.ttl_or ttl (default_ttl (redis_config w)))]>
           (store w) /\
       fetch_calls w1 = S (fetch_calls w) /\
       (forall (again : Fetch DB) ttl2 kw2,
          CacheManager.cache_with_fallback key again ttl2 kw2 w1
          = (Return (json_loads doc), w1)) /\
       (json_native v = true -> json_loads doc = v)).
Proof.
  intros Hc Hf. split; [by apply (cache_hit key fetch_function ttl kw w c)|].
  intros v d doc Hnone Hfetch Hv Hdoc Hpos.
  rewrite cache_with_fallback_run, get_run, Hc, (next_fault_nil c Hf), Hnone.
  rewrite (commanded_same w c Hc Hf). simpl.
  unfold await_fetch. rewrite Hfetch, (is_none_false v Hv).
  rewrite set_run. simpl. rewrite Hc, Hdoc, (next_fault_nil c Hf).
  apply Z.leb_gt in Hpos as Hleb. rewrite Hleb. simpl.
  eexists. split; [done|].
  split; [by rewrite (store_client c w Hc)|]. split; [done|].
  split.
  2:{ intros (doc' & Hdoc' & Hload)%json_roundtrip. congruence. }
  intros again ttl2 kw2.
  match goal with |- context [CacheManager.cache_with_fallback _ _ _ _ ?x] =>
    set (w1 := x) end.
  assert (cached w1 key = json_loads doc) as Hcached.
  { unfold cached, w1, commanded. rewrite store_with_client. simpl.
    by rewrite lookup_insert_eq. }
  rewrite <- Hcached. eapply cache_hit.
  - reflexivity.
  - unfold later_faults. by rewrite Hf.
  - rewrite Hcached. by eapply json_dumps_not_null.
Qed.

(** C9: a ttl of 0 is taken for a missing ttl.  [set] with 0 does what
    [set] without a ttl does; with the default of 600 seconds, a client
    whose next command goes through and a value that can be serialized,
    the entry is written with 600 seconds; and no ttl makes [set] write
    an entry that expires at once. *)
Theorem c9_zero_ttl_is_default key (value : pyval) w c (doc : json) :
  default_ttl (redis_config w) = 600 ->
  redis_client (redis_config w) = Some c -> next_fault c = None ->
  json_dumps value = Return doc ->
  RedisConfig.set key value (Some 0) w = RedisConfig.set key value None w /\
  (exists w',
     RedisConfig.set key value (Some 0) w = (Return true, w') /\
     store w' = <[key := Redis.Entry doc 600]> (store w)) /\
  (forall ttl w',
     RedisConfig.set key value ttl w = (Return true, w') ->
     exists t, store w' !! key = Some (Redis.Entry doc t) /\ 0 < t /\
               t = match ttl with
                   | None | Some 0 => 600
                   | Some t' => t'
                   end).
Proof.
  intros Hdef Hc Hnf Hdoc. rewrite !set_run, Hc, Hdoc, Hnf, Hdef. simpl.
  split; [done|]. split.
  - eexists. split; [done|]. by rewrite (store_client c w Hc).
  - intros ttl w'. rewrite set_run, Hc, Hdoc, Hnf, Hdef. simpl.
    destruct (_ <=? 0) eqn:Hle; [done|]. intros [= <-].
    apply Z.leb_gt in Hle. eexists. split; [|split; [exact Hle|]].
    + unfold commanded. rewrite store_with_client. simpl. by rewrite lookup_insert_eq.
    + unfold RedisConfig.ttl_or. destruct ttl as [[| |]|]; done.
Qed.

End Idempotence.

(** *** The properties at concrete worlds *)

(** C1 as stated fails.  Without a client two calls in a row both call
    the fetch function; with a client, a value that is not JSON-native
    comes back changed on the second call; a ttl of 0 is not the ttl of
    the entry written; and an entry that holds [null] counts as a miss. *)
Lemma c1_counterexample :
  (let w := example_world None in
   let fetch := fetch_value (PInt 7) in
   let (r1, w1) := CacheManager.cache_with_fallback "k" fetch None [] w in
   let (r2, w2) := CacheManager.cache_with_fallback "k" fetch None [] w1 in
   r1 = Return (PInt 7) /\ r2 = Return (PInt 7) /\ fetch_calls w2 = 2%nat) /\
  (let w := example_world (Some (example_client [] [])) in
   let fetch := fetch_value (PDict [(KStr "generated_at", PObject "2024-01-01 00:00:00")]) in
   let (r1, w1) := CacheManager.cache_with_fallback "k" fetch None [] w in
   let (r2, w2) := CacheManager.cache_with_fallback "k" fetch None [] w1 in
   r1 = Return (PDict [(KStr "generated_at", PObject "2024-01-01 00:00:00")]) /\
   r2 = Return (PDict [(KStr "generated_at", PStr "2024-01-01 00:00:00")]) /\
   r1 <> r2) /\
  (let w := example_world (Some (example_client [] [])) in
   let (r1, w1) :=
     CacheManager.cache_with_fallback "k" (fetch_value (PInt 7)) (Some 0) [] w in
   r1 = Return (PInt 7) /\ store w1 !! "k" = Some (Redis.Entry (JInt 7) 600)) /\
  (let w := example_world (Some (example_client [("k", Redis.Entry JNull 600)] [])) in
   let (r1, w1) :=
     CacheManager.cache_with_fallback "k" (fetch_value (PInt 7)) None [] w in
   store w !! "k" = Some (Redis.Entry JNull 600) /\
   r1 = Return (PInt 7) /\ fetch_calls w1 = 1%nat).
Proof.
  split; [|split; [|split]].
  - vm_compute. done.
  - vm_compute. split; [done|]. split; [done|]. discriminate.
  - vm_compute. done.
  - vm_compute. done.
Qed.

Lemma c1_fetch_or_compute_witness :
  let w := example_world (Some (example_client [] [])) in
  let c := example_client [] [] in
  let v := PDict [(KStr "total_reviews", PInt 12)] in
  redis_client (redis_config w) = Some c /\ Redis.faults c = [] /\
  exists w1,
    CacheManager.cache_with_fallback "k" (fetch_value v) (Some 1800) [] w = (Return v, w1) /\
    fetch_calls w1 = 1%nat /\
    CacheManager.cache_with_fallback "k" (fetch_error query_error) None [] w1
    = (Return v, w1).
Proof.
  intros w c v. split; [reflexivity|]. split; [reflexivity|].
  destruct (proj2 (c1_fetch_or_compute "k" (fetch_value v) (Some 1800) [] w c
                     eq_refl eq_refl)
              v tt (JObject [("total_reviews", JInt 12)])
              eq_refl eq_refl ltac:(discriminate) eq_refl eq_refl)
    as (w1 & H1 & _ & H2 & H3 & _).
  exists w1. split; [exact H1|]. split; [exact H2|].
  exact (H3 (fetch_error query_error) None []).
Defined.

Lemma c2_failure_not_cached_witness :
  let w := example_world (Some (example_client [] [])) in
  fst (RedisConfig.get "k" w) = Return PNone /\
  fetch_error query_error [] (database w) = (Raise query_error, tt) /\
  exists w',
    CacheManager.cache_with_fallback "k" (fetch_error query_error) None [] w
    = (Raise query_error, w') /\
    store w' = store w /\
    exists w'',
      CacheManager.cache_with_fallback "k" (fetch_value (PInt 7)) None [] w'
      = (Return (PInt 7), w'') /\
      store w'' = <["k" := Redis.Entry (JInt 7) 600]> (store w).
Proof.
  intros w. split; [reflexivity|]. split; [reflexivity|].
  destruct (c2_failure_not_cached "k" (fetch_error query_error) None [] w
              query_error tt eq_refl eq_refl) as (w' & H1 & H2 & _ & H3).
  exists w'. split; [exact H1|]. split; [exact H2|].
  assert (redis_client (redis_config w') = Some (example_client [] [])) as Hc.
  { replace w' with
      (snd (CacheManager.cache_with_fallback "k" (fetch_error query_error) None [] w))
      by (by rewrite H1).
    reflexivity. }
  exact (H3 (fetch_value (PInt 7)) None [] (PInt 7) (JInt 7) tt
            (example_client [] []) eq_refl Hc eq_refl eq_refl
            ltac:(discriminate) eq_refl eq_refl).
Defined.

Lemma c3_none_not_cached_witness :
  let w := example_world (Some (example_client [] [])) in
  cached w "k" = PNone /\
  fetch_value PNone [] (database w) = (Return PNone, tt) /\
  exists w',
    CacheManager.cache_with_fallback "k" (fetch_value PNone) None [] w
    = (Return PNone, w') /\
    store w' = store w /\
    fetch_calls
      (snd (CacheManager.cache_with_fallback "k" (fetch_value PNone) None [] w'))
    = 2%nat.
Proof.
  intros w. split; [reflexivity|]. split; [reflexivity|].
  destruct (c3_none_not_cached "k" (fetch_value PNone) None [] w tt
              eq_refl eq_refl) as (w' & H1 & H2 & H3 & _ & H4).
  exists w'. split; [exact H1|]. split; [exact H2|].
  rewrite (proj1 (H4 (fetch_value PNone) None [])), H3. reflexivity.
Defined.

Lemma c9_zero_ttl_is_default_witness :
  let c := example_client [] [] in
  let w := example_world (Some c) in
  default_ttl (redis_config w) = 600 /\
  redis_client (redis_config w) = Some c /\ next_fault c = None /\
  json_dumps (PInt 7) = Return (JInt 7) /\
  exists w',
    RedisConfig.set "k" (PInt 7) (Some 0) w = (Return true, w') /\
    store w' = <["k" := Redis.Entry (JInt 7) 600]> (store w).
Proof.
  intros c w. repeat (split; [reflexivity|]).
  exact (proj1 (proj2 (c9_zero_ttl_is_default "k" (PInt 7) w c (JInt 7)
                         eq_refl eq_refl eq_refl eq_refl))).
Defined.

(** The write fails here: the second command of the client, the [SETEX],
    times out. *)
Lemma c10_value_independent_of_write_witness :
  let w := example_world (Some (example_client [] [None; Some timeout_error])) in
  let v := PInt 7 in
  fst (RedisConfig.get "k" w) = Return PNone /\
  fetch_value v [] (database w) = (Return v, tt) /\
  fst (CacheManager.cache_with_fallback "k" (fetch_value v) None [] w) = Return v /\
  fst (RedisConfig.set "k" v None
         (snd (await_fetch (fetch_value v) [] (snd (RedisConfig.get "k" w)))))
  = Return false.
Proof.
  intros w v. split; [reflexivity|]. split; [reflexivity|].
  split; [|reflexivity].
  exact (proj1 (c10_value_independent_of_write "k" (fetch_value v) None [] w v tt
                  eq_refl eq_refl)).
Defined.

(** A value that cannot be serialized, and no client at all: the value
    is returned all the same. *)
Example unserializable_value_returned :
  let v := PDict [(KTuple "(1, 2)", PInt 7)] in
  let w := example_world (Some (example_client [] [])) in
  json_dumps v = Raise (Exception "TypeError"
                          "keys must be str, int, float, bool or None, not tuple") /\
  fst (CacheManager.cache_with_fallback "k" (fetch_value v) None [] w) = Return v /\
  store (snd (CacheManager.cache_with_fallback "k" (fetch_value v) None [] w)) = ∅ /\
  fst (CacheManager.cache_with_fallback "k" (fetch_value v) None [] (example_world None))
  = Return v.
Proof. vm_compute. done. Qed.

(** ** Invalidation *)

Section Invalidation.
Context {DB : Type}.
Variable glob_match : string -> string -> bool.
Implicit Types (w : World DB) (c : Redis.client) (pattern key : string)
  (ks : gmap string Redis.entry).

Lemma with_client_twice (c1 c2 : option Redis.client) w :
  with_client c2 (with_client c1 w) = with_client c2 w.
Proof. reflexivity. Qed.

(** [DEL] removes each key and counts the ones that were there. *)
Lemma del_keys_spec (keys : list string) ks :
  let (n, ks') := Redis.del_keys keys ks in
  n = Z.of_nat (size ks) - Z.of_nat (size ks') /\
  0 <= n /\
  (forall k, k ∈ keys -> ks' !! k = None) /\
  (forall k, k ∉ keys -> ks' !! k = ks !! k) /\
  ks' ⊆ ks.
Proof.
  revert ks. induction keys as [|k keys IH]; intros ks; simpl.
  - split; [lia|]. split; [lia|]. split; [by intros k ?%elem_of_nil|]. done.
  - specialize (IH (delete k ks)).
    destruct (Redis.del_keys keys (delete k ks)) as [n ks'].
    destruct IH as (Hn & Hpos & Hgone & Hkept & Hsub).
    assert (ks' ⊆ ks) as Hsub' by (etrans; [exact Hsub|apply delete_subseteq]).
    split; [|split; [|split; [|split]]]; [| | | |done].
    + destruct (ks !! k) as [e|] eqn:Hk.
      * assert (size (delete k ks) = pred (size ks)) as Hsz
          by (apply map_size_delete_Some; eauto).
        assert (size ks ≠ 0%nat) by (apply map_size_ne_0_lookup_2 with k; eauto).
        lia.
      * rewrite (map_size_delete_None k ks Hk) in Hn. lia.
    + destruct (ks !! k); lia.
    + intros k' Hin.
      destruct (decide (k' ∈ keys)) as [Hin'|Hnin]; [by apply Hgone|].
      apply elem_of_cons in Hin as [->|?]; [|done].
      rewrite (Hkept k Hnin). apply lookup_delete_eq.
    + intros k' [Hne Hnin]%not_elem_of_cons.
      rewrite (Hkept k' Hnin). by apply lookup_delete_ne.
Qed.

Lemma elem_of_matching pattern ks key :
  key ∈ Redis.matching glob_match pattern ks
  <-> is_Some (ks !! key) /\ glob_match pattern key = true.
Proof.
  unfold Redis.matching.
  rewrite list_elem_of_In, filter_In, <- list_elem_of_In.
  rewrite (list_elem_of_fmap fst).
  split.
  - intros [([k e] & -> & Hin%elem_of_map_to_list) Hm]. simpl in *. eauto.
  - intros [[e He] Hm]. split; [|done].
    exists (key, e). split; [done|]. by apply elem_of_map_to_list.
Qed.

(** [delete_pattern] never raises; it only removes entries, and returns
    how many it removed. *)
Lemma delete_pattern_returns pattern w :
  exists n w',
    RedisConfig.delete_pattern glob_match pattern w = (Return n, w') /\
    n = Z.of_nat (size (store w)) - Z.of_nat (size (store w')) /\
    0 <= n /\
    store w' ⊆ store w /\
    utcnow w' = utcnow w /\
    (forall c, redis_client (redis_config w) = Some c -> goes_through 2 c ->
               forall key, glob_match pattern key = true -> store w' !! key = None).
Proof.
  unfold RedisConfig.delete_pattern, bind at 1, self_redis_client. simpl.
  destruct (redis_client (redis_config w)) as [c|] eqn:Hc.
  2:{ exists 0, w. unfold ret. split; [done|]. split; [lia|]. split; [lia|].
      split; [done|]. split; [done|]. done. }
  unfold try_except, bind at 1, await_client. rewrite Hc.
  unfold Redis.keys. rewrite command_run.
  rewrite (store_client c w Hc).
  destruct (next_fault c) as [e|] eqn:Hnf; simpl.
  { exists 0, (with_client (Some (Redis.Client (Redis.keyspace c) (later_faults c))) w).
    split; [done|]. rewrite store_with_client. simpl.
    split; [lia|]. split; [lia|]. split; [done|]. split; [done|].
    intros c' [= <-] Hgo. exfalso.
    unfold goes_through, next_fault in *.
    destruct (Redis.faults c) as [|[e'|] rest]; try done.
    simpl in Hgo. by apply Forall_cons in Hgo as [? _]. }
  destruct (Redis.matching glob_match pattern (Redis.keyspace c)) as [|k keys] eqn:Hkeys.
  { exists 0, (with_client (Some (Redis.Client (Redis.keyspace c) (later_faults c))) w).
    split; [done|]. rewrite store_with_client. simpl.
    split; [lia|]. split; [lia|]. split; [done|]. split; [done|].
    intros c' [= <-] _ key Hm.
    destruct (Redis.keyspace c !! key) eqn:Hk; [|done].
    assert (key ∈ Redis.matching glob_match pattern (Redis.keyspace c)) as Hin
      by (apply elem_of_matching; eauto).
    rewrite Hkeys in Hin. by apply elem_of_nil in Hin. }
  unfold bind, await_client. simpl. unfold Redis.delete. rewrite command_run. simpl.
  set (c1 := Redis.Client (Redis.keyspace c) (later_faults c)).
  destruct (next_fault c1) as [e|] eqn:Hnf1; simpl.
  { eexists 0, _. split; [done|]. rewrite with_client_twice, store_with_client. simpl.
    split; [lia|]. split; [lia|]. split; [done|]. split; [done|].
    intros c' [= <-] Hgo. exfalso.
    unfold goes_through, next_fault, c1, later_faults in *. simpl in *.
    destruct (Redis.faults c) as [|o [|[e'|] rest]]; try done.
    simpl in Hgo. apply Forall_cons in Hgo as [_ Hgo].
    by apply Forall_cons in Hgo as [? _]. }
  pose proof (del_keys_spec (k :: keys) (Redis.keyspace c)) as Hdel.
  destruct (Redis.del_keys (k :: keys) (Redis.keyspace c)) as [n ks'] eqn:Hd.
  destruct Hdel as (Hn & Hpos & Hgone & Hkept & Hsub).
  simpl in Hd. rewrite Hd. unfold ret.
  eexists n, _. split; [done|]. rewrite with_client_twice, store_with_client. simpl.
  split; [done|]. split; [done|]. split; [done|]. split; [done|].
  intros c' [= <-] _ key Hm.
  destruct (decide (key ∈ k :: keys)) as [Hin|Hnin]; [by apply Hgone|].
  rewrite (Hkept key Hnin).
  destruct (Redis.keyspace c !! key) eqn:Hk; [|done].
  exfalso. apply Hnin. rewrite <- Hkeys. apply elem_of_matching. eauto.
Qed.

Lemma sweeps_returns (patterns : list string) w :
  exists counts w',
    sweeps glob_match patterns w counts w' /\
    length counts = length patterns /\
    sum_counts counts = Z.of_nat (size (store w)) - Z.of_nat (size (store w')) /\
    store w' ⊆ store w /\
    utcnow w' = utcnow w.
Proof.
  revert w. induction patterns as [|p ps IH]; intros w.
  - exists [], w. split; [constructor|]. simpl. split; [done|]. split; [lia|]. done.
  - destruct (delete_pattern_returns p w) as (n & w1 & Hp & Hn & _ & Hsub & Hnow & _).
    destruct (IH w1) as (counts & w' & Hs & Hlen & Hsum & Hsub' & Hnow').
    exists (n :: counts), w'. split; [by econstructor|].
    simpl. split; [by rewrite Hlen|]. split; [lia|].
    split; [by etrans|]. by rewrite Hnow'.
Qed.

Lemma sweeps_subseteq (patterns : list string) w counts w' :
  sweeps glob_match patterns w counts w' -> store w' ⊆ store w.
Proof.
  induction 1 as [|p ps w n w1 counts w' Hp _ IH]; [done|].
  destruct (delete_pattern_returns p w) as (n' & w1' & Hp' & _ & _ & Hsub & _).
  rewrite Hp in Hp'. injection Hp' as <- <-. by etrans.
Qed.

Lemma sweeps_app (pre post : list string) w counts w' :
  sweeps glob_match (pre ++ post)%list w counts w' ->
  exists (counts1 counts2 : list Z) w1,
    counts = (counts1 ++ counts2)%list /\
    sweeps glob_match pre w counts1 w1 /\ sweeps glob_match post w1 counts2 w'.
Proof.
  revert w counts. induction pre as [|p pre IH]; simpl; intros w counts Hs.
  - exists [], counts, w. split; [done|]. split; [constructor|done].
  - inversion Hs as [|? ? ? n w1 counts' ? Hp Hrest]; subst.
    destruct (IH w1 counts' Hrest) as (c1 & c2 & w2 & -> & H1 & H2).
    exists (n :: c1), c2, w2. split; [done|]. split; [by econstructor|done].
Qed.

(** The loop of [invalidate_product_cache] is a sweep that adds up the
    counts. *)
Lemma delete_patterns_sweeps (patterns : list string) (total : Z) w counts w' :
  sweeps glob_match patterns w counts w' ->
  RedisConfig.delete_patterns glob_match patterns total w
  = (Return (total + sum_counts counts), w').
Proof.
  intros Hs. revert total.
  induction Hs as [|p ps w n w1 counts w' Hp _ IH]; intros total; simpl.
  - unfold ret. f_equal. f_equal. lia.
  - unfold bind. rewrite Hp, IH. f_equal. f_equal. lia.
Qed.

(** C7, as the code has it: the six patterns of a product are swept one
    after the other, each [delete_pattern] returning a count whatever
    happened to the others; a pattern whose own two commands go through
    has none of its keys left at the end; the report never has status
    ["error"] on account of a failing delete: it has status ["success"]
    and the number of keys that were removed. *)
Theorem c7_invalidation_report (parent_asin : string) w :
  exists counts w',
    sweeps glob_match (RedisConfig.patterns parent_asin) w counts w' /\
    length counts = 6%nat /\
    CacheManager.invalidate_product_cache glob_match parent_asin w
    = (Return [ ("product", PStr parent_asin);
                ("deleted_keys", PInt (sum_counts counts));
                ("status", PStr "success");
                ("timestamp", PStr (utcnow w)) ], w') /\
    sum_counts counts = Z.of_nat (size (store w)) - Z.of_nat (size (store w')) /\
    forall pre pattern post,
      RedisConfig.patterns parent_asin = (pre ++ pattern :: post)%list ->
      exists counts1 w1,
        sweeps glob_match pre w counts1 w1 /\
        forall c, redis_client (redis_config w1) = Some c -> goes_through 2 c ->
                  forall key, glob_match pattern key = true -> store w' !! key = None.
Proof.
  destruct (sweeps_returns (RedisConfig.patterns parent_asin) w)
    as (counts & w' & Hs & Hlen & Hsum & _ & Hnow).
  exists counts, w'. split; [done|]. split; [done|]. split; [|split; [done|]].
  - unfold CacheManager.invalidate_product_cache, try_except, bind at 1,
      RedisConfig.invalidate_product_cache.
    rewrite (delete_patterns_sweeps _ 0 w counts w' Hs).
    unfold bind, utcnow_isoformat, ret. rewrite Hnow. done.
  - intros pre pattern post Hsplit. rewrite Hsplit in Hs.
    apply sweeps_app in Hs as (c1 & c2 & w1 & _ & H1 & H2).
    exists c1, w1. split; [done|].
    intros c Hc Hgo key Hm.
    inversion H2 as [|? ? ? n w2 counts' ? Hp Hrest]; subst.
    destruct (delete_pattern_returns pattern w1)
      as (n' & w2' & Hp' & _ & _ & _ & _ & Hgone).
    rewrite Hp in Hp'. injection Hp' as <- <-.
    pose proof (sweeps_subseteq _ _ _ _ Hrest) as Hsub.
    specialize (Hgone c Hc Hgo key Hm).
    destruct (store w' !! key) as [e|] eqn:Hk; [|done].
    eapply lookup_weaken in Hk; [|exact Hsub]. congruence.
Qed.

End Invalidation.

(** C7 as stated fails: the first [KEYS] command times out, the entry of
    the first pattern stays, the other patterns are swept, and the report
    has status ["success"] with no error message. *)
Lemma c7_counterexample :
  let entry := Redis.Entry (JInt 1) 600 in
  let c := example_client [("dashboard:B00X", entry); ("summary:B00X:2020", entry)]
                          [Some timeout_error] in
  let (r, w') :=
    CacheManager.invalidate_product_cache glob_star "B00X" (example_world (Some c)) in
  next_fault c = Some timeout_error /\
  r = Return [ ("product", PStr "B00X");
               ("deleted_keys", PInt 1);
               ("status", PStr "success");
               ("timestamp", PStr "2024-01-01T00:00:00") ] /\
  store w' !! "dashboard:B00X" = Some entry /\
  store w' !! "summary:B00X:2020" = None.
Proof. vm_compute. done. Qed.

(** ** Cache warming *)

Section Warming.
Context {DB : Type}.
Variable data : data_layer DB.
Implicit Types (w : World DB) (call : kwargs).

Lemma shared_parameter_cases (k : string) :
  existsb (String.eqb k) shared_parameters = true -> k ∈ shared_parameters.
Proof.
  unfold shared_parameters. simpl. rewrite !orb_true_iff, !String.eqb_eq.
  rewrite !elem_of_cons, elem_of_nil. intuition discriminate.
Qed.

Lemma dict_set_shared (k : string) (v : pyarg) call :
  k ∈ shared_parameters -> shared_keys call -> shared_keys (dict_set String.eqb k v call).
Proof.
  intros Hk. induction 1 as [|[k' v'] call Hk' Hcall IH]; simpl.
  - constructor; [done|constructor].
  - destruct (String.eqb k k'); constructor; done.
Qed.

Lemma dict_set_get_other (k k' : string) (v : pyarg) call :
  is_Some (dict_get k' call) -> is_Some (dict_get k' (dict_set String.eqb k v call)).
Proof.
  induction call as [|[k0 v0] call IH]; simpl.
  - by intros [? ?].
  - destruct (String.eqb k k0) eqn:Hk.
    + apply String.eqb_eq in Hk as ->. simpl.
      destruct (String.eqb k' k0); eauto.
    + simpl. destruct (String.eqb k' k0); eauto.
Qed.

Lemma warming_params_shared (parent_asin : string) (date_range : option kwargs) :
  valid_date_range date_range = true ->
  shared_keys (warming_params parent_asin date_range) /\
  is_Some (dict_get "parent_asin" (warming_params parent_asin date_range)).
Proof.
  assert (shared_keys [("parent_asin", AStr parent_asin)]
          /\ is_Some (dict_get "parent_asin" [("parent_asin", AStr parent_asin)])) as Hbase.
  { split; [|by eexists]. constructor; [|constructor].
    unfold shared_parameters. simpl. apply list_elem_of_here. }
  unfold warming_params, valid_date_range.
  destruct date_range as [[|kv d]|]; try done.
  unfold dict_update. revert Hbase.
  generalize [("parent_asin", AStr parent_asin)]. generalize (kv :: d). clear kv d.
  intros d. induction d as [|[k v] d IH]; intros base Hbase; simpl; [done|].
  intros [Hk%shared_parameter_cases Hd]%andb_true_iff.
  apply IH; [|done]. destruct Hbase as [Hs Hp].
  split; [by apply dict_set_shared | by apply dict_set_get_other].
Qed.

Lemma no_unexpected_keyword (signature : list (string * option pyarg)) call :
  Forall (fun kv => is_Some (dict_get kv.1 signature)) call ->
  List.find (fun kv => if dict_get (fst kv) signature is Some _ then false else true) call
  = None.
Proof.
  induction 1 as [|kv call [? Hkv] _ IH]; simpl; [done|]. by rewrite Hkv.
Qed.

Lemma shared_in_date_signature call :
  shared_keys call ->
  Forall (fun kv => is_Some (dict_get kv.1 (@Dashboard.date_signature))) call.
Proof.
  intros Hs. eapply Forall_impl; [exact Hs|].
  intros [k v]. unfold shared_parameters. simpl.
  rewrite !elem_of_cons, elem_of_nil.
  intros [->|[->|[->|[->|[]]]]]; by eexists.
Qed.

Lemma passed_or_default call (name : string) :
  (if dict_get name call is Some v then Some v else Some ANone)
  = Some (passed call name).
Proof. unfold passed. by destruct (dict_get name call). Qed.

Lemma passed_required call (name : string) :
  is_Some (dict_get name call) ->
  (if dict_get name call is Some v then Some v else None) = Some (passed call name).
Proof. unfold passed. by intros [? ->]. Qed.

(** A call with shared parameters only binds to the signature with the
    date parameters. *)
Lemma bind_date_arguments (fname : string) call :
  shared_keys call -> is_Some (dict_get "parent_asin" call) ->
  bind_arguments fname Dashboard.date_signature call = Return (date_args call).
Proof.
  intros Hs Hp. unfold bind_arguments.
  rewrite (no_unexpected_keyword _ _ (shared_in_date_signature call Hs)).
  unfold Dashboard.date_signature. simpl.
  by rewrite (passed_required call "parent_asin" Hp), !passed_or_default.
Qed.

Lemma keyword_call_period (period : pyarg) call :
  shared_keys call ->
  keyword_call "get_sentiment_distribution_cached" [("period", period)] call
  = Return (("period", period) :: call).
Proof.
  intros Hs. unfold keyword_call.
  replace (List.find _ call) with (@None (string * pyarg)); [done|].
  symmetry. induction Hs as [|[k v] call Hk _ IH]; simpl; [done|].
  unfold shared_parameters in Hk. simpl in Hk.
  rewrite !elem_of_cons, elem_of_nil in Hk.
  destruct Hk as [->|[->|[->|[->|[]]]]]; simpl; done.
Qed.

Lemma bind_distribution_arguments (period : string) call :
  shared_keys call -> is_Some (dict_get "parent_asin" call) ->
  bind_arguments "get_sentiment_distribution_cached"
    [ ("parent_asin", None); ("period", Some (AStr "year"));
      ("start_date", Some ANone); ("end_date", Some ANone); ("cities", Some ANone) ]
    (("period", AStr period) :: call)
  = Return (distribution_args period call).
Proof.
  intros Hs Hp. unfold bind_arguments.
  rewrite no_unexpected_keyword.
  2:{ constructor; [by eexists|].
      eapply Forall_impl; [exact Hs|]. intros [k v]. unfold shared_parameters. simpl.
      rewrite !elem_of_cons, elem_of_nil.
      intros [->|[->|[->|[->|[]]]]]; by eexists. }
  simpl. unfold distribution_args, passed.
  destruct Hp as [pa Hp]. rewrite Hp. simpl.
  by destruct (dict_get "start_date" call), (dict_get "end_date" call),
       (dict_get "cities" call).
Qed.

(** With a valid date range the six coroutines are created, and they are
    the six warming queries. *)
Lemma warming_tasks_created call :
  shared_keys call -> is_Some (dict_get "parent_asin" call) ->
  all_results
    [ Dashboard.get_summary_statistics_cached data call;
      Dashboard.get_word_cloud_data_cached data call;
      Dashboard.get_sentiment_timeline_cached data call;
      match keyword_call "get_sentiment_distribution_cached"
              [("period", AStr "year")] call with
      | Raise e => Raise e
      | Return call' => Dashboard.get_sentiment_distribution_cached data call'
      end;
      match keyword_call "get_sentiment_distribution_cached"
              [("period", AStr "month")] call with
      | Raise e => Raise e
      | Return call' => Dashboard.get_sentiment_distribution_cached data call'
      end;
      Dashboard.get_sentiment_map_cached data call ]
  = Return (warming_queries data call).
Proof.
  intros Hs Hp. rewrite !keyword_call_period by done.
  unfold Dashboard.get_summary_statistics_cached, Dashboard.get_word_cloud_data_cached,
    Dashboard.get_sentiment_timeline_cached, Dashboard.get_sentiment_distribution_cached,
    Dashboard.get_sentiment_map_cached, Dashboard.coroutine.
  rewrite !bind_date_arguments, !bind_distribution_arguments by done.
  reflexivity.
Qed.

Lemma bind_lift_return {A B : Type} (r : result A) (a : A) (k : A -> M DB B) w :
  r = Return a -> bind (lift r) k w = k a w.
Proof. by intros ->. Qed.

Lemma run_tasks_length {A : Type} (tasks : list (M DB A)) w :
  length (fst (run_tasks tasks w)) = length tasks.
Proof.
  revert w. induction tasks as [|t tasks IH]; intros w; simpl; [done|].
  destruct (t w) as [r w1]. specialize (IH w1).
  destruct (run_tasks tasks w1) as [rs w2]. simpl in *. by rewrite IH.
Qed.

Lemma succeeded_raised {A : Type} (results : list (result A)) :
  succeeded results + raised results = Z.of_nat (length results).
Proof.
  unfold succeeded, raised.
  induction results as [|[a|e] results IH]; simpl in *; lia.
Qed.

(** C6, as the code has it: for a date range whose keys are parameters
    of every cached query (the product id, the two dates and the
    cities), or no date range, warming never raises.  When the event
    loop runs the six queries, the report counts the ones that returned
    and the ones that raised, out of six; when the gather itself fails,
    the report says no success, six failures and the message of the
    error. *)
Theorem c6_warming_report (parent_asin : string) (date_range : option kwargs) w :
  valid_date_range date_range = true ->
  let tasks := warming_queries data (warming_params parent_asin date_range) in
  match loop_fault w with
  | None =>
      let (results, w') := run_tasks tasks w in
      length results = 6%nat /\
      succeeded results + raised results = 6 /\
      warm_cache_for_product data parent_asin date_range w
      = (Return [ ("product", PStr parent_asin);
                  ("successful", PInt (succeeded results));
                  ("failed", PInt (raised results));
                  ("total", PInt 6) ], w')
  | Some e =>
      warm_cache_for_product data parent_asin date_range w
      = (Return [ ("product", PStr parent_asin);
                  ("successful", PInt 0);
                  ("failed", PInt 6);
                  ("error", PStr (exn_msg e)) ], w)
  end.
Proof.
  intros Hvalid tasks.
  destruct (warming_params_shared parent_asin date_range Hvalid) as [Hs Hp].
  unfold warm_cache_for_product, CacheManager.warm_cache_for_product.
  cbv zeta.
  erewrite bind_lift_return; [|exact (warming_tasks_created _ Hs Hp)].
  fold tasks.
  unfold try_except, bind, asyncio_gather.
  destruct (loop_fault w) as [e|]; [done|].
  pose proof (run_tasks_length tasks w) as Hlen.
  destruct (run_tasks tasks w) as [results w']. simpl in Hlen.
  pose proof (succeeded_raised results) as Hsum.
  change (length tasks) with 6%nat in Hlen. rewrite Hlen in Hsum.
  split; [done|]. split; [lia|].
  unfold ret. rewrite Hlen. fold (succeeded results).
  replace (Z.of_nat 6 - succeeded results) with (raised results) by lia.
  reflexivity.
Qed.

End Warming.

Lemma c6_warming_report_witness :
  let date_range := Some [("start_date", AStr "2020-01-01"); ("end_date", AStr "2020-12-31")] in
  valid_date_range date_range = true /\
  fst (warm_cache_for_product example_data "B00X" date_range (example_world None))
  = Return [ ("product", PStr "B00X");
             ("successful", PInt 4);
             ("failed", PInt 2);
             ("total", PInt 6) ].
Proof.
  intros date_range. split; [reflexivity|].
  pose proof (c6_warming_report example_data "B00X" date_range (example_world None)
                eq_refl) as H.
  simpl loop_fault in H. cbv zeta in H.
  destruct (run_tasks _ _) as [results w'] eqn:Hrun in H.
  destruct H as (_ & _ & ->). simpl.
  assert (results = fst (run_tasks
            (warming_queries example_data (warming_params "B00X" date_range))
            (example_world None))) as -> by (by rewrite Hrun).
  vm_compute. reflexivity.
Defined.

(** C6 as stated fails: the six coroutines are made before the [try],
    so a date range with a keyword that a cached query does not take
    makes [warm_cache_for_product] raise.  With a period the call of the
    first query raises; with a period next to the dates as well; and a
    keyword that no query takes does the same. *)
Lemma c6_counterexample :
  let w := example_world (Some (example_client [] [])) in
  (valid_date_range (Some [("period", AStr "month")]) = false /\
   warm_cache_for_product example_data "B00X" (Some [("period", AStr "month")]) w
   = (Raise (Exception "TypeError"
               "get_summary_statistics_cached() got an unexpected keyword argument 'period'"),
      w)) /\
  (let date_range := Some [ ("start_date", AStr "2020-01-01");
                            ("end_date", AStr "2020-12-31");
                            ("granularity", AStr "day") ] in
   valid_date_range date_range = false /\
   warm_cache_for_product example_data "B00X" date_range w
   = (Raise (Exception "TypeError"
               "get_summary_statistics_cached() got an unexpected keyword argument 'granularity'"),
      w)).
Proof. vm_compute. done. Qed.

(** When the event loop cannot schedule the tasks, the report carries the
    error and nothing is raised. *)
Example warming_gather_failure :
  let w := {| redis_config := RedisConfig.init "redis://localhost:6379";
              database := tt; fetch_calls := 0;
              loop_fault := Some (Exception "RuntimeError" "no running event loop");
              utcnow := "2024-01-01T00:00:00" |} in
  warm_cache_for_product example_data "B00X" None w
  = (Return [ ("product", PStr "B00X");
              ("successful", PInt 0);
              ("failed", PInt 6);
              ("error", PStr "no running event loop") ], w).
Proof. vm_compute. reflexivity. Qed.

(** A date range with a keyword that a cached query does not take makes
    the call raise before anything is gathered. *)
Example warming_unexpected_keyword :
  fst (warm_cache_for_product example_data "B00X" (Some [("period", AStr "month")])
         (example_world None))
  = Raise (Exception "TypeError"
             "get_summary_statistics_cached() got an unexpected keyword argument 'period'").
Proof. vm_compute. reflexivity. Qed.

(** * Further properties of the cache layer *)

(** ** The store operations of [RedisConfig] *)

Section StoreOperations.
Context {DB : Type}.
Variable glob_match : string -> string -> bool.
Implicit Types (w : World DB) (c : Redis.client) (key pattern : string)
  (ks : gmap string Redis.entry).

(** What has happened when [set] returns [True]. *)
Lemma set_true key (value : pyval) (ttl : option Z) w w1 :
  RedisConfig.set key value ttl w = (Return true, w1) ->
  exists c doc,
    redis_client (redis_config w) = Some c /\ json_dumps value = Return doc /\
    next_fault c = None /\
    0 < RedisConfig.ttl_or ttl (default_ttl (redis_config w)) /\
    w1 = commanded c
           (<[key := Redis.Entry doc (RedisConfig.ttl_or ttl (default_ttl (redis_config w)))]>
              (Redis.keyspace c)) w.
Proof.
  rewrite set_run.
  destruct (redis_client (redis_config w)) as [c|]; [|done].
  destruct (json_dumps value) as [doc|]; [|done]. simpl.
  destruct (next_fault c) eqn:Hnf; [done|].
  destruct (_ <=? 0) eqn:Hle; [done|]. intros [= <-].
  apply Z.leb_gt in Hle. by exists c, doc.
Qed.

(** X1: a value that [set] reports as written is what [get] answers for
    the key as long as the next command goes through: the value decoded
    from its JSON text, which for a JSON-native value is the value
    itself.  What the other keys hold is not changed by the write. *)
Theorem set_then_get key (value : pyval) (ttl : option Z) w w1 c1 :
  RedisConfig.set key value ttl w = (Return true, w1) ->
  redis_client (redis_config w1) = Some c1 -> next_fault c1 = None ->
  exists doc,
    json_dumps value = Return doc /\
    fst (RedisConfig.get key w1) = Return (json_loads doc) /\
    (json_native value = true -> fst (RedisConfig.get key w1) = Return value) /\
    (forall key', key' <> key -> cached w1 key' = cached w key').
Proof.
  intros (c & doc & Hc & Hdoc & _ & _ & ->)%set_true Hc1 Hnf.
  exists doc. split; [done|]. rewrite get_run, Hc1, Hnf. simpl.
  assert (cached (commanded c (<[key := Redis.Entry doc
            (RedisConfig.ttl_or ttl (default_ttl (redis_config w)))]> (Redis.keyspace c)) w) key
          = json_loads doc) as Hcached.
  { unfold cached, commanded. rewrite store_with_client. simpl.
    by rewrite lookup_insert_eq. }
  split; [by rewrite Hcached|]. split.
  - intros (doc' & ? & ?)%json_roundtrip. rewrite Hcached. congruence.
  - intros key' Hne. unfold cached, commanded.
    rewrite store_with_client, (store_client c w Hc). simpl.
    by rewrite lookup_insert_ne.
Qed.

(** X2: [set] never raises, and the boolean it returns says whether the
    entry was written: on [True] the keyspace has the new entry, with a
    positive expire time, and on [False] the keyspace is as it was.  A
    negative ttl is never accepted. *)
Theorem set_reports_the_write key (value : pyval) (ttl : option Z) w :
  exists (b : bool) w1,
    RedisConfig.set key value ttl w = (Return b, w1) /\
    (if b
     then exists doc t, json_dumps value = Return doc /\ 0 < t /\
                        store w1 = <[key := Redis.Entry doc t]> (store w)
     else store w1 = store w) /\
    (forall t, ttl = Some t -> t < 0 -> b = false).
Proof.
  rewrite set_run. destruct (redis_client (redis_config w)) as [c|] eqn:Hc.
  2:{ exists false, w. done. }
  rewrite (store_client c w Hc).
  destruct (json_dumps value) as [doc|e]; [|by exists false, w; rewrite (store_client c w Hc)].
  simpl. destruct (next_fault c); [by eexists false, _|].
  destruct (_ <=? 0) eqn:Hle.
  - eexists false, _. split; [done|]. split; [done|]. done.
  - apply Z.leb_gt in Hle. eexists true, _. split; [done|]. split.
    + eexists doc, _. split; [done|]. split; [exact Hle|]. done.
    + intros t -> Ht. unfold RedisConfig.ttl_or in Hle.
      destruct (t =? 0) eqn:H0; [apply Z.eqb_eq in H0|]; lia.
Qed.

Lemma delete_run key w :
  RedisConfig.delete key w
  = match redis_client (redis_config w) with
    | None => (Return false, w)
    | Some c =>
        match next_fault c with
        | Some _ => (Return false, commanded c (Redis.keyspace c) w)
        | None =>
            (Return (if Redis.keyspace c !! key is Some _ then true else false),
             commanded c (delete key (Redis.keyspace c)) w)
        end
    end.
Proof.
  unfold RedisConfig.delete, bind, self_redis_client, try_except, await_client,
    commanded, ret.
  destruct (redis_client (redis_config w)) as [c|] eqn:Hc; simpl; [|done].
  rewrite Hc. unfold Redis.delete. rewrite command_run.
  destruct (next_fault c); simpl; [done|].
  by destruct (Redis.keyspace c !! key).
Qed.

(** X3: [delete] never raises.  It returns [True] only when the key had
    an entry, which is then gone while every other entry stays; when it
    returns [False] the keyspace is as it was; and with a client whose
    next command goes through it returns [True] for every key that has
    an entry. *)
Theorem delete_reports_the_removal key w :
  exists (b : bool) w1,
    RedisConfig.delete key w = (Return b, w1) /\
    (b = true -> is_Some (store w !! key) /\ store w1 = delete key (store w)) /\
    (b = false -> store w1 = store w) /\
    (forall c, redis_client (redis_config w) = Some c -> next_fault c = None ->
               is_Some (store w !! key) -> b = true).
Proof.
  rewrite delete_run. destruct (redis_client (redis_config w)) as [c|] eqn:Hc.
  2:{ exists false, w. done. }
  rewrite (store_client c w Hc).
  destruct (next_fault c) eqn:Hnf.
  { eexists false, _. split; [done|]. split; [done|]. split; [done|].
    intros c' [= <-] ?. congruence. }
  destruct (Redis.keyspace c !! key) as [e|] eqn:Hk.
  - eexists true, _. split; [done|]. split; [eauto|]. done.
  - eexists false, _. split; [done|]. split; [done|]. split.
    + intros _. unfold commanded. rewrite store_with_client. simpl.
      by apply delete_id.
    + by intros c' _ _ [? ?].
Qed.

(** The steps of [delete_pattern]. *)
Lemma delete_pattern_run pattern w :
  RedisConfig.delete_pattern glob_match pattern w
  = match redis_client (redis_config w) with
    | None => (Return 0, w)
    | Some c =>
        match next_fault c with
        | Some _ => (Return 0, commanded c (Redis.keyspace c) w)
        | None =>
            let c1 := Redis.Client (Redis.keyspace c) (later_faults c) in
            match Redis.matching glob_match pattern (Redis.keyspace c) with
            | [] => (Return 0, commanded c (Redis.keyspace c) w)
            | k :: keys =>
                match next_fault c1 with
                | Some _ => (Return 0, commanded c1 (Redis.keyspace c) w)
                | None =>
                    let (n, ks') := Redis.del_keys (k :: keys) (Redis.keyspace c) in
                    (Return n, commanded c1 ks' w)
                end
            end
        end
    end.
Proof.
  unfold RedisConfig.delete_pattern, bind at 1, self_redis_client. simpl.
  destruct (redis_client (redis_config w)) as [c|] eqn:Hc; [|done].
  unfold try_except, bind at 1, await_client. rewrite Hc.
  unfold Redis.keys. rewrite command_run.
  destruct (next_fault c) as [e|]; simpl; [done|].
  destruct (Redis.matching glob_match pattern (Redis.keyspace c)) as [|k keys]; [done|].
  unfold bind, await_client. simpl. unfold Redis.delete. rewrite command_run. simpl.
  destruct (next_fault (Redis.Client (Redis.keyspace c) (later_faults c))) as [e|];
    simpl; [reflexivity|].
  destruct (Redis.del_keys keys _) as [n ks']. reflexivity.
Qed.

(** A key that the pattern does not match keeps what it holds, whatever
    becomes of the commands. *)
Lemma delete_pattern_keeps pattern w key :
  glob_match pattern key = false ->
  store (snd (RedisConfig.delete_pattern glob_match pattern w)) !! key = store w !! key.
Proof.
  intros Hm. rewrite delete_pattern_run.
  destruct (redis_client (redis_config w)) as [c|] eqn:Hc; [|done].
  rewrite (store_client c w Hc).
  destruct (next_fault c); [done|]. cbv zeta.
  destruct (Redis.matching glob_match pattern (Redis.keyspace c)) as [|k keys] eqn:Hkeys;
    [done|].
  destruct (next_fault _); [done|].
  pose proof (del_keys_spec (k :: keys) (Redis.keyspace c)) as Hdel.
  destruct (Redis.del_keys (k :: keys) (Redis.keyspace c)) as [n ks'].
  destruct Hdel as (_ & _ & _ & Hkept & _).
  simpl. unfold commanded. rewrite store_with_client. simpl. apply Hkept.
  rewrite <- Hkeys. intros [_ Hin]%elem_of_matching. congruence.
Qed.

Lemma matching_NoDup pattern ks : NoDup (Redis.matching glob_match pattern ks).
Proof.
  unfold Redis.matching.
  apply NoDup_ListNoDup, List.NoDup_filter, NoDup_ListNoDup, (NoDup_fst_map_to_list ks).
Qed.

(** [DEL] of distinct keys that all have an entry counts them all. *)
Lemma del_keys_count (keys : list string) ks :
  NoDup keys -> (forall k, k ∈ keys -> is_Some (ks !! k)) ->
  fst (Redis.del_keys keys ks) = Z.of_nat (length keys).
Proof.
  intros Hnd. revert ks. induction Hnd as [|k keys Hk Hnd IH]; intros ks Hall; simpl.
  - done.
  - specialize (IH (delete k ks)).
    destruct (Redis.del_keys keys (delete k ks)) as [n ks']. simpl in *.
    destruct (Hall k) as [e ->]; [apply list_elem_of_here|].
    rewrite IH; [lia|].
    intros k' Hin. rewrite lookup_delete_ne.
    + apply Hall. by apply elem_of_cons; right.
    + intros ->. done.
Qed.

(** With a client whose next two commands go through, [delete_pattern]
    removes the entries whose keys match the pattern and no other, and
    returns the number of keys that matched. *)
Lemma delete_pattern_exact pattern w c :
  redis_client (redis_config w) = Some c -> goes_through 2 c ->
  exists w1,
    RedisConfig.delete_pattern glob_match pattern w
    = (Return (Z.of_nat (length (Redis.matching glob_match pattern (store w)))), w1) /\
    forall key,
      store w1 !! key = if glob_match pattern key then None else store w !! key.
Proof.
  intros Hc Hgo.
  destruct (delete_pattern_returns glob_match pattern w)
    as (n & w1 & Hrun & _ & _ & _ & _ & Hgone).
  exists w1. split.
  - rewrite Hrun. f_equal. f_equal.
    rewrite delete_pattern_run, Hc in Hrun. rewrite (store_client c w Hc).
    assert (next_fault c = None) as Hnf.
    { unfold goes_through, next_fault in *.
      destruct (Redis.faults c) as [|[e|] rest]; try done.
      simpl in Hgo. by apply Forall_cons in Hgo as [? _]. }
    rewrite Hnf in Hrun. cbv zeta in Hrun.
    destruct (Redis.matching glob_match pattern (Redis.keyspace c)) as [|k keys] eqn:Hkeys.
    { by injection Hrun as <- _. }
    assert (next_fault (Redis.Client (Redis.keyspace c) (later_faults c)) = None) as Hnf1.
    { unfold goes_through, next_fault, later_faults in *. simpl.
      destruct (Redis.faults c) as [|o [|[e|] rest]]; try done.
      simpl in Hgo. apply Forall_cons in Hgo as [_ Hgo].
      by apply Forall_cons in Hgo as [? _]. }
    rewrite Hnf1 in Hrun.
    pose proof (del_keys_count (k :: keys) (Redis.keyspace c)) as Hcount.
    destruct (Redis.del_keys (k :: keys) (Redis.keyspace c)) as [n' ks'].
    injection Hrun as <- _. simpl in Hcount. rewrite Hcount; [done| |].
    + rewrite <- Hkeys. apply matching_NoDup.
    + intros k' Hin. rewrite <- Hkeys in Hin. by apply elem_of_matching in Hin as [? _].
  - intros key. destruct (glob_match pattern key) eqn:Hm.
    + by apply (Hgone c Hc Hgo).
    + replace w1 with (snd (RedisConfig.delete_pattern glob_match pattern w))
        by (by rewrite Hrun).
      by apply delete_pattern_keeps.
Qed.

Lemma goes_through_two c :
  next_fault c = None ->
  next_fault (Redis.Client (Redis.keyspace c) (later_faults c)) = None ->
  goes_through 2 c.
Proof.
  unfold goes_through, next_fault, later_faults. simpl.
  destruct (Redis.faults c) as [|[e|] [|[e'|] rest]]; try done; intros _ _; simpl;
    repeat constructor.
Qed.

(** X4: [delete_pattern] never raises, and it is all or nothing: either
    it returns 0 and the keyspace is as it was, or it has removed the
    entries whose keys match the pattern and no other, and returns the
    number of keys that matched.  With a client whose next two commands
    go through it is the latter. *)
Theorem delete_pattern_all_or_nothing pattern w :
  exists n w1,
    RedisConfig.delete_pattern glob_match pattern w = (Return n, w1) /\
    let removed_all :=
      n = Z.of_nat (length (Redis.matching glob_match pattern (store w))) /\
      forall key,
        store w1 !! key = if glob_match pattern key then None else store w !! key in
    ((n = 0 /\ store w1 = store w) \/ removed_all) /\
    (forall c, redis_client (redis_config w) = Some c -> goes_through 2 c -> removed_all).
Proof.
  destruct (delete_pattern_returns glob_match pattern w) as (n & w1 & Hrun & _).
  exists n, w1. split; [done|]. cbv zeta.
  assert (forall c, redis_client (redis_config w) = Some c -> goes_through 2 c ->
            n = Z.of_nat (length (Redis.matching glob_match pattern (store w))) /\
            forall key,
              store w1 !! key = if glob_match pattern key then None else store w !! key)
    as Hexact.
  { intros c Hc Hgo.
    destruct (delete_pattern_exact pattern w c Hc Hgo) as (w1' & Hrun' & Hkeys).
    rewrite Hrun in Hrun'. by injection Hrun' as -> ->. }
  split; [|exact Hexact].
  pose proof Hrun as Hsteps. rewrite delete_pattern_run in Hsteps.
  destruct (redis_client (redis_config w)) as [c|] eqn:Hc.
  2:{ left. by injection Hsteps as <- <-. }
  destruct (next_fault c) eqn:Hnf.
  { left. injection Hsteps as <- <-. by rewrite (store_client c w Hc). }
  cbv zeta in Hsteps.
  destruct (Redis.matching glob_match pattern (Redis.keyspace c)) as [|k keys].
  { left. injection Hsteps as <- <-. by rewrite (store_client c w Hc). }
  destruct (next_fault (Redis.Client (Redis.keyspace c) (later_faults c))) eqn:Hnf1.
  { left. injection Hsteps as <- <-. by rewrite (store_client c w Hc). }
  right. apply (Hexact c eq_refl). by apply goes_through_two.
Qed.

End StoreOperations.

(** ** Generated keys and the patterns of invalidation *)

Lemma hex_digit_lower (n : Z) : is_lower_hex (MD5.hex_digit n) = true.
Proof.
  unfold MD5.hex_digit. generalize (Z.to_nat n) as k. intros k.
  do 16 (destruct k as [|k]; [reflexivity|]). by destruct k.
Qed.

Lemma lower_hex_only_app (a b : string) :
  lower_hex_only (a +:+ b) = lower_hex_only a && lower_hex_only b.
Proof. induction a as [|x a IH]; simpl; [done|]. by rewrite IH, andb_assoc. Qed.

(** A digest is written with lowercase hexadecimal digits. *)
Lemma hexdigest_lower_hex (s : string) : lower_hex_only (MD5.hexdigest s) = true.
Proof.
  unfold MD5.hexdigest. generalize (MD5.digest (MD5.bytes_of_string s)) as l.
  induction l as [|b l IH]; simpl; [done|].
  by rewrite !hex_digit_lower, IH.
Qed.

Lemma string_app_length (a b : string) :
  String.length (a +:+ b) = (String.length a + String.length b)%nat.
Proof. induction a as [|x a IH]; simpl; [done|]. by rewrite IH. Qed.

(** Strings that end in tails of the same length and are equal have the
    same heads and the same tails. *)
Lemma string_app_inj_tail (a a' b b' : string) :
  String.length b = String.length b' -> a +:+ b = a' +:+ b' -> a = a' /\ b = b'.
Proof.
  revert a'. induction a as [|x a IH]; intros [|x' a'] Hlen; simpl.
  - done.
  - intros Heq. change (b = String x' (a' +:+ b')) in Heq. subst b.
    simpl in Hlen. rewrite string_app_length in Hlen. lia.
  - intros Heq. change (String x (a +:+ b) = b') in Heq. subst b'.
    simpl in Hlen. rewrite string_app_length in Hlen. lia.
  - intros [= -> Heq]. destruct (IH a' Hlen Heq) as [-> ->]. done.
Qed.

(** X5: keys made for different prefixes are different, whatever the
    parameters: the entries of one kind of query are never taken for, or
    overwritten by, those of another. *)
Theorem keys_of_different_prefixes (prefix1 prefix2 : string) (kw1 kw2 : kwargs) :
  prefix1 <> prefix2 ->
  RedisConfig.generate_cache_key prefix1 kw1 <> RedisConfig.generate_cache_key prefix2 kw2.
Proof.
  intros Hne Heq. apply Hne. unfold RedisConfig.generate_cache_key in Heq.
  apply string_app_inj_tail in Heq as [? _]; [done|].
  by rewrite !string_app_length, !hexdigest_length.
Qed.

Lemma keys_of_different_prefixes_witness :
  RedisConfig.generate_cache_key "summary" [("parent_asin", AStr "B00X")]
  <> RedisConfig.generate_cache_key "wordcloud" [("parent_asin", AStr "B00X")].
Proof. apply keys_of_different_prefixes. discriminate. Defined.

Section InvalidationPatterns.
Context {DB : Type}.
Variable glob_match : string -> string -> bool.
Implicit Types (w : World DB) (c : Redis.client) (pattern key parent_asin : string).

Lemma invalidated_prefix_no_colon (prefix : string) :
  prefix ∈ invalidated_prefixes -> has_char ":" prefix = false.
Proof.
  unfold invalidated_prefixes. rewrite !elem_of_cons, elem_of_nil.
  intuition (subst; reflexivity).
Qed.

Lemma pattern_of_prefix parent_asin pattern :
  pattern ∈ RedisConfig.patterns parent_asin ->
  exists prefix, prefix ∈ invalidated_prefixes /\
                 pattern = prefix +:+ ":*" +:+ parent_asin +:+ "*".
Proof.
  unfold RedisConfig.patterns, invalidated_prefixes.
  rewrite !elem_of_cons, elem_of_nil.
  intros [->|[->|[->|[->|[->|[->|[]]]]]]];
    [exists "dashboard"|exists "summary"|exists "wordcloud"|exists "timeline"
    |exists "distribution"|exists "sentiment_map"];
    (split; [|reflexivity]); rewrite !elem_of_cons; tauto.
Qed.

(** No pattern of a product id that has a character other than a
    lowercase hexadecimal digit matches a generated key: after its
    prefix and colon such a key has hexadecimal digits only. *)
Lemma pattern_misses_generated parent_asin pattern key :
  matches_by_containment glob_match parent_asin ->
  lower_hex_only parent_asin = false ->
  generated key ->
  pattern ∈ RedisConfig.patterns parent_asin ->
  glob_match pattern key = false.
Proof.
  intros Hglob Hasin (prefix & kw & Hcolon & ->) (p & Hp & ->)%pattern_of_prefix.
  destruct (glob_match _ _) eqn:Hm; [|done]. exfalso.
  destruct (Hglob p _ Hp Hm) as (a & b & Heq).
  unfold RedisConfig.generate_cache_key in Heq.
  change (prefix +:+ String ":" (MD5.hexdigest (RedisConfig.param_string kw))
          = p +:+ String ":" (a +:+ parent_asin +:+ b)) in Heq.
  apply cut_unique in Heq as [_ Hh]; [|done|by apply invalidated_prefix_no_colon].
  pose proof (hexdigest_lower_hex (RedisConfig.param_string kw)) as Hhex.
  rewrite Hh, !lower_hex_only_app, Hasin in Hhex.
  by rewrite andb_false_l, andb_false_r in Hhex.
Qed.

Lemma delete_patterns_keeps (patterns : list string) (total : Z) w key :
  Forall (fun pattern => glob_match pattern key = false) patterns ->
  store (snd (RedisConfig.delete_patterns glob_match patterns total w)) !! key
  = store w !! key.
Proof.
  intros H. revert total w. induction H as [|p ps Hp _ IH]; intros total w; simpl; [done|].
  unfold bind.
  destruct (delete_pattern_returns glob_match p w) as (n & w1 & Hrun & _).
  rewrite Hrun, IH.
  replace w1 with (snd (RedisConfig.delete_pattern glob_match p w)) by (by rewrite Hrun).
  by apply delete_pattern_keeps.
Qed.

(** With a connection without pending failures, [delete_pattern] and the
    loop over the patterns leave such a connection, and nothing else of
    the world is touched. *)
Lemma delete_pattern_quiet pattern w c :
  redis_client (redis_config w) = Some c -> Redis.faults c = [] ->
  exists n ks',
    RedisConfig.delete_pattern glob_match pattern w
    = (Return n, with_client (Some (Redis.Client ks' [])) w).
Proof.
  intros Hc Hf. rewrite delete_pattern_run, Hc, (next_fault_nil c Hf). cbv zeta.
  unfold commanded, later_faults, next_fault. rewrite Hf. simpl.
  destruct (Redis.matching _ _ _) as [|k keys]; [by eexists _, _|].
  destruct (Redis.del_keys keys _) as [n ks']. by eexists _, _.
Qed.

Lemma delete_patterns_quiet (patterns : list string) (total : Z) w c :
  redis_client (redis_config w) = Some c -> Redis.faults c = [] ->
  exists n ks',
    RedisConfig.delete_patterns glob_match patterns total w
    = (Return n, with_client (Some (Redis.Client ks' [])) w).
Proof.
  revert total w c. induction patterns as [|p ps IH]; intros total w c Hc Hf; simpl.
  - exists total, (Redis.keyspace c). unfold ret. f_equal.
    destruct w as [[url cl dt ct] db fc lf now], c as [ks fs]. simpl in *. by subst.
  - unfold bind. destruct (delete_pattern_quiet p w c Hc Hf) as (n & ks1 & ->).
    destruct (IH (total + n) (with_client (Some (Redis.Client ks1 [])) w)
                 (Redis.Client ks1 []) eq_refl eq_refl) as (n' & ks' & ->).
    by exists n', ks'.
Qed.

(** The report of [CacheManager.invalidate_product_cache]. *)
Lemma invalidate_product_cache_report parent_asin w :
  exists n w',
    RedisConfig.invalidate_product_cache glob_match parent_asin w = (Return n, w') /\
    CacheManager.invalidate_product_cache glob_match parent_asin w
    = (Return [ ("product", PStr parent_asin);
                ("deleted_keys", PInt n);
                ("status", PStr "success");
                ("timestamp", PStr (utcnow w)) ], w') /\
    n = Z.of_nat (size (store w)) - Z.of_nat (size (store w')) /\
    store w' ⊆ store w /\
    utcnow w' = utcnow w.
Proof.
  destruct (sweeps_returns glob_match (RedisConfig.patterns parent_asin) w)
    as (counts & w' & Hs & _ & Hsum & Hsub & Hnow).
  exists (sum_counts counts), w'.
  unfold CacheManager.invalidate_product_cache, try_except, bind at 1,
    RedisConfig.invalidate_product_cache.
  rewrite (delete_patterns_sweeps _ _ 0 w counts w' Hs).
  unfold bind, utcnow_isoformat, ret. rewrite Hnow. done.
Qed.

(** X6: the patterns of invalidation look for the product id in the
    key, but a generated key holds a digest in place of its parameters.
    When the matcher reads the patterns of the product id by containment
    (the id has no glob metacharacter) and the id has a character that
    is not a lowercase hexadecimal digit (an uppercase ASIN), no
    generated key matches: invalidation leaves every entry under a
    generated key in place; when the store holds generated keys only it
    deletes nothing and reports success with a count of 0; and a cached
    query made afterwards is still answered from the entry written
    before the invalidation.  An id with a metacharacter is another
    matter: see [invalidation_with_star_id]. *)
Theorem invalidation_misses_generated_keys parent_asin w :
  matches_by_containment glob_match parent_asin ->
  lower_hex_only parent_asin = false ->
  let after := snd (CacheManager.invalidate_product_cache glob_match parent_asin w) in
  (forall key, generated key -> store after !! key = store w !! key) /\
  ((forall key, is_Some (store w !! key) -> generated key) ->
   CacheManager.invalidate_product_cache glob_match parent_asin w
   = (Return [ ("product", PStr parent_asin);
               ("deleted_keys", PInt 0);
               ("status", PStr "success");
               ("timestamp", PStr (utcnow w)) ], after) /\
   store after = store w) /\
  (forall c key (fetch_function : Fetch DB) ttl kw,
     redis_client (redis_config w) = Some c -> Redis.faults c = [] ->
     generated key -> cached w key <> PNone ->
     CacheManager.cache_with_fallback key fetch_function ttl kw after
     = (Return (cached w key), after)).
Proof.
  intros Hglob Hasin after.
  destruct (invalidate_product_cache_report parent_asin w)
    as (n & w' & Hrun & Hreport & Hn & Hsub & _).
  assert (after = w') as Hafter by (unfold after; by rewrite Hreport).
  assert (forall key, generated key -> store w' !! key = store w !! key) as Hkeep.
  { intros key Hgen.
    replace w' with (snd (RedisConfig.invalidate_product_cache glob_match parent_asin w))
      by (by rewrite Hrun).
    apply delete_patterns_keeps, Forall_forall.
    intros pattern Hin. by eapply pattern_misses_generated. }
  rewrite Hafter. split; [exact Hkeep|]. split.
  - intros Hall.
    assert (store w' = store w) as Hsame.
    { apply map_eq. intros key. destruct (store w !! key) as [e|] eqn:Hk.
      - rewrite <- Hk. apply Hkeep, Hall. by rewrite Hk.
      - by eapply lookup_weaken_None. }
    rewrite Hreport. rewrite Hsame in Hn. split; [|done].
    by replace n with 0 by lia.
  - intros c key fetch_function ttl kw Hc Hf Hgen Hhit.
    destruct (delete_patterns_quiet (RedisConfig.patterns parent_asin) 0 w c Hc Hf)
      as (n' & ks' & Hquiet).
    unfold RedisConfig.invalidate_product_cache in Hrun. rewrite Hrun in Hquiet.
    injection Hquiet as _ ->.
    assert (cached (with_client (Some (Redis.Client ks' [])) w) key = cached w key) as Hcached.
    { unfold cached. by rewrite (Hkeep key Hgen). }
    rewrite <- Hcached.
    apply (cache_hit key fetch_function ttl kw _ (Redis.Client ks' [])); [done|done|].
    by rewrite Hcached.
Qed.

End InvalidationPatterns.

(** *** The matcher of the examples *)

Lemma glob_star_literal (l rest s : string) :
  has_char "*" l = false -> glob_star (l +:+ rest) s = true ->
  exists s', s = l +:+ s' /\ glob_star rest s' = true.
Proof.
  revert s. induction l as [|x l IH]; intros s Hl H.
  - by exists s.
  - cbn [has_char] in Hl. apply orb_false_elim in Hl as [Hx Hl].
    change (glob_star (String x (l +:+ rest)) s = true) in H. cbn [glob_star] in H.
    rewrite Ascii.eqb_sym, Hx in H.
    destruct s as [|y s]; [done|].
    apply andb_true_iff in H as [->%Ascii.eqb_eq H].
    destruct (IH s Hl H) as (s' & -> & Hrest). by exists s'.
Qed.

Lemma glob_star_star (q s : string) :
  glob_star (String "*" q) s = true ->
  exists s1 s2, s = s1 +:+ s2 /\ glob_star q s2 = true.
Proof.
  cbn [glob_star]. change (Ascii.eqb "*" "*") with true. cbv iota.
  induction s as [|y s IH]; intros H.
  - apply orb_true_iff in H as [H|H]; [|done]. by exists "", "".
  - apply orb_true_iff in H as [H|H].
    + by exists "", (String y s).
    + destruct (IH H) as (s1 & s2 & -> & Hq). by exists (String y s1), s2.
Qed.

(** For a product id without a star the example matcher reads the
    patterns of invalidation by containment. *)
Lemma glob_star_containment (parent_asin : string) :
  has_char "*" parent_asin = false -> matches_by_containment glob_star parent_asin.
Proof.
  intros Hstar prefix key Hp Hm.
  assert (has_char "*" prefix = false) as Hprefix.
  { revert Hp. unfold invalidated_prefixes. rewrite !elem_of_cons, elem_of_nil.
    intuition (subst; reflexivity). }
  apply glob_star_literal in Hm as (s1 & -> & Hm); [|done].
  apply (glob_star_literal ":" (String "*" (parent_asin +:+ "*"))) in Hm
    as (s2 & -> & Hm); [|done].
  apply glob_star_star in Hm as (a & s3 & -> & Hm).
  apply glob_star_literal in Hm as (b & -> & _); [|done].
  by exists a, b.
Qed.

Lemma set_then_get_witness :
  let w := example_world (Some (example_client [] [])) in
  let v := PDict [(KStr "total_reviews", PInt 12)] in
  let w1 := snd (RedisConfig.set "k" v (Some 1800) w) in
  RedisConfig.set "k" v (Some 1800) w = (Return true, w1) /\
  fst (RedisConfig.get "k" w1) = Return v /\
  cached w1 "other" = PNone.
Proof.
  intros w v w1.
  assert (RedisConfig.set "k" v (Some 1800) w = (Return true, w1)) as Hset
    by reflexivity.
  split; [exact Hset|].
  destruct (set_then_get "k" v (Some 1800) w w1
              (Redis.Client (<["k" := Redis.Entry (JObject [("total_reviews", JInt 12)]) 1800]> ∅) [])
              Hset eq_refl eq_refl) as (doc & _ & _ & Hget & Hother).
  split; [by apply Hget|]. by rewrite Hother.
Defined.

(** Three entries, two of which match the pattern. *)
Example delete_pattern_two_of_three :
  let entry := Redis.Entry (JInt 1) 600 in
  let c := example_client [ ("summary:B00X", entry); ("summary:B00Y", entry);
                            ("timeline:B00X", entry) ] [] in
  let w := example_world (Some c) in
  goes_through 2 c /\
  exists w1,
    RedisConfig.delete_pattern glob_star "summary:*" w = (Return 2, w1) /\
    store w1 !! "summary:B00X" = None /\
    store w1 !! "timeline:B00X" = Some entry.
Proof.
  intros entry c w.
  assert (goes_through 2 c) as Hgo by constructor.
  split; [exact Hgo|].
  destruct (delete_pattern_exact glob_star "summary:*" w c eq_refl Hgo)
    as (w1 & Hrun & Hkeys).
  exists w1. split; [exact Hrun|]. rewrite !Hkeys. split; reflexivity.
Qed.

Lemma invalidation_misses_generated_keys_witness :
  let key := RedisConfig.generate_cache_key "summary" [("parent_asin", AStr "B00X")] in
  let c := example_client [(key, Redis.Entry (JInt 7) 1800)] [] in
  let w := example_world (Some c) in
  let after := snd (CacheManager.invalidate_product_cache glob_star "B00X" w) in
  matches_by_containment glob_star "B00X" /\
  lower_hex_only "B00X" = false /\
  store after !! key = Some (Redis.Entry (JInt 7) 1800) /\
  CacheManager.cache_with_fallback key (fetch_value (PInt 8)) None [] after
  = (Return (PInt 7), after).
Proof.
  intros key c w after.
  pose proof (glob_star_containment "B00X" eq_refl) as Hglob.
  assert (generated key) as Hgen.
  { exists "summary", [("parent_asin", AStr "B00X")]. split; reflexivity. }
  split; [exact Hglob|]. split; [reflexivity|].
  destruct (invalidation_misses_generated_keys glob_star "B00X" w Hglob eq_refl)
    as (Hkeep & _ & Hhit).
  split.
  - fold after in Hkeep. rewrite (Hkeep key Hgen). vm_compute. reflexivity.
  - fold after in Hhit.
    replace (PInt 7) with (cached w key) by (vm_compute; reflexivity).
    apply (Hhit c key (fetch_value (PInt 8)) None [] eq_refl eq_refl Hgen).
    vm_compute. discriminate.
Defined.

(** A product id that is a glob metacharacter is not read by
    containment. *)
Lemma star_id_not_by_containment : ~ matches_by_containment glob_star "*".
Proof.
  intros H. destruct (H "summary" "summary:") as (a & b & Heq).
  - unfold invalidated_prefixes. rewrite !elem_of_cons. tauto.
  - reflexivity.
  - apply (f_equal String.length) in Heq.
    rewrite !string_app_length in Heq. simpl in Heq. lia.
Qed.

(** The patterns of the id [*] match every key under the six prefixes,
    so invalidating it deletes the generated keys as well. *)
Example invalidation_with_star_id :
  let key := RedisConfig.generate_cache_key "summary" [("parent_asin", AStr "B00X")] in
  let w := example_world (Some (example_client [(key, Redis.Entry (JInt 7) 1800)] [])) in
  let (r, after) := CacheManager.invalidate_product_cache glob_star "*" w in
  lower_hex_only "*" = false /\
  r = Return [ ("product", PStr "*");
               ("deleted_keys", PInt 1);
               ("status", PStr "success");
               ("timestamp", PStr "2024-01-01T00:00:00") ] /\
  store w !! key = Some (Redis.Entry (JInt 7) 1800) /\
  store after !! key = None.
Proof. vm_compute. done. Qed.

(** ** Cached queries on a store and a data layer that work *)

Section WarmCache.
Context {DB : Type}.
Implicit Types (w : World DB) (c : Redis.client) (key prefix : string)
  (fetch_function : Fetch DB) (args : kwargs).

Lemma is_none_true (v : pyval) : is_none v = true -> v = PNone.
Proof. by destruct v. Qed.

Lemma cached_query_fills prefix fetch_function args :
  answers fetch_function ->
  fills (Dashboard.cached_query prefix fetch_function args)
        (RedisConfig.generate_cache_key prefix args).
Proof.
  intros Hfetch w (c & Hc & Hf) Hpos.
  unfold Dashboard.cached_query. cbv zeta.
  set (key := RedisConfig.generate_cache_key prefix args).
  unfold bind at 1, self_component_ttl.
  assert (cached w key <> PNone ->
          CacheManager.cache_with_fallback key fetch_function
            (Some (component_ttl (redis_config w))) args w
          = (Return (cached w key), w)) as Hhit
    by (by apply (cache_hit key fetch_function _ args w c)).
  split; [|exact Hhit].
  destruct (is_none (cached w key)) eqn:Hnone.
  2:{ assert (cached w key <> PNone) as Hv by (by intros Heq; rewrite Heq in Hnone).
      exists (cached w key), w. rewrite (Hhit Hv).
      split; [done|]. split; [by exists c|]. done. }
  apply is_none_true in Hnone.
  destruct (Hfetch args (database w)) as (v & d' & doc & Hv & Hne & Hdoc).
  rewrite cache_with_fallback_run, get_run, Hc, (next_fault_nil c Hf), Hnone.
  rewrite (commanded_same w c Hc Hf). simpl.
  unfold await_fetch. rewrite Hv, (is_none_false v Hne).
  rewrite set_run. simpl. rewrite Hc, Hdoc, (next_fault_nil c Hf).
  destruct (component_ttl (redis_config w) =? 0) eqn:H0; [apply Z.eqb_eq in H0; lia|].
  apply Z.leb_gt in Hpos as ->. simpl.
  eexists v, _. split; [done|].
  split. { eexists. split; [reflexivity|]. simpl. unfold later_faults. by rewrite Hf. }
  split; [done|]. split; [done|]. split; [done|]. split; [done|].
  unfold cached, commanded. rewrite store_with_client. simpl.
  rewrite (store_client c w Hc). split.
  - rewrite lookup_insert_eq. simpl. by eapply json_dumps_not_null.
  - intros k. destruct (decide (k = key)) as [->|Hk].
    + intros _. rewrite lookup_insert_eq. simpl. by eapply json_dumps_not_null.
    + by rewrite lookup_insert_ne.
Qed.

(** Tasks that fill their keys, run one after the other on a quiet
    world, all return, and leave every key filled. *)
Lemma run_tasks_fill (tasks : list (M DB pyval)) (keys : list string) w :
  Forall2 fills tasks keys ->
  quiet w -> 0 < component_ttl (redis_config w) ->
  exists results w',
    run_tasks tasks w = (results, w') /\
    Forall (fun r => is_exception r = false) results /\
    quiet w' /\
    component_ttl (redis_config w') = component_ttl (redis_config w) /\
    default_ttl (redis_config w') = default_ttl (redis_config w) /\
    loop_fault w' = loop_fault w /\ utcnow w' = utcnow w /\
    Forall (fun k => cached w' k <> PNone) keys /\
    (forall k, cached w k <> PNone -> cached w' k <> PNone).
Proof.
  intros H. revert w. induction H as [|t key tasks keys Ht _ IH]; intros w Hq Hpos.
  - exists [], w. simpl. repeat (split; [done|]). done.
  - destruct (proj1 (Ht w Hq Hpos))
      as (v & w1 & Hrun & Hq1 & Hct & Hdt & Hlf & Hnow & Hkey & Hmono).
    destruct (IH w1 Hq1) as (rs & w' & Hrest & Hrs & Hq' & Hct' & Hdt' & Hlf' & Hnow'
                             & Hkeys & Hmono'); [by rewrite Hct|].
    exists (Return v :: rs), w'. simpl. rewrite Hrun, Hrest.
    split; [done|]. split; [by constructor|]. split; [done|].
    split; [by rewrite Hct'|]. split; [by rewrite Hdt'|].
    split; [by rewrite Hlf'|]. split; [by rewrite Hnow'|].
    split; [constructor; [by apply Hmono'|done]|].
    intros k Hk. by apply Hmono', Hmono.
Qed.

(** When every key is filled, the tasks return what the keys hold and
    the world stays as it is. *)
Lemma run_tasks_hits (tasks : list (M DB pyval)) (keys : list string) w :
  Forall2 fills tasks keys ->
  quiet w -> 0 < component_ttl (redis_config w) ->
  Forall (fun k => cached w k <> PNone) keys ->
  run_tasks tasks w = (map (fun k => Return (cached w k)) keys, w).
Proof.
  intros H Hq Hpos. induction H as [|t key tasks keys Ht _ IH]; intros Hkeys; simpl.
  - done.
  - apply Forall_cons in Hkeys as [Hkey Hkeys].
    by rewrite (proj2 (Ht w Hq Hpos) Hkey), (IH Hkeys).
Qed.

Lemma succeeded_all {A : Type} (results : list (result A)) :
  Forall (fun r => is_exception r = false) results ->
  succeeded results = Z.of_nat (length results) /\ raised results = 0.
Proof.
  unfold succeeded, raised.
  induction 1 as [|r rs Hr _ [IH1 IH2]]; simpl; [done|]. rewrite Hr. simpl. lia.
Qed.

End WarmCache.

Section WarmTwice.
Context {DB : Type}.
Variable data : data_layer DB.
Implicit Types (w : World DB) (call : kwargs).

Lemma warming_queries_fill call :
  data_answers data -> Forall2 fills (warming_queries data call) (warming_keys call).
Proof.
  intros (H1 & H2 & H3 & H4 & H5).
  unfold warming_queries, warming_keys.
  repeat (constructor; [by apply cached_query_fills|]). constructor.
Qed.

(** Warming with a date range that the queries accept, when the event
    loop runs the tasks. *)
Lemma warm_cache_run (parent_asin : string) (date_range : option kwargs) w results w' :
  valid_date_range date_range = true -> loop_fault w = None ->
  run_tasks (warming_queries data (warming_params parent_asin date_range)) w
  = (results, w') ->
  warm_cache_for_product data parent_asin date_range w
  = (Return [ ("product", PStr parent_asin);
              ("successful", PInt (succeeded results));
              ("failed", PInt (Z.of_nat (length results) - succeeded results));
              ("total", PInt (Z.of_nat (length results))) ], w').
Proof.
  intros Hvalid Hloop Hrun.
  destruct (warming_params_shared parent_asin date_range Hvalid) as [Hs Hp].
  unfold warm_cache_for_product, CacheManager.warm_cache_for_product.
  cbv zeta.
  erewrite bind_lift_return; [|exact (warming_tasks_created data _ Hs Hp)].
  unfold try_except, bind, asyncio_gather. rewrite Hloop, Hrun. reflexivity.
Qed.

(** X7: with a connection without pending failures, a positive component
    ttl, an event loop that runs the tasks and a data layer whose queries
    return values that can be cached, warming a product reports six
    successes, and warming it again reports the same and leaves the
    world exactly as it is: no fetch function is called and nothing is
    written a second time. *)
Theorem warming_twice (parent_asin : string) (date_range : option kwargs) w :
  valid_date_range date_range = true ->
  data_answers data ->
  quiet w -> loop_fault w = None -> 0 < component_ttl (redis_config w) ->
  let report := [ ("product", PStr parent_asin);
                  ("successful", PInt 6);
                  ("failed", PInt 0);
                  ("total", PInt 6) ] in
  exists w1,
    warm_cache_for_product data parent_asin date_range w = (Return report, w1) /\
    warm_cache_for_product data parent_asin date_range w1 = (Return report, w1).
Proof.
  intros Hvalid Hdata Hq Hloop Hpos report.
  set (call := warming_params parent_asin date_range).
  pose proof (warming_queries_fill call Hdata) as Hfill.
  destruct (run_tasks_fill _ _ w Hfill Hq Hpos)
    as (rs & w1 & Hrun & Hrs & Hq1 & Hct & _ & Hlf & _ & Hkeys & _).
  exists w1.
  assert (length rs = 6%nat) as Hlen.
  { pose proof (run_tasks_length (warming_queries data call) w) as Hlen.
    by rewrite Hrun in Hlen. }
  split.
  - rewrite (warm_cache_run parent_asin date_range w rs w1 Hvalid Hloop Hrun).
    destruct (succeeded_all rs Hrs) as [-> _]. by rewrite Hlen.
  - assert (0 < component_ttl (redis_config w1)) as Hpos1 by (by rewrite Hct).
    pose proof (run_tasks_hits _ _ w1 Hfill Hq1 Hpos1 Hkeys) as Hhits.
    rewrite (warm_cache_run parent_asin date_range w1 _ w1 Hvalid
               ltac:(by rewrite Hlf) Hhits).
    reflexivity.
Qed.

End WarmTwice.

Lemma answers_fetch_value (v : pyval) (doc : json) :
  v <> PNone -> json_dumps v = Return doc -> answers (fetch_value v).
Proof. intros Hv Hdoc kw d. by exists v, d, doc. Qed.

Lemma answering_data_answers : data_answers answering_data.
Proof.
  repeat split; (eapply answers_fetch_value; [discriminate|reflexivity]).
Qed.

Lemma warming_twice_witness :
  let w := example_world (Some (example_client [] [])) in
  let report := [ ("product", PStr "B00X"); ("successful", PInt 6);
                  ("failed", PInt 0); ("total", PInt 6) ] in
  quiet w /\
  exists w1,
    warm_cache_for_product answering_data "B00X" None w = (Return report, w1) /\
    warm_cache_for_product answering_data "B00X" None w1 = (Return report, w1) /\
    fetch_calls w1 = 6%nat.
Proof.
  intros w report.
  assert (quiet w) as Hq by (by eexists).
  split; [exact Hq|].
  destruct (warming_twice answering_data "B00X" None w eq_refl answering_data_answers
              Hq eq_refl eq_refl) as (w1 & H1 & H2).
  exists w1. split; [exact H1|]. split; [exact H2|].
  replace w1 with (snd (warm_cache_for_product answering_data "B00X" None w))
    by (by rewrite H1).
  vm_compute. reflexivity.
Defined.

(** ** Connecting, and asking whether the store is there *)

Section Connection.
Context {DB : Type}.
Implicit Types (w : World DB) (c : Redis.client) (key : string).

(** Without a client [cache_with_fallback] is the call of the fetch
    function. *)
Lemma cache_with_fallback_no_client key (fetch_function : Fetch DB) ttl (kw : kwargs) w :
  redis_client (redis_config w) = None ->
  CacheManager.cache_with_fallback key fetch_function ttl kw w
  = await_fetch fetch_function kw w.
Proof.
  intros Hc. rewrite cache_with_fallback_run, get_run, Hc. simpl.
  destruct (await_fetch fetch_function kw w) as [[v|e] w2] eqn:Hfetch; [|done].
  assert (redis_client (redis_config w2) = None) as Hc2.
  { unfold await_fetch in Hfetch. destruct (fetch_function kw (database w)).
    injection Hfetch as _ <-. done. }
  destruct (is_none v); [done|]. by rewrite set_run, Hc2.
Qed.

(** X8: [connect] returns only when [redis.from_url] made a client and
    the PING went through, and the world then holds that client.  When
    it raises, be it the error of [redis.from_url] or the one of the
    PING, the world holds no client, whatever it held before, and from
    then on a cached query is the call of its fetch function. *)
Theorem connect_outcomes (from_url : result Redis.client) w :
  match RedisStatus.connect from_url w with
  | (Return _, w1) =>
      exists fresh,
        from_url = Return fresh /\ next_fault fresh = None /\
        redis_client (redis_config w1)
        = Some (Redis.Client (Redis.keyspace fresh) (later_faults fresh))
  | (Raise e, w1) =>
      redis_client (redis_config w1) = None /\
      (from_url = Raise e \/
       exists fresh, from_url = Return fresh /\ next_fault fresh = Some e) /\
      forall key (fetch_function : Fetch DB) ttl (kw : kwargs),
        CacheManager.cache_with_fallback key fetch_function ttl kw w1
        = await_fetch fetch_function kw w1
  end.
Proof.
  unfold RedisStatus.connect, try_except, bind, lift, RedisStatus.set_redis_client,
    await_client, raise, ret.
  destruct from_url as [fresh|e]; simpl.
  2:{ split; [done|]. split; [by left|].
      intros. by apply cache_with_fallback_no_client. }
  unfold RedisAdmin.ping. rewrite command_run.
  destruct (next_fault fresh) as [e|] eqn:Hnf; simpl.
  - split; [done|]. split; [right; by exists fresh|].
    intros. by apply cache_with_fallback_no_client.
  - by exists fresh.
Qed.

(** X9: [health_check] never raises and leaves the keyspace as it is;
    it answers [True] exactly when there is a client whose next command
    goes through. *)
Theorem health_check_reports_ping w :
  exists (b : bool) w1,
    RedisStatus.health_check w = (Return b, w1) /\
    store w1 = store w /\
    (b = true <-> exists c, redis_client (redis_config w) = Some c /\ next_fault c = None).
Proof.
  unfold RedisStatus.health_check, bind at 1, self_redis_client. simpl.
  destruct (redis_client (redis_config w)) as [c|] eqn:Hc.
  2:{ exists false, w. split; [done|]. split; [done|].
      split; [done|]. by intros (c & ? & _). }
  unfold try_except, bind, await_client, ret. rewrite Hc.
  unfold RedisAdmin.ping. rewrite command_run.
  rewrite (store_client c w Hc).
  destruct (next_fault c) as [e|] eqn:Hnf; simpl.
  - eexists false, _. split; [done|]. split; [done|].
    split; [done|]. intros (c' & [= <-] & ?). congruence.
  - eexists true, _. split; [done|]. split; [done|].
    split; [|done]. intros _. by exists c.
Qed.

End Connection.

(** ** Statistics and their classification *)

Section Metrics.
Context {DB : Type}.
Variable float_of_string : string -> option spec_float.
Implicit Types (w : World DB) (c : Redis.client) (stats : stats_dict) (x : stat).

Lemma compare_ge_mono (x a b : Z) :
  b <= a -> (x ?= a) = Gt \/ (x ?= a) = Eq -> (x ?= b) = Gt \/ (x ?= b) = Eq.
Proof.
  intros Hba H. destruct (Z.compare_spec x b); auto. exfalso.
  destruct H as [H|H]; [apply Z.compare_gt_iff in H|apply Z.compare_eq_iff in H]; lia.
Qed.

Lemma compare_float_int_mono (f : spec_float) (a b : Z) :
  b <= a ->
  (compare_float_int f a = Some Gt \/ compare_float_int f a = Some Eq) ->
  (compare_float_int f b = Some Gt \/ compare_float_int f b = Some Eq).
Proof.
  intros Hba. destruct f as [s|s| |s m e]; cbn [compare_float_int].
  - intros H.
    destruct (compare_ge_mono 0 a b Hba) as [-> | ->]; auto.
    destruct H as [H|H]; [left|right]; congruence.
  - done.
  - intros [[=]|[=]].
  - set (x := (if s then Z.neg m else Z.pos m) * 2 ^ Z.max e 0).
    assert (0 < 2 ^ Z.max (- e) 0) as Hq by (apply Z.pow_pos_nonneg; lia).
    intros H.
    destruct (compare_ge_mono x (a * 2 ^ Z.max (- e) 0) (b * 2 ^ Z.max (- e) 0))
      as [-> | ->]; auto; [nia|].
    destruct H as [H|H]; [left|right]; congruence.
Qed.

(** On a number the test [>=] returns, and it is monotone in the
    threshold. *)
Lemma ge_int_numeric x :
  numeric x = true ->
  exists g : Z -> bool,
    (forall n, ge_int x n = Return (g n)) /\
    (forall a b, b <= a -> g a = true -> g b = true).
Proof.
  destruct x as [s|z|f]; [done| |]; intros _.
  - exists (fun n => n <=? z). split; [done|].
    intros a b Hba Ha%Z.leb_le. apply Z.leb_le. lia.
  - exists (fun n => match compare_float_int f n with
                     | Some Gt | Some Eq => true
                     | _ => false
                     end).
    split; [done|]. intros a b Hba Ha.
    destruct (compare_float_int_mono f a b Hba) as [-> | ->]; [|done|done].
    destruct (compare_float_int f a) as [[]|]; auto; done.
Qed.

(** X10: the two classifications of connected statistics never
    contradict each other.  The status is optimal only with a client
    connected and an efficiency of excellent or good; an excellent
    efficiency gives the status optimal, or good when no client is
    connected; a fair efficiency gives good or degraded, a poor one
    degraded or poor; and a poor status comes with a poor efficiency. *)
Theorem classifications_agree stats (n : Z) :
  dict_get "status" stats = Some (StatStr "connected") ->
  numeric (stat_or_zero "hit_rate" stats) = true ->
  stat_or_zero "connected_clients" stats = StatInt n ->
  exists eff perf,
    CacheAdmin._calculate_cache_efficiency stats = Return eff /\
    CacheAdmin._assess_performance_status stats = Return perf /\
    (perf = "optimal" -> 0 < n /\ (eff = "excellent" \/ eff = "good")) /\
    (eff = "excellent" -> perf = if 0 <? n then "optimal" else "good") /\
    (eff = "fair" -> perf = "good" \/ perf = "degraded") /\
    (eff = "poor" -> perf = "degraded" \/ perf = "poor") /\
    (perf = "poor" -> eff = "poor") /\
    perf <> "offline".
Proof.
  intros Hstatus Hhit Hclients.
  destruct (ge_int_numeric _ Hhit) as (g & Hg & Hmono).
  unfold CacheAdmin._calculate_cache_efficiency, CacheAdmin._assess_performance_status.
  fold (stat_or_zero "hit_rate" stats). fold (stat_or_zero "connected_clients" stats).
  rewrite Hstatus, Hclients, !Hg. cbn [String.eqb negb gt_int when].
  change ("connected" =? "connected")%string with true. cbn [negb].
  pose proof (Hmono 80 70 ltac:(lia)) as H87.
  pose proof (Hmono 70 60 ltac:(lia)) as H76.
  pose proof (Hmono 60 50 ltac:(lia)) as H65.
  pose proof (Hmono 50 40 ltac:(lia)) as H54.
  pose proof (Hmono 40 30 ltac:(lia)) as H43.
  destruct (g 80), (g 70), (g 60), (g 50), (g 40), (g 30);
    try (by (discriminate (H87 eq_refl) || discriminate (H76 eq_refl)
             || discriminate (H65 eq_refl) || discriminate (H54 eq_refl)
             || discriminate (H43 eq_refl)));
    cbn [when]; destruct (0 <? n) eqn:Hn;
    try (apply Z.ltb_lt in Hn); eexists _, _;
    (split; [reflexivity|]); (split; [reflexivity|]);
    repeat split; try discriminate; auto.
Qed.

Lemma get_cache_stats_run (reply : RedisAdmin.info_reply) w :
  RedisStatus.get_cache_stats reply w
  = match redis_client (redis_config w) with
    | None => (Return [("status", StatStr "disconnected")], w)
    | Some c =>
        match next_fault c with
        | Some e =>
            (Return [("status", StatStr "error"); ("error", StatStr (exn_msg e))],
             commanded c (Redis.keyspace c) w)
        | None =>
            match RedisConfig._calculate_hit_rate
                    (default 0 (RedisAdmin.keyspace_hits reply))
                    (default 0 (RedisAdmin.keyspace_misses reply)) with
            | Raise e =>
                (Return [("status", StatStr "error"); ("error", StatStr (exn_msg e))],
                 commanded c (Redis.keyspace c) w)
            | Return hit_rate =>
                (Return
                   [ ("status", StatStr "connected");
                     ("used_memory",
                      StatStr (default "N/A" (RedisAdmin.used_memory_human reply)));
                     ("connected_clients",
                      StatInt (default 0 (RedisAdmin.connected_clients reply)));
                     ("total_commands_processed",
                      StatInt (default 0 (RedisAdmin.total_commands_processed reply)));
                     ("keyspace_hits",
                      StatInt (default 0 (RedisAdmin.keyspace_hits reply)));
                     ("keyspace_misses",
                      StatInt (default 0 (RedisAdmin.keyspace_misses reply)));
                     ("hit_rate", StatFloat hit_rate) ],
                 commanded c (Redis.keyspace c) w)
            end
        end
    end.
Proof.
  unfold RedisStatus.get_cache_stats, bind at 1, self_redis_client. simpl.
  destruct (redis_client (redis_config w)) as [c|] eqn:Hc; [|done].
  unfold try_except, bind, await_client, lift, ret, commanded. rewrite Hc.
  unfold RedisAdmin.info. rewrite command_run.
  destruct (next_fault c); [done|].
  by destruct (RedisConfig._calculate_hit_rate _ _).
Qed.

Lemma efficiency_returns stats :
  numeric (stat_or_zero "hit_rate" stats) = true ->
  exists eff, CacheAdmin._calculate_cache_efficiency stats = Return eff.
Proof.
  intros (g & Hg & _)%ge_int_numeric.
  unfold CacheAdmin._calculate_cache_efficiency.
  fold (stat_or_zero "hit_rate" stats). rewrite !Hg.
  destruct (g 80), (g 60), (g 40); by eexists.
Qed.

Lemma performance_returns stats (n : Z) :
  dict_get "status" stats = Some (StatStr "connected") ->
  numeric (stat_or_zero "hit_rate" stats) = true ->
  stat_or_zero "connected_clients" stats = StatInt n ->
  exists perf, CacheAdmin._assess_performance_status stats = Return perf.
Proof.
  intros Hstatus (g & Hg & _)%ge_int_numeric Hclients.
  unfold CacheAdmin._assess_performance_status.
  fold (stat_or_zero "hit_rate" stats). fold (stat_or_zero "connected_clients" stats).
  rewrite Hstatus, Hclients, !Hg. cbn [gt_int].
  change ("connected" =? "connected")%string with true. cbn [negb].
  destruct (g 70), (0 <? n), (g 50), (g 30); by eexists.
Qed.

(** X11: the performance metrics never raise and never end in their
    own error report: whatever the client and the server do, the answer
    is the statistics dict followed by an efficiency, a memory category,
    a performance status and the time, and the keyspace is not touched.
    Without a client, or when the INFO command fails, the efficiency is
    poor, the memory category unknown and the status offline. *)
Theorem metrics_always_classify (reply : RedisAdmin.info_reply) w :
  exists stats eff perf w1,
    RedisStatus.get_cache_stats reply w = (Return stats, w1) /\
    store w1 = store w /\
    CacheAdmin._calculate_cache_efficiency stats = Return eff /\
    CacheAdmin._assess_performance_status stats = Return perf /\
    let cat := CacheAdmin._categorize_memory_usage float_of_string
                 (default (StatStr "0B") (dict_get "used_memory" stats)) in
    CacheAdmin.get_cache_performance_metrics float_of_string reply w
    = (Return (stats ++ [ ("cache_efficiency", StatStr eff);
                          ("memory_usage_category", StatStr cat);
                          ("performance_status", StatStr perf);
                          ("timestamp", StatStr (utcnow w)) ])%list, w1) /\
    (dict_get "status" stats <> Some (StatStr "connected") ->
     eff = "poor" /\ cat = "unknown" /\ perf = "offline").
Proof.
  unfold CacheAdmin.get_cache_performance_metrics, try_except, bind at 1.
  rewrite get_cache_stats_run.
  destruct (redis_client (redis_config w)) as [c|] eqn:Hc.
  2:{ eexists _, "poor", "offline", w. split; [done|]. split; [done|].
      split; [done|]. split; [done|]. split; [done|]. done. }
  rewrite (store_client c w Hc).
  destruct (next_fault c) as [e|] eqn:Hnf.
  { eexists _, "poor", "offline", _. split; [done|]. split; [done|].
    split; [done|]. split; [done|]. split; [done|]. done. }
  destruct (RedisConfig._calculate_hit_rate _ _) as [hit_rate|e].
  2:{ eexists _, "poor", "offline", _. split; [done|]. split; [done|].
      split; [done|]. split; [done|]. split; [done|]. done. }
  match goal with |- context [(Return ?s, commanded _ _ _)] => set (stats := s) end.
  destruct (efficiency_returns stats eq_refl) as (eff & Heff).
  destruct (performance_returns stats (default 0 (RedisAdmin.connected_clients reply))
              eq_refl eq_refl eq_refl) as (perf & Hperf).
  exists stats, eff, perf. eexists. split; [done|]. split; [done|].
  split; [done|]. split; [done|]. split; [|done].
  unfold bind, lift. rewrite Heff, Hperf. reflexivity.
Qed.

End Metrics.

Lemma classifications_agree_witness :
  let stats := [ ("status", StatStr "connected");
                 ("connected_clients", StatInt 0);
                 ("hit_rate", StatFloat (Float64.of_int 85)) ] in
  CacheAdmin._calculate_cache_efficiency stats = Return "excellent" /\
  CacheAdmin._assess_performance_status stats = Return "good".
Proof.
  intros stats.
  destruct (classifications_agree stats 0 eq_refl eq_refl eq_refl)
    as (eff & perf & Heff & Hperf & _ & Hexcellent & _).
  assert (eff = "excellent") as ->.
  { assert (Return eff = Return "excellent") as [= ->]; [|done].
    rewrite <- Heff. vm_compute. reflexivity. }
  split; [exact Heff|]. rewrite Hperf. f_equal. exact (Hexcellent eq_refl).
Defined.

(** Counters whose quotient leaves the range of binary64 (no server
    reports a negative counter) end in the error report. *)
Example stats_of_an_overflowing_rate :
  fst (RedisStatus.get_cache_stats
         (RedisAdmin.InfoReply (Some "1.05M") (Some 2) (Some 40)
            (Some (2 ^ 1030)) (Some (1 - 2 ^ 1030)))
         (example_world (Some (example_client [] []))))
  = Return [ ("status", StatStr "error");
             ("error", StatStr "integer division result too large for a float") ].
Proof. vm_compute. reflexivity. Qed.

(** The metrics of a store that is reached, and of one whose INFO
    command times out. *)
Example metrics_connected_and_failing :
  fst (CacheAdmin.get_cache_performance_metrics float_of_decimal example_reply
         (example_world (Some (example_client [] []))))
  = Return [ ("status", StatStr "connected");
             ("used_memory", StatStr "1.05M");
             ("connected_clients", StatInt 2);
             ("total_commands_processed", StatInt 40);
             ("keyspace_hits", StatInt 3);
             ("keyspace_misses", StatInt 1);
             ("hit_rate", StatFloat (Float64.of_int 75));
             ("cache_efficiency", StatStr "good");
             ("memory_usage_category", StatStr "low");
             ("performance_status", StatStr "optimal");
             ("timestamp", StatStr "2024-01-01T00:00:00") ] /\
  fst (CacheAdmin.get_cache_performance_metrics float_of_decimal example_reply
         (example_world (Some (example_client [] [Some timeout_error]))))
  = Return [ ("status", StatStr "error");
             ("error", StatStr "Timeout reading from socket");
             ("cache_efficiency", StatStr "poor");
             ("memory_usage_category", StatStr "unknown");
             ("performance_status", StatStr "offline");
             ("timestamp", StatStr "2024-01-01T00:00:00") ].
Proof. vm_compute. done. Qed.

(** ** Bulk invalidation and cleanup *)

Section Maintenance.
Context {DB : Type}.
Variable glob_match : string -> string -> bool.
Implicit Types (w : World DB) (c : Redis.client).

Lemma sum_deleted_app (a b : list (list (string * pyval))) :
  sum_deleted (a ++ b) = sum_deleted a + sum_deleted b.
Proof. unfold sum_deleted. induction a as [|r a IH]; simpl; [done|]. rewrite IH. lia. Qed.

(** The loop of [bulk_invalidate_cache]: one success report per
    product, in order, and a total that is the number of entries
    removed. *)
Lemma invalidate_each_returns (parent_asins : list string)
    (results : list (list (string * pyval))) (total : Z) w :
  exists counts w',
    CacheAdmin.invalidate_each glob_match parent_asins results total w
    = (Return ((results ++ zip_with (success_report (utcnow w)) parent_asins counts)%list,
               total + sum_counts counts), w') /\
    length counts = length parent_asins /\
    Forall (fun n => 0 <= n) counts /\
    sum_counts counts = Z.of_nat (size (store w)) - Z.of_nat (size (store w')) /\
    store w' ⊆ store w /\
    utcnow w' = utcnow w.
Proof.
  revert results total w. induction parent_asins as [|a rest IH]; intros results total w.
  - exists [], w. simpl. unfold ret. rewrite app_nil_r, Z.add_0_r.
    split; [done|]. split; [done|]. split; [done|]. split; [lia|]. done.
  - simpl. unfold bind.
    destruct (invalidate_product_cache_report glob_match a w)
      as (n & w1 & _ & -> & Hn & Hsub & Hnow).
    destruct (IH (results ++ [success_report (utcnow w) a n])%list
                 (total + deleted_keys (success_report (utcnow w) a n)) w1)
      as (counts & w' & Hrun & Hlen & Hpos & Hsum & Hsub' & Hnow').
    exists (n :: counts), w'.
    change ([ ("product", PStr a); ("deleted_keys", PInt n); ("status", PStr "success");
              ("timestamp", PStr (utcnow w)) ]) with (success_report (utcnow w) a n).
    rewrite Hrun, Hnow. simpl. rewrite <- app_assoc. simpl.
    change (deleted_keys (success_report (utcnow w) a n)) with n.
    split; [do 3 f_equal; lia|]. split; [by rewrite Hlen|].
    split. { constructor; [|done]. pose proof (map_subseteq_size _ _ Hsub). lia. }
    split; [lia|]. split; [by etrans|]. by rewrite Hnow'.
Qed.

(** X12: [bulk_invalidate_cache] never raises.  Its report counts the
    products, lists one success report per product in the order given,
    and its total is the sum of their counts, which is the number of
    entries that left the store. *)
Theorem bulk_invalidation_report (parent_asins : list string) w :
  exists counts w',
    CacheAdmin.bulk_invalidate_cache glob_match parent_asins w
    = (Return [ ("total_products", PInt (Z.of_nat (length parent_asins)));
                ("total_deleted_keys", PInt (sum_counts counts));
                ("results",
                 PList (map as_dict
                          (zip_with (success_report (utcnow w)) parent_asins counts)));
                ("timestamp", PStr (utcnow w)) ], w') /\
    length counts = length parent_asins /\
    Forall (fun n => 0 <= n) counts /\
    sum_counts counts = Z.of_nat (size (store w)) - Z.of_nat (size (store w')) /\
    store w' ⊆ store w.
Proof.
  destruct (invalidate_each_returns parent_asins [] 0 w)
    as (counts & w' & Hrun & Hlen & Hpos & Hsum & Hsub & Hnow).
  exists counts, w'.
  unfold CacheAdmin.bulk_invalidate_cache, bind at 1. rewrite Hrun. simpl.
  unfold bind, utcnow_isoformat, ret. rewrite Hnow. done.
Qed.

(** The lookups of the cleanup leave the keyspace and the clock as they
    are. *)
Lemma find_keys_keeps (patterns : list string) w (r : result unit) w' :
  CacheAdmin.find_keys glob_match patterns w = (r, w') ->
  store w' = store w /\ utcnow w' = utcnow w.
Proof.
  revert w. induction patterns as [|p ps IH]; intros w; simpl.
  { by intros [= _ <-]. }
  unfold bind at 1, self_redis_client. simpl.
  destruct (redis_client (redis_config w)) as [c|] eqn:Hc.
  - unfold bind, await_client. rewrite Hc. unfold Redis.keys. rewrite command_run.
    rewrite (store_client c w Hc).
    destruct (next_fault c); simpl; [by intros [= _ <-]|].
    intros H. by apply IH in H.
  - unfold bind, ret. apply IH.
Qed.

(** With a connection without pending failures the lookups all go
    through. *)
Lemma find_keys_quiet (patterns : list string) w :
  quiet w -> exists w', CacheAdmin.find_keys glob_match patterns w = (Return tt, w').
Proof.
  revert w. induction patterns as [|p ps IH]; intros w (c & Hc & Hf); simpl.
  - by eexists.
  - unfold bind at 1, self_redis_client. simpl. rewrite Hc.
    unfold bind, await_client. rewrite Hc. unfold Redis.keys. rewrite command_run.
    rewrite (next_fault_nil c Hf). simpl. apply IH.
    eexists. split; [reflexivity|]. simpl. unfold later_faults. by rewrite Hf.
Qed.

Lemma find_keys_no_client (patterns : list string) w :
  redis_client (redis_config w) = None ->
  CacheAdmin.find_keys glob_match patterns w = (Return tt, w).
Proof.
  intros Hnone. induction patterns as [|p ps IH]; simpl; [done|].
  unfold bind at 1, self_redis_client. simpl. rewrite Hnone.
  unfold bind, ret. exact IH.
Qed.

(** X13: [schedule_cache_cleanup] cleans nothing.  It never raises and
    never changes the keyspace, whatever the age limit; its report
    either says completed with 0 cleaned entries, which is what it says
    without a client and with a connection without pending failures, or
    carries the error of a key lookup. *)
Theorem cleanup_removes_nothing (max_age_hours : Z) w :
  exists report w',
    CacheAdmin.schedule_cache_cleanup glob_match max_age_hours w = (Return report, w') /\
    store w' = store w /\
    (report = [ ("status", PStr "completed");
                ("cleaned_entries", PInt 0);
                ("max_age_hours", PInt max_age_hours);
                ("timestamp", PStr (utcnow w)) ] \/
     exists e, report = [ ("status", PStr "error");
                          ("error", PStr (exn_msg e));
                          ("timestamp", PStr (utcnow w)) ]) /\
    (quiet w \/ redis_client (redis_config w) = None ->
     dict_get "status" report = Some (PStr "completed")).
Proof.
  unfold CacheAdmin.schedule_cache_cleanup, try_except. cbv zeta. unfold bind at 1.
  destruct (CacheAdmin.find_keys glob_match CacheAdmin.patterns_to_clean w)
    as [[[]|e] w'] eqn:Hfind;
    destruct (find_keys_keeps _ _ _ _ Hfind) as [Hst Hnow].
  - unfold bind, utcnow_isoformat, ret. rewrite Hnow.
    eexists _, w'. split; [done|]. split; [done|]. split; [by left|]. done.
  - unfold bind, utcnow_isoformat, ret. rewrite Hnow.
    eexists _, w'. split; [done|]. split; [done|]. split; [right; by exists e|].
    intros [Hq|Hnone]; exfalso.
    + destruct (find_keys_quiet CacheAdmin.patterns_to_clean w Hq) as (w2 & Hrun).
      congruence.
    + rewrite (find_keys_no_client _ w Hnone) in Hfind. done.
Qed.

End Maintenance.

(** Cleaning a store that holds an old entry: the entry stays. *)
Example cleanup_keeps_entries :
  let entry := Redis.Entry (JInt 1) 600 in
  let w := example_world (Some (example_client [("summary:B00X", entry)] [])) in
  let (r, w') := CacheAdmin.schedule_cache_cleanup glob_star 0 w in
  r = Return [ ("status", PStr "completed");
               ("cleaned_entries", PInt 0);
               ("max_age_hours", PInt 0);
               ("timestamp", PStr "2024-01-01T00:00:00") ] /\
  store w' !! "summary:B00X" = Some entry.
Proof. vm_compute. done. Qed.

(** ** The routes *)

Section Routes.
Context {DB : Type}.
Implicit Types (w : World DB) (c : Redis.client) (data : data_layer DB)
  (parent_asin : string) (start_date end_date cities : option string).

(** Warming with a date range that the queries accept. *)
Lemma warm_cache_cases data parent_asin (date_range : option kwargs) w :
  valid_date_range date_range = true ->
  warm_cache_for_product data parent_asin date_range w
  = match loop_fault w with
    | None =>
        let (results, w') :=
          run_tasks (warming_queries data (warming_params parent_asin date_range)) w in
        (Return [ ("product", PStr parent_asin);
                  ("successful", PInt (succeeded results));
                  ("failed", PInt (Z.of_nat (length results) - succeeded results));
                  ("total", PInt (Z.of_nat (length results))) ], w')
    | Some e =>
        (Return [ ("product", PStr parent_asin);
                  ("successful", PInt 0);
                  ("failed", PInt 6);
                  ("error", PStr (exn_msg e)) ], w)
    end.
Proof.
  intros Hvalid.
  destruct (warming_params_shared parent_asin date_range Hvalid) as [Hs Hp].
  unfold warm_cache_for_product, CacheManager.warm_cache_for_product.
  cbv zeta.
  erewrite bind_lift_return; [|exact (warming_tasks_created data _ Hs Hp)].
  unfold try_except, bind, asyncio_gather.
  destruct (loop_fault w); [done|].
  by destruct (run_tasks _ w).
Qed.

(** X14: the route that warms the cache never answers with an error:
    the date range it builds is one that every cached query accepts.  It
    passes the two dates on when both are given, and warms the product
    for all dates when one of them is missing or empty. *)
Theorem warm_route_never_fails data parent_asin start_date end_date w :
  exists report w',
    DashboardRoutes.warm_product_cache data parent_asin start_date end_date w
    = (Return report, w') /\
    dict_get "product" report = Some (PStr parent_asin) /\
    (given start_date && given end_date = false ->
     warm_cache_for_product data parent_asin None w = (Return report, w')) /\
    (forall s e, start_date = Some s -> end_date = Some e ->
                 given start_date && given end_date = true ->
                 warm_cache_for_product data parent_asin
                   (Some [("start_date", AStr s); ("end_date", AStr e)]) w
                 = (Return report, w')).
Proof.
  unfold DashboardRoutes.warm_product_cache, try_except. cbv zeta. unfold bind, ret.
  set (date_range :=
         match start_date, end_date with
         | Some s, Some e =>
             if given start_date && given end_date
             then Some [("start_date", AStr s); ("end_date", AStr e)]
             else None
         | _, _ => None
         end).
  assert (valid_date_range date_range = true) as Hvalid.
  { unfold date_range. destruct start_date, end_date; try done.
    by destruct (given _ && given _). }
  assert (exists report w',
            warm_cache_for_product data parent_asin date_range w = (Return report, w') /\
            dict_get "product" report = Some (PStr parent_asin)) as (report & w' & Hrun & Hp).
  { rewrite (warm_cache_cases data parent_asin date_range w Hvalid).
    destruct (loop_fault w); [by eexists _, _|].
    destruct (run_tasks _ w). by eexists _, _. }
  exists report, w'. rewrite Hrun. split; [done|]. split; [done|]. split.
  - intros Hgiven. rewrite <- Hrun. unfold date_range.
    destruct start_date, end_date; try done. by rewrite Hgiven.
  - intros s e -> -> Hgiven. rewrite <- Hrun. unfold date_range. by rewrite Hgiven.
Qed.

End Routes.

(** A request with a start date only warms the entries without dates. *)
Example warm_route_one_date :
  let w := example_world (Some (example_client [] [])) in
  let key := RedisConfig.generate_cache_key "summary"
               [("parent_asin", AStr "B00X"); ("start_date", ANone);
                ("end_date", ANone); ("cities", ANone)] in
  let (r, w') :=
    DashboardRoutes.warm_product_cache answering_data "B00X" (Some "2020-01-01") None w in
  r = Return [ ("product", PStr "B00X"); ("successful", PInt 6);
               ("failed", PInt 0); ("total", PInt 6) ] /\
  store w' !! key = Some (Redis.Entry (JObject [("total_reviews", JInt 12)]) 1800).
Proof. vm_compute. done. Qed.

(** ** The dashboard *)

Section ComprehensiveDashboard.
Context {DB : Type}.
Implicit Types (w : World DB) (c : Redis.client) (data : data_layer DB)
  (parent_asin : string) (start_date end_date cities : option string).

(** The steps of [get_comprehensive_dashboard]. *)
Lemma dashboard_run data parent_asin start_date end_date cities w :
  let key := dashboard_key parent_asin start_date end_date cities in
  DashboardRoutes.get_comprehensive_dashboard data parent_asin start_date end_date cities w
  = let (cached_data, w1) := RedisConfig.get key w in
    match cached_data with
    | Raise e =>
        (Raise (http_500 ("Error fetching comprehensive dashboard data: " +:+ exn_msg e)),
         w1)
    | Return cached_data =>
        if truthy cached_data then (Return cached_data, w1)
        else
          match loop_fault w1 with
          | Some e =>
              (Return (gather_failure_data parent_asin start_date end_date cities
                         (utcnow w1) e), w1)
          | None =>
              let (results, w2) :=
                run_tasks
                  (warming_queries data
                     (dashboard_args parent_asin start_date end_date cities)) w1 in
              let dashboard :=
                dashboard_data parent_asin start_date end_date cities (utcnow w2) results in
              (Return dashboard,
               snd (RedisConfig.set key dashboard
                      (Some (default_ttl (redis_config w2))) w2))
          end
    end.
Proof.
  intros key.
  unfold DashboardRoutes.get_comprehensive_dashboard. cbv zeta.
  fold (dashboard_args parent_asin start_date end_date cities).
  fold (dashboard_key parent_asin start_date end_date cities). fold key.
  unfold try_except at 1, bind at 1.
  destruct (RedisConfig.get key w) as [[v|e] w1]; [|done].
  destruct (truthy v); [done|].
  unfold try_except, bind at 1, asyncio_gather.
  destruct (loop_fault w1) as [e|]; [done|].
  change (run_tasks _ w1)
    with (run_tasks (warming_queries data
            (dashboard_args parent_asin start_date end_date cities)) w1).
  pose proof (run_tasks_length
                (warming_queries data
                   (dashboard_args parent_asin start_date end_date cities)) w1) as Hlen.
  destruct (run_tasks _ w1) as [results w2]. simpl in Hlen.
  destruct results as [|r0 [|r1 [|r2 [|r3 [|r4 [|r5 [|r6 results]]]]]]]; try done.
  unfold bind, lift, list_item, utcnow_isoformat, self_default_ttl, ret. simpl.
  match goal with |- context [RedisConfig.set _ (PDict ?items) _ _] =>
    change (PDict items)
      with (dashboard_data parent_asin start_date end_date cities (utcnow w2)
              [r0; r1; r2; r3; r4; r5]) end.
  match goal with |- context [RedisConfig.set ?k ?v ?t ?x] =>
    destruct (set_returns k v t x) as (b & w3 & -> & _) end.
  reflexivity.
Qed.

Lemma steady_refl w : quiet w -> steady w w.
Proof. by intros Hq. Qed.

Lemma steady_trans w w1 w2 : steady w w1 -> steady w1 w2 -> steady w w2.
Proof.
  intros (_ & Hd & Hc & Hn & Hl) (Hq & Hd' & Hc' & Hn' & Hl').
  split; [done|]. by rewrite Hd', Hc', Hn', Hl'.
Qed.

(** A cached query on a connection without pending failures leaves such
    a connection, whatever its fetch function does. *)
Lemma cached_query_steady (prefix : string) (fetch_function : Fetch DB) (args : kwargs) w :
  quiet w -> steady w (snd (Dashboard.cached_query prefix fetch_function args w)).
Proof.
  intros (c & Hc & Hf).
  assert (forall ks d n,
            steady w (with_client (Some (Redis.Client ks []))
                        {| redis_config := redis_config w; database := d;
                           fetch_calls := n; loop_fault := loop_fault w;
                           utcnow := utcnow w |})) as Hsteady.
  { intros ks d n. split; [|done]. eexists. split; [reflexivity|done]. }
  unfold Dashboard.cached_query. cbv zeta. unfold bind at 1, self_component_ttl.
  rewrite cache_with_fallback_run, get_run, Hc, (next_fault_nil c Hf).
  rewrite (commanded_same w c Hc Hf).
  destruct (is_none (cached w _)); [|by apply steady_refl; exists c].
  unfold await_fetch.
  destruct (fetch_function args (database w)) as [[v|e] d].
  2:{ simpl. split; [by exists c|done]. }
  destruct (is_none v); [simpl; split; [by exists c|done]|].
  rewrite set_run. simpl. rewrite Hc.
  destruct (json_dumps v); [|simpl; split; [by exists c|done]].
  rewrite (next_fault_nil c Hf). unfold commanded, later_faults. rewrite Hf. simpl.
  destruct (_ <=? 0); apply Hsteady.
Qed.

Lemma run_tasks_steady (tasks : list (M DB pyval)) w :
  Forall (fun task => forall w, quiet w -> steady w (snd (task w))) tasks ->
  quiet w -> steady w (snd (run_tasks tasks w)).
Proof.
  intros H. revert w. induction H as [|t tasks Ht _ IH]; intros w Hq; simpl.
  - by apply steady_refl.
  - specialize (Ht w Hq). destruct (t w) as [r w1]. simpl in Ht.
    specialize (IH w1 (proj1 Ht)). destruct (run_tasks tasks w1) as [rs w2].
    simpl in *. by eapply steady_trans.
Qed.

Lemma warming_queries_steady data (call : kwargs) w :
  quiet w -> steady w (snd (run_tasks (warming_queries data call) w)).
Proof.
  apply run_tasks_steady. unfold warming_queries.
  repeat (constructor; [intros w'; apply cached_query_steady|]). constructor.
Qed.

(** The document of a dict with an item is read back as a dict with an
    item, which is a true value. *)
Lemma dumped_dict_truthy (item : pykey * pyval) (items : list (pykey * pyval)) (doc : json) :
  json_dumps (PDict (item :: items)) = Return doc -> truthy (json_loads doc) = true.
Proof.
  simpl. destruct (json_key item.1); [|done]. destruct (json_dumps item.2); [|done].
  destruct (all_results _) as [ms|]; [|done]. intros [= <-]. simpl.
  match goal with |- context [fold_left ?f ms ?acc] =>
    assert (forall acc', acc' <> [] -> fold_left f ms acc' <> []) as Hfold end.
  { induction ms as [|m ms IH]; intros acc' Hacc; simpl; [done|].
    apply IH. destruct acc' as [|[k v] acc']; cbn [dict_set]; [done|].
    by destruct (pykey_eqb (KStr m.1) k). }
  match goal with |- context [fold_left ?f ms ?acc] =>
    specialize (Hfold acc ltac:(done)); destruct (fold_left f ms acc) end; done.
Qed.

Lemma dashboard_hit_at data parent_asin start_date end_date cities w :
  quiet w ->
  truthy (cached w (dashboard_key parent_asin start_date end_date cities)) = true ->
  DashboardRoutes.get_comprehensive_dashboard data parent_asin start_date end_date cities w
  = (Return (cached w (dashboard_key parent_asin start_date end_date cities)), w).
Proof.
  intros (c & Hc & Hf) Hhit.
  rewrite dashboard_run.
  rewrite get_run, Hc, (next_fault_nil c Hf), (commanded_same w c Hc Hf).
  by rewrite Hhit.
Qed.

(** X15: a dashboard found in the store is returned as it is, and
    nothing else happens: no query is made and no component is looked
    up, whatever the data layer would answer now. *)
Theorem dashboard_hit data parent_asin start_date end_date cities w :
  let key := dashboard_key parent_asin start_date end_date cities in
  quiet w -> truthy (cached w key) = true ->
  DashboardRoutes.get_comprehensive_dashboard data parent_asin start_date end_date cities w
  = (Return (cached w key), w).
Proof.
  intros key (c & Hc & Hf) Hhit.
  rewrite dashboard_run. fold key.
  rewrite get_run, Hc, (next_fault_nil c Hf), (commanded_same w c Hc Hf).
  by rewrite Hhit.
Qed.

(** X16: the dashboard is cached with the failures of its components.
    On a miss, with a connection without pending failures, a positive
    default ttl and an event loop that runs the six queries, the
    dashboard made of their outcomes, in which a query that raised
    stands as [None] and is counted as a partial failure, is written
    under the dashboard key with the default ttl whenever it can be
    serialized; the next request for the same product and filters gets
    that document back, and its components are not queried again even
    when the data layer has recovered. *)
Theorem dashboard_caches_partial_failures data parent_asin start_date end_date cities
    w (results : list (result pyval)) w1 (doc : json) :
  let key := dashboard_key parent_asin start_date end_date cities in
  let dashboard :=
    dashboard_data parent_asin start_date end_date cities (utcnow w) results in
  quiet w -> loop_fault w = None -> 0 < default_ttl (redis_config w) ->
  truthy (cached w key) = false ->
  run_tasks (warming_queries data
               (dashboard_args parent_asin start_date end_date cities)) w
  = (results, w1) ->
  json_dumps dashboard = Return doc ->
  exists w2,
    DashboardRoutes.get_comprehensive_dashboard data parent_asin start_date end_date cities w
    = (Return dashboard, w2) /\
    store w2 = <[key := Redis.Entry doc (default_ttl (redis_config w))]> (store w1) /\
    forall data',
      DashboardRoutes.get_comprehensive_dashboard data' parent_asin start_date end_date
        cities w2
      = (Return (json_loads doc), w2).
Proof.
  intros key dashboard Hq Hloop Hpos Hmiss Hrun Hdoc.
  pose proof (warming_queries_steady data
                (dashboard_args parent_asin start_date end_date cities) w Hq) as Hsteady.
  rewrite Hrun in Hsteady. simpl in Hsteady.
  destruct Hsteady as ((c1 & Hc1 & Hf1) & Hdt & _ & Hnow & _).
  destruct Hq as (c & Hc & Hf).
  rewrite dashboard_run. fold key.
  rewrite get_run, Hc, (next_fault_nil c Hf), (commanded_same w c Hc Hf).
  rewrite Hmiss, Hloop, Hrun. cbv zeta. rewrite Hnow. fold dashboard.
  rewrite set_run, Hc1, Hdoc, (next_fault_nil c1 Hf1). simpl.
  rewrite Hdt. destruct (default_ttl (redis_config w) =? 0) eqn:H0;
    [apply Z.eqb_eq in H0; lia|].
  apply Z.leb_gt in Hpos as Hleb. rewrite Hleb. simpl.
  eexists. split; [reflexivity|]. split.
  { unfold commanded. rewrite store_with_client. simpl.
    by rewrite (store_client c1 w1 Hc1). }
  intros data'.
  match goal with |- context [DashboardRoutes.get_comprehensive_dashboard _ _ _ _ _ ?x] =>
    set (w2 := x) end.
  assert (cached w2 key = json_loads doc) as Hcached.
  { unfold cached, w2, commanded. rewrite store_with_client. simpl.
    by rewrite lookup_insert_eq. }
  rewrite <- Hcached. apply dashboard_hit_at.
  - eexists. split; [reflexivity|]. simpl. unfold later_faults. by rewrite Hf1.
  - fold key. rewrite Hcached. by eapply dumped_dict_truthy.
Qed.

(** X17: the dashboard route never raises: a missing client, a failing
    command, a failing query and a failing event loop are all answered
    with a value.  When the event loop cannot run the queries, the
    answer is the dashboard found in the store or else a notice that
    carries the error, no fetch function is called and nothing is
    written. *)
Theorem dashboard_never_raises data parent_asin start_date end_date cities w :
  exists (v : pyval) w',
    DashboardRoutes.get_comprehensive_dashboard data parent_asin start_date end_date cities w
    = (Return v, w') /\
    forall e, loop_fault w = Some e ->
      store w' = store w /\ fetch_calls w' = fetch_calls w /\
      (v = gather_failure_data parent_asin start_date end_date cities (utcnow w) e \/
       (truthy v = true /\
        v = cached w (dashboard_key parent_asin start_date end_date cities))).
Proof.
  rewrite dashboard_run. cbv zeta. rewrite get_run.
  set (key := dashboard_key parent_asin start_date end_date cities).
  assert (forall (v : pyval) w1,
            loop_fault w1 = loop_fault w -> utcnow w1 = utcnow w ->
            store w1 = store w -> fetch_calls w1 = fetch_calls w ->
            (truthy v = true -> v = cached w key) ->
            exists v' w',
              (if truthy v then (Return v, w1)
               else
                 match loop_fault w1 with
                 | Some e =>
                     (Return (gather_failure_data parent_asin start_date end_date cities
                                (utcnow w1) e), w1)
                 | None =>
                     let (results, w2) :=
                       run_tasks
                         (warming_queries data
                            (dashboard_args parent_asin start_date end_date cities)) w1 in
                     (Return (dashboard_data parent_asin start_date end_date cities
                                (utcnow w2) results),
                      snd (RedisConfig.set key
                             (dashboard_data parent_asin start_date end_date cities
                                (utcnow w2) results)
                             (Some (default_ttl (redis_config w2))) w2))
                 end) = (Return v', w') /\
              forall e, loop_fault w = Some e ->
                store w' = store w /\ fetch_calls w' = fetch_calls w /\
                (v' = gather_failure_data parent_asin start_date end_date cities
                        (utcnow w) e \/
                 (truthy v' = true /\ v' = cached w key))) as Hcases.
  { intros v w1 Hl Hn Hs Hfc Hv. destruct (truthy v) eqn:Ht.
    - exists v, w1. split; [done|]. intros e _. split; [done|]. split; [done|].
      right. split; [done|]. by apply Hv.
    - rewrite Hl. destruct (loop_fault w) as [e|].
      + eexists _, w1. split; [done|]. intros e' [= <-]. rewrite Hn.
        split; [done|]. split; [done|]. by left.
      + destruct (run_tasks _ w1) as [results w2]. eexists _, _. split; [done|]. done. }
  destruct (redis_client (redis_config w)) as [c|] eqn:Hc.
  - apply Hcases; try done.
    + by rewrite (store_client c w Hc).
    + by destruct (next_fault c).
  - apply Hcases; done.
Qed.

End ComprehensiveDashboard.

Lemma dashboard_hit_witness :
  let key := dashboard_key "B00X" None None None in
  let entry := Redis.Entry (JObject [("summary_statistics", JNull)]) 600 in
  let w := example_world (Some (example_client [(key, entry)] [])) in
  quiet w /\
  DashboardRoutes.get_comprehensive_dashboard answering_data "B00X" None None None w
  = (Return (PDict [(KStr "summary_statistics", PNone)]), w).
Proof.
  intros key entry w.
  assert (quiet w) as Hq by (by eexists).
  split; [exact Hq|].
  assert (cached w key = PDict [(KStr "summary_statistics", PNone)]) as Hcached
    by (vm_compute; reflexivity).
  rewrite <- Hcached.
  apply (dashboard_hit answering_data "B00X" None None None w Hq).
  fold key. by rewrite Hcached.
Defined.

(** The timeline and the map queries fail: the dashboard that counts two
    partial failures is cached, and a data layer in which every query
    answers gets the same dashboard back. *)
Lemma dashboard_caches_partial_failures_witness :
  let w := example_world (Some (example_client [] [])) in
  let results :=
    fst (run_tasks (warming_queries example_data (dashboard_args "B00X" None None None)) w) in
  let dashboard := dashboard_data "B00X" None None None (utcnow w) results in
  quiet w /\ raised results = 2 /\
  exists w2,
    DashboardRoutes.get_comprehensive_dashboard example_data "B00X" None None None w
    = (Return dashboard, w2) /\
    DashboardRoutes.get_comprehensive_dashboard answering_data "B00X" None None None w2
    = (Return dashboard, w2).
Proof.
  intros w results dashboard.
  assert (quiet w) as Hq by (by eexists).
  split; [exact Hq|]. split; [vm_compute; reflexivity|].
  destruct (json_dumps dashboard) as [doc|e] eqn:Hdoc;
    [|vm_compute in Hdoc; discriminate].
  destruct (dashboard_caches_partial_failures example_data "B00X" None None None w
              results
              (snd (run_tasks (warming_queries example_data
                                 (dashboard_args "B00X" None None None)) w))
              doc Hq eq_refl eq_refl ltac:(vm_compute; reflexivity)
              ltac:(unfold results; by destruct (run_tasks _ w)) Hdoc)
    as (w2 & H1 & _ & H2).
  exists w2. split; [exact H1|].
  rewrite (H2 answering_data). f_equal. f_equal.
  destruct (json_roundtrip dashboard ltac:(vm_compute; reflexivity)) as (doc' & Hdoc' & <-).
  congruence.
Defined.

(** ** The dashboard after invalidation and after warming *)

Section DashboardComposition.
Context {DB : Type}.
Variable glob_match : string -> string -> bool.
Implicit Types (w : World DB) (c : Redis.client) (data : data_layer DB)
  (parent_asin : string) (start_date end_date cities : option string).

Lemma dashboard_key_generated parent_asin start_date end_date cities :
  generated (dashboard_key parent_asin start_date end_date cities).
Proof. by exists "dashboard", (dashboard_args parent_asin start_date end_date cities). Qed.

(** X18: invalidating a product does not reach its dashboard.  When
    the matcher reads the patterns of the product id by containment (the
    id has no glob metacharacter) and the id has a character that is not
    a lowercase hexadecimal digit, a dashboard that is in the store
    before the invalidation is what the dashboard route answers after
    it, without any query. *)
Theorem invalidation_leaves_dashboard data parent_asin start_date end_date cities w :
  let key := dashboard_key parent_asin start_date end_date cities in
  let after := snd (CacheManager.invalidate_product_cache glob_match parent_asin w) in
  matches_by_containment glob_match parent_asin ->
  lower_hex_only parent_asin = false ->
  quiet w -> truthy (cached w key) = true ->
  DashboardRoutes.get_comprehensive_dashboard data parent_asin start_date end_date cities
    after
  = (Return (cached w key), after).
Proof.
  intros key after Hglob Hasin (c & Hc & Hf) Hhit.
  destruct (invalidate_product_cache_report glob_match parent_asin w)
    as (n & w' & Hrun & Hreport & _).
  assert (after = w') as -> by (unfold after; by rewrite Hreport).
  assert (store w' !! key = store w !! key) as Hkeep.
  { replace w' with (snd (RedisConfig.invalidate_product_cache glob_match parent_asin w))
      by (by rewrite Hrun).
    apply delete_patterns_keeps, Forall_forall. intros pattern Hin.
    eapply pattern_misses_generated; [done|done| |done].
    apply dashboard_key_generated. }
  destruct (delete_patterns_quiet glob_match (RedisConfig.patterns parent_asin) 0 w c Hc Hf)
    as (n' & ks' & Hquiet).
  unfold RedisConfig.invalidate_product_cache in Hrun. rewrite Hrun in Hquiet.
  assert (cached w' key = cached w key) as Hcached by (unfold cached; by rewrite Hkeep).
  rewrite <- Hcached. apply dashboard_hit_at.
  - injection Hquiet as _ ->. by eexists.
  - fold key. by rewrite Hcached.
Qed.

(** A cached query whose key holds a value returns it, whatever its
    fetch function is. *)
Lemma cached_query_hit (prefix : string) (fetch_function : Fetch DB) (args : kwargs) w :
  quiet w -> cached w (RedisConfig.generate_cache_key prefix args) <> PNone ->
  Dashboard.cached_query prefix fetch_function args w
  = (Return (cached w (RedisConfig.generate_cache_key prefix args)), w).
Proof.
  intros (c & Hc & Hf) Hhit. unfold Dashboard.cached_query. cbv zeta.
  unfold bind at 1, self_component_ttl.
  by apply (cache_hit _ fetch_function _ args w c).
Qed.

Lemma warming_queries_hit data (call : kwargs) w :
  quiet w -> Forall (fun k => cached w k <> PNone) (warming_keys call) ->
  run_tasks (warming_queries data call) w
  = (map (fun k => Return (cached w k)) (warming_keys call), w).
Proof.
  intros Hq Hkeys. unfold warming_keys in *. unfold warming_queries.
  repeat (apply Forall_cons in Hkeys as [? Hkeys]).
  simpl. by rewrite !cached_query_hit.
Qed.

(** X19: a warmed product's dashboard needs no fetch.  After warming a
    product without a date range, on a connection without pending
    failures and with a data layer whose queries answer, the dashboard
    route for that product without filters calls no fetch function and
    leaves the database alone, whatever the data layer is by then; and
    the dashboard it builds when none is in the store has no partial
    failure. *)
Theorem warmed_dashboard_needs_no_fetch data parent_asin w :
  data_answers data ->
  quiet w -> loop_fault w = None -> 0 < component_ttl (redis_config w) ->
  exists w1,
    warm_cache_for_product data parent_asin None w
    = (Return [ ("product", PStr parent_asin); ("successful", PInt 6);
                ("failed", PInt 0); ("total", PInt 6) ], w1) /\
    forall data', exists (v : pyval) w2,
      DashboardRoutes.get_comprehensive_dashboard data' parent_asin None None None w1
      = (Return v, w2) /\
      fetch_calls w2 = fetch_calls w1 /\ database w2 = database w1 /\
      (truthy (cached w1 (dashboard_key parent_asin None None None)) = false ->
       exists results,
         v = dashboard_data parent_asin None None None (utcnow w1) results /\
         raised results = 0).
Proof.
  intros Hdata Hq Hloop Hpos.
  set (call := warming_params parent_asin None).
  pose proof (warming_queries_fill data call Hdata) as Hfill.
  destruct (run_tasks_fill _ _ w Hfill Hq Hpos)
    as (rs & w1 & Hrun & Hrs & Hq1 & _ & _ & Hlf & _ & Hkeys & _).
  exists w1.
  assert (length rs = 6%nat) as Hlen.
  { pose proof (run_tasks_length (warming_queries data call) w) as Hlen.
    by rewrite Hrun in Hlen. }
  split.
  { rewrite (warm_cache_run data parent_asin None w rs w1 eq_refl Hloop Hrun).
    destruct (succeeded_all rs Hrs) as [-> _]. by rewrite Hlen. }
  intros data'. rewrite dashboard_run. cbv zeta.
  destruct Hq1 as (c1 & Hc1 & Hf1).
  rewrite get_run, Hc1, (next_fault_nil c1 Hf1), (commanded_same w1 c1 Hc1 Hf1).
  destruct (truthy (cached w1 _)) eqn:Ht.
  { eexists _, w1. split; [done|]. split; [done|]. split; [done|]. done. }
  rewrite Hlf, Hloop.
  change (warming_keys call)
    with (warming_keys (dashboard_args parent_asin None None None)) in Hkeys.
  rewrite (warming_queries_hit data' _ w1 ltac:(by exists c1) Hkeys).
  match goal with |- context [RedisConfig.set ?k ?v ?t ?x] =>
    destruct (set_returns k v t x) as (b & w2 & -> & Hdb & Hfc) end.
  eexists _, w2. split; [done|]. split; [done|]. split; [done|].
  intros _. eexists. split; [reflexivity|].
  unfold raised, warming_keys. reflexivity.
Qed.

End DashboardComposition.

Lemma invalidation_leaves_dashboard_witness :
  let key := dashboard_key "B00X" None None None in
  let entry := Redis.Entry (JObject [("summary_statistics", JInt 1)]) 600 in
  let w := example_world (Some (example_client [(key, entry)] [])) in
  let after := snd (CacheManager.invalidate_product_cache glob_star "B00X" w) in
  quiet w /\
  DashboardRoutes.get_comprehensive_dashboard example_data "B00X" None None None after
  = (Return (PDict [(KStr "summary_statistics", PInt 1)]), after).
Proof.
  intros key entry w after.
  assert (quiet w) as Hq by (by eexists).
  split; [exact Hq|].
  assert (cached w key = PDict [(KStr "summary_statistics", PInt 1)]) as Hcached
    by (vm_compute; reflexivity).
  rewrite <- Hcached.
  apply (invalidation_leaves_dashboard glob_star example_data "B00X" None None None w
           (glob_star_containment "B00X" eq_refl) eq_refl Hq).
  fold key. by rewrite Hcached.
Defined.

Lemma warmed_dashboard_needs_no_fetch_witness :
  let w := example_world (Some (example_client [] [])) in
  quiet w /\
  exists w1 (v : pyval) w2,
    fst (warm_cache_for_product answering_data "B00X" None w)
    = Return [ ("product", PStr "B00X"); ("successful", PInt 6);
               ("failed", PInt 0); ("total", PInt 6) ] /\
    DashboardRoutes.get_comprehensive_dashboard example_data "B00X" None None None w1
    = (Return v, w2) /\
    fetch_calls w2 = fetch_calls w1.
Proof.
  intros w.
  assert (quiet w) as Hq by (by eexists).
  split; [exact Hq|].
  destruct (warmed_dashboard_needs_no_fetch answering_data "B00X" w
              answering_data_answers Hq eq_refl eq_refl) as (w1 & Hwarm & Hdash).
  destruct (Hdash example_data) as (v & w2 & Hrun & Hfc & _).
  exists w1, v, w2. split; [by rewrite Hwarm|]. split; [exact Hrun|exact Hfc].
Defined.

(** ** What is read from the cache is JSON-native *)

Lemma json_nested_ind (P : json -> Prop) :
  P JNull -> (forall b, P (JBool b)) -> (forall z, P (JInt z)) ->
  (forall f, P (JFloat f)) -> (forall s, P (JStr s)) ->
  (forall l, Forall P l -> P (JArray l)) ->
  (forall ms, Forall (fun m => P m.2) ms -> P (JObject ms)) ->
  forall j, P j.
Proof.
  intros HNull HBool HInt HFloat HStr HArray HObject.
  fix IH 1. intros [ |b|z|f|s|l|ms].
  - exact HNull.
  - apply HBool.
  - apply HInt.
  - apply HFloat.
  - apply HStr.
  - apply HArray. induction l as [|x l IHl]; constructor; [apply IH|exact IHl].
  - apply HObject.
    induction ms as [|[k v] ms IHms]; constructor; [apply IH|exact IHms].
Qed.

(** Setting a string key that is not in [seen] keeps a dict with
    distinct string keys outside [seen] such a dict. *)
Lemma str_keys_dict_set (s : string) (v : pyval) (items : list (pykey * pyval))
    (seen : list string) :
  existsb (String.eqb s) seen = false ->
  str_keys seen items = true ->
  str_keys seen (dict_set pykey_eqb (KStr s) v items) = true.
Proof.
  revert seen. induction items as [|[k v'] items IH]; intros seen Hs Hkeys.
  - simpl. by rewrite Hs.
  - destruct k as [t| | | |]; try done. cbn [dict_set pykey_eqb].
    simpl in Hkeys. apply andb_true_iff in Hkeys as [Ht Hkeys].
    destruct (String.eqb s t) eqn:Hst.
    + apply String.eqb_eq in Hst as ->. simpl. by rewrite Ht, Hkeys.
    + simpl. rewrite Ht. simpl. apply IH; [|done].
      simpl. by rewrite Hst, Hs.
Qed.

Lemma native_dict_set (k : pykey) (v : pyval) (items : list (pykey * pyval)) :
  json_native v = true ->
  forallb (fun kv => json_native (snd kv)) items = true ->
  forallb (fun kv => json_native (snd kv)) (dict_set pykey_eqb k v items) = true.
Proof.
  intros Hv. induction items as [|[k' v'] items IH]; simpl; intros Hitems.
  - by rewrite Hv.
  - apply andb_true_iff in Hitems as [Hv' Hitems].
    destruct (pykey_eqb k k'); simpl.
    + by rewrite Hv, Hitems.
    + by rewrite Hv', IH.
Qed.

(** Every document is read as a JSON-native value. *)
Lemma json_loads_native (doc : json) : json_native (json_loads doc) = true.
Proof.
  induction doc as [ |b|z|f|s|l IH|ms IH] using json_nested_ind; simpl; try done.
  - induction IH as [|x l Hx _ IHl]; simpl; [done|]. by rewrite Hx, IHl.
  - assert (forall acc,
              str_keys [] acc = true ->
              forallb (fun kv => json_native (snd kv)) acc = true ->
              let items := fold_left
                             (fun acc m => dict_set pykey_eqb (KStr m.1) (json_loads m.2) acc)
                             ms acc in
              str_keys [] items = true /\
              forallb (fun kv => json_native (snd kv)) items = true) as Hfold.
    { induction IH as [|m ms Hm _ IHms]; intros acc Hkeys Hnat; simpl; [done|].
      apply IHms.
      - by apply str_keys_dict_set.
      - by apply native_dict_set. }
    destruct (Hfold [] eq_refl eq_refl) as [-> ->]. done.
Qed.

Section StableValues.
Context {DB : Type}.
Implicit Types (w : World DB) (key : string).

(** X20: [get] never raises, and what it returns is JSON-native even
    when what was cached was not: tuples have become lists, dict keys
    strings, other objects their [str()].  Such a value can always be
    serialized, and it is read back as itself, so a value that came out
    of the cache does not change any more when it is cached again. *)
Theorem cached_values_are_stable key w :
  exists (v : pyval) w1 doc,
    RedisConfig.get key w = (Return v, w1) /\
    json_native v = true /\
    json_dumps v = Return doc /\ json_loads doc = v.
Proof.
  rewrite get_run.
  assert (forall v : pyval, json_native v = true ->
            forall w1, exists v' w1' doc,
              (Return v, w1) = (Return v', w1') /\ json_native v' = true /\
              json_dumps v' = Return doc /\ json_loads doc = v') as Hnative.
  { intros v Hv w1. destruct (json_roundtrip v Hv) as (doc & Hdoc & Hload).
    by exists v, w1, doc. }
  destruct (redis_client (redis_config w)) as [c|]; [|by apply Hnative].
  apply Hnative. destruct (next_fault c); [done|].
  unfold cached. destruct (store w !! key); [|done]. apply json_loads_native.
Qed.

End StableValues.

(** A value with a tuple and an int key comes back with a list and a
    string key, and then stays as it is. *)
Example cached_value_normalized :
  let v := PDict [(KInt 1, PTuple [PInt 2; PInt 3])] in
  let w := example_world (Some (example_client [] [])) in
  let w1 := snd (RedisConfig.set "k" v None w) in
  let v1 := PDict [(KStr "1", PList [PInt 2; PInt 3])] in
  fst (RedisConfig.get "k" w1) = Return v1 /\
  fst (RedisConfig.get "k" (snd (RedisConfig.set "k" v1 None w1))) = Return v1.
Proof. vm_compute. done. Qed.

(** ** The memory category *)

Lemma remove_char_absent (c : ascii) (s : string) :
  has_char c s = false -> remove_char c s = s.
Proof.
  induction s as [|x s IH]; cbn [has_char remove_char]; [done|].
  intros [-> Hs]%orb_false_elim. by rewrite (IH Hs).
Qed.

Lemma remove_char_app (c : ascii) (a b : string) :
  remove_char c (a +:+ b) = remove_char c a +:+ remove_char c b.
Proof.
  induction a as [|x a IH]; [done|].
  change (String x a +:+ b) with (String x (a +:+ b)). cbn [remove_char].
  rewrite IH. by destruct (Ascii.eqb c x).
Qed.

Lemma string_app_empty_r (s : string) : s +:+ EmptyString = s.
Proof.
  induction s as [|c s IH]; [done|].
  change (String c s +:+ EmptyString) with (String c (s +:+ EmptyString)). by rewrite IH.
Qed.

(** X21: the memory category of a size as Redis prints it, a number
    followed by a unit.  Kilobytes are low and gigabytes high whatever
    the number; megabytes are high above 100, medium above 50 and low
    otherwise, a number that is not ordered (a NaN) counting as low; and
    sizes in bytes and in terabytes are unknown. *)
Theorem memory_category_by_unit (float_of_string : string -> option spec_float)
    (number : string) (x : spec_float) :
  has_char "M" number = false -> has_char "K" number = false ->
  has_char "G" number = false ->
  float_of_string number = Some x ->
  let category (unit : string) :=
    CacheAdmin._categorize_memory_usage float_of_string (StatStr (number +:+ unit)) in
  category "K" = "low" /\ category "G" = "high" /\
  category "B" = "unknown" /\ category "T" = "unknown" /\
  category "M" = (if compare_float_int x 100 is Some Gt then "high"
                  else if compare_float_int x 50 is Some Gt then "medium"
                  else "low") /\
  (x = S754_nan -> category "M" = "low").
Proof.
  intros HM HK HG Hx category.
  assert (category "M" = (if compare_float_int x 100 is Some Gt then "high"
                          else if compare_float_int x 50 is Some Gt then "medium"
                          else "low")) as HcatM.
  { unfold category, CacheAdmin._categorize_memory_usage.
    rewrite has_char_app, HM, remove_char_app, (remove_char_absent _ _ HM).
    change (has_char "M" "M") with true. change (remove_char "M" "M") with EmptyString.
    rewrite string_app_empty_r, Hx. cbn [orb].
    by destruct (compare_float_int x 100) as [[]|], (compare_float_int x 50) as [[]|]. }
  split; [|split; [|split; [|split; [|split]]]].
  1-4: unfold category, CacheAdmin._categorize_memory_usage;
    rewrite !has_char_app, HM, HK, HG; reflexivity.
  - exact HcatM.
  - intros ->. by rewrite HcatM.
Qed.

Lemma memory_category_by_unit_witness :
  let category (s : string) :=
    CacheAdmin._categorize_memory_usage float_of_decimal (StatStr s) in
  float_of_decimal "75.50" = Some (Float64.of_ratio 7550 100) /\
  category "75.50K" = "low" /\ category "75.50G" = "high" /\
  category "75.50T" = "unknown" /\ category "75.50M" = "medium".
Proof.
  intros category. split; [reflexivity|].
  destruct (memory_category_by_unit float_of_decimal "75.50" (Float64.of_ratio 7550 100)
              eq_refl eq_refl eq_refl eq_refl) as (HK & HG & _ & HT & HM & _).
  split; [exact HK|]. split; [exact HG|]. split; [exact HT|]. exact HM.
Defined.
